(** * Request mediation core of the business data assistant

    A shallow embedding of [config/permissions.py], [config/cache.py],
    [functions/base_function.py] and [functions/client_notes.py], and the
    properties of the permission registry, the cache layer and the request
    pipeline that the specification states.  The connection test of
    [config/database.py], the validator of [scripts/validate.py] and the
    metadata extraction of [scripts/deploy.py] are embedded after them,
    with further properties read off the code.

    Conventions.
    - A Python [str] is a [string] holding its UTF-8 bytes.  Substring
      search and removal on UTF-8 bytes agree with the same operations on
      code points, and byte order is code point order.
    - Stateful code threads a [world]: the Redis store behind the cache
      singleton, the clock, the statements run on the database cursor and
      the log.
    - A Python call that may raise returns a [res]. *)

From Stdlib Require Import ZArith List String Ascii Lia DecimalString DecimalPos DecimalZ.
From stdpp Require Import base gmap strings list sorting.

#[local] Set Warnings "-register-all".
Local Open Scope Z_scope.

(** ** Python strings *)

Module PyStr.

Definition chars (s : string) : list ascii := list_ascii_of_string s.

(** [sub in s] *)
Fixpoint contains (sub s : string) : bool :=
  String.prefix sub s ||
  match s with
  | EmptyString => false
  | String _ s' => contains sub s'
  end.

(** [s.replace(old, new)] for a non-empty [old]: scan from the left, and
    at every match emit [new] and jump over the match.  [skip] counts the
    characters of a match that are still to be jumped over. *)
Fixpoint replace_from (old new : string) (skip : nat) (s : string) : string :=
  match s with
  | EmptyString => EmptyString
  | String c s' =>
      match skip with
      | S k => replace_from old new k s'
      | O =>
          if String.prefix old s
          then new +:+ replace_from old new (Nat.pred (String.length old)) s'
          else String c (replace_from old new O s')
      end
  end.

(** With an empty [old] Python puts [new] before every character and at
    the end. *)
Fixpoint intersperse (new s : string) : string :=
  match s with
  | EmptyString => new
  | String c s' => new +:+ String c (intersperse new s')
  end.

Definition replace (old new s : string) : string :=
  match old with
  | EmptyString => intersperse new s
  | String _ _ => replace_from old new O s
  end.

(** The UTF-8 encodings of the code points for which [str.isspace] holds:
    U+0009..U+000D, U+001C..U+001F, U+0020, U+0085, U+00A0, U+1680,
    U+2000..U+200A, U+2028, U+2029, U+202F, U+205F, U+3000. *)
Definition bytes (l : list N) : string :=
  string_of_list_ascii (map ascii_of_N l).

Definition whitespace : list string :=
  map bytes
    [ [9]; [10]; [11]; [12]; [13]; [28]; [29]; [30]; [31]; [32];
      [0xC2; 0x85]; [0xC2; 0xA0]; [0xE1; 0x9A; 0x80];
      [0xE2; 0x80; 0x80]; [0xE2; 0x80; 0x81]; [0xE2; 0x80; 0x82];
      [0xE2; 0x80; 0x83]; [0xE2; 0x80; 0x84]; [0xE2; 0x80; 0x85];
      [0xE2; 0x80; 0x86]; [0xE2; 0x80; 0x87]; [0xE2; 0x80; 0x88];
      [0xE2; 0x80; 0x89]; [0xE2; 0x80; 0x8A]; [0xE2; 0x80; 0xA8];
      [0xE2; 0x80; 0xA9]; [0xE2; 0x80; 0xAF]; [0xE2; 0x81; 0x9F];
      [0xE3; 0x80; 0x80] ]%N.

(** The whitespace character [s] starts with, if any. *)
Definition leading_space (s : string) : option string :=
  List.find (fun w => String.prefix w s) whitespace.

(** The whitespace character [s] ends with, if any. *)
Definition trailing_space (s : string) : option string :=
  List.find (fun w => String.prefix (String.rev w) (String.rev s)) whitespace.

Fixpoint lstrip_from (skip : nat) (s : string) : string :=
  match s with
  | EmptyString => EmptyString
  | String _ s' =>
      match skip with
      | S k => lstrip_from k s'
      | O =>
          match leading_space s with
          | Some w => lstrip_from (Nat.pred (String.length w)) s'
          | None => s
          end
      end
  end.

Definition lstrip (s : string) : string := lstrip_from O s.

(** The same scan over the reversed string, against reversed encodings. *)
Fixpoint rstrip_from (skip : nat) (r : string) : string :=
  match r with
  | EmptyString => EmptyString
  | String _ r' =>
      match skip with
      | S k => rstrip_from k r'
      | O =>
          match List.find (fun w => String.prefix (String.rev w) r) whitespace with
          | Some w => rstrip_from (Nat.pred (String.length w)) r'
          | None => r
          end
      end
  end.

Definition rstrip (s : string) : string :=
  String.rev (rstrip_from O (String.rev s)).

(** [s.strip()] *)
Definition strip (s : string) : string := rstrip (lstrip s).

(** [str(n)] for an int *)
Definition of_Z (n : Z) : string := NilZero.string_of_int (Z.to_int n).

(** [n] written with at least [width] digits, as [%02d] does *)
Definition zero_pad (width : nat) (n : Z) : string :=
  let d := of_Z n in
  string_of_list_ascii (repeat "0"%char (width - String.length d)) +:+ d.

Definition hex_digit (d : Z) : ascii :=
  ascii_of_N (Z.to_N (if d <? 10 then 48 + d else 87 + d)).

Definition hex_byte (b : Z) : string :=
  String (hex_digit (Z.shiftr b 4))
    (String (hex_digit (Z.land b 0xF)) EmptyString).

Definition code (a : ascii) : Z := Z.of_N (N_of_ascii a).
Definition chr (n : Z) : ascii := ascii_of_N (Z.to_N n).

(** [s.lower()] on the letters A to Z; no other code point lowers to one
    of the letters of an ASCII word, so comparing the result with such a
    word is exact. *)
Definition lower_char (c : ascii) : ascii :=
  let n := code c in
  if (65 <=? n) && (n <=? 90) then chr (n + 32) else c.

Fixpoint lower (s : string) : string :=
  match s with
  | EmptyString => EmptyString
  | String c s' => String (lower_char c) (lower s')
  end.

(** [s[:n]]: the first [n] code points.  A byte [10xxxxxx] continues the
    code point before it. *)
Fixpoint take (n : nat) (s : string) : string :=
  match s with
  | EmptyString => EmptyString
  | String c s' =>
      if (128 <=? code c) && (code c <? 192) then String c (take n s')
      else match n with
           | O => EmptyString
           | S k => String c (take k s')
           end
  end.

Definition nl : string := String (chr 10) EmptyString.

End PyStr.

(** ** Python values

    The values that travel through the pipeline: call arguments, query
    parameters and column values.  A dict keeps its insertion order and
    has [str] keys; a datetime is naive and has no microseconds. *)

Record datetime := {
  dt_year : Z; dt_month : Z; dt_day : Z;
  dt_hour : Z; dt_minute : Z; dt_second : Z
}.

Inductive pyval :=
| PyNone
| PyBool (b : bool)
| PyInt (n : Z)
| PyStr (s : string)
| PyDatetime (d : datetime)
| PyList (xs : list pyval)
| PyTuple (xs : list pyval)
| PyDict (items : list (string * pyval)).

Definition pydict := list (string * pyval).

(** [d.get(k)]; in a dict built from pairs the last pair of a key wins. *)
Fixpoint dict_get {A} (d : list (string * A)) (k : string) : option A :=
  match d with
  | [] => None
  | (k', v) :: d' =>
      match dict_get d' k with
      | Some v' => Some v'
      | None => if String.eqb k' k then Some v else None
      end
  end.

Module PyRepr.

Definition dquote : ascii := ascii_of_N 34.
Definition squote : ascii := ascii_of_N 39.
Definition backslash : ascii := ascii_of_N 92.

(** One character of [repr(s)] inside the quotes [q].  Bytes of a
    multi-byte code point are kept: a code point outside ASCII is taken
    to be printable. *)
Definition repr_char (q c : ascii) : string :=
  let n := PyStr.code c in
  if Ascii.eqb c backslash then String backslash (String backslash EmptyString)
  else if Ascii.eqb c q then String backslash (String q EmptyString)
  else if n =? 9 then String backslash "t"
  else if n =? 10 then String backslash "n"
  else if n =? 13 then String backslash "r"
  else if (n <? 32) || (n =? 127) then String backslash ("x" +:+ PyStr.hex_byte n)
  else String c EmptyString.

(** [repr(s)] for a str: single quotes, unless the text has a single
    quote and no double quote. *)
Definition repr_str (s : string) : string :=
  let q :=
    if PyStr.contains (String squote EmptyString) s
       && negb (PyStr.contains (String dquote EmptyString) s)
    then dquote else squote in
  String q (String.concat "" (map (repr_char q) (PyStr.chars s)))
    +:+ String q EmptyString.

Definition repr_datetime (d : datetime) : string :=
  "datetime.datetime(" +:+
  String.concat ", "
    (map PyStr.of_Z
       ([dt_year d; dt_month d; dt_day d; dt_hour d; dt_minute d]
        ++ (if dt_second d =? 0 then [] else [dt_second d]))) +:+ ")".

(** [repr(v)] *)
Fixpoint repr (v : pyval) : string :=
  match v with
  | PyNone => "None"
  | PyBool true => "True"
  | PyBool false => "False"
  | PyInt n => PyStr.of_Z n
  | PyStr s => repr_str s
  | PyDatetime d => repr_datetime d
  | PyList xs => "[" +:+ String.concat ", " (map repr xs) +:+ "]"
  | PyTuple xs =>
      match xs with
      | [x] => "(" +:+ repr x +:+ ",)"
      | _ => "(" +:+ String.concat ", " (map repr xs) +:+ ")"
      end
  | PyDict items =>
      "{" +:+ String.concat ", "
                (map (fun kv => repr_str (fst kv) +:+ ": " +:+ repr (snd kv)) items)
          +:+ "}"
  end.

(** [d.strftime('%Y-%m-%d %H:%M')] *)
Definition strftime_minutes (d : datetime) : string :=
  PyStr.zero_pad 4 (dt_year d) +:+ "-" +:+ PyStr.zero_pad 2 (dt_month d) +:+ "-" +:+
  PyStr.zero_pad 2 (dt_day d) +:+ " " +:+ PyStr.zero_pad 2 (dt_hour d) +:+ ":" +:+
  PyStr.zero_pad 2 (dt_minute d).

(** [str(v)], which is what an f-string field prints *)
Definition str (v : pyval) : string :=
  match v with
  | PyStr s => s
  | PyDatetime d => strftime_minutes d +:+ ":" +:+ PyStr.zero_pad 2 (dt_second d)
  | _ => repr v
  end.

(** Truth value of [v] *)
Definition truthy (v : pyval) : bool :=
  match v with
  | PyNone => false
  | PyBool b => b
  | PyInt n => negb (n =? 0)
  | PyStr s => negb (String.eqb s "")
  | PyDatetime _ => true
  | PyList xs | PyTuple xs => match xs with [] => false | _ => true end
  | PyDict items => match items with [] => false | _ => true end
  end.

End PyRepr.

(** ** hashlib.md5 (RFC 1321) over the bytes of a string *)

Module MD5.

Definition mask32 : Z := 0xFFFFFFFF.
Definition w32 (x : Z) : Z := Z.land x mask32.
Definition not32 (x : Z) : Z := Z.lxor x mask32.
Definition rotl32 (x c : Z) : Z :=
  w32 (Z.lor (Z.shiftl x c) (Z.shiftr x (32 - c))).

Definition S_table : list Z :=
  [7; 12; 17; 22; 7; 12; 17; 22; 7; 12; 17; 22; 7; 12; 17; 22;
   5; 9; 14; 20; 5; 9; 14; 20; 5; 9; 14; 20; 5; 9; 14; 20;
   4; 11; 16; 23; 4; 11; 16; 23; 4; 11; 16; 23; 4; 11; 16; 23;
   6; 10; 15; 21; 6; 10; 15; 21; 6; 10; 15; 21; 6; 10; 15; 21].

Definition K_table : list Z :=
  [0xd76aa478; 0xe8c7b756; 0x242070db; 0xc1bdceee;
   0xf57c0faf; 0x4787c62a; 0xa8304613; 0xfd469501;
   0x698098d8; 0x8b44f7af; 0xffff5bb1; 0x895cd7be;
   0x6b901122; 0xfd987193; 0xa679438e; 0x49b40821;
   0xf61e2562; 0xc040b340; 0x265e5a51; 0xe9b6c7aa;
   0xd62f105d; 0x02441453; 0xd8a1e681; 0xe7d3fbc8;
   0x21e1cde6; 0xc33707d6; 0xf4d50d87; 0x455a14ed;
   0xa9e3e905; 0xfcefa3f8; 0x676f02d9; 0x8d2a4c8a;
   0xfffa3942; 0x8771f681; 0x6d9d6122; 0xfde5380c;
   0xa4beea44; 0x4bdecfa9; 0xf6bb4b60; 0xbebfbc70;
   0x289b7ec6; 0xeaa127fa; 0xd4ef3085; 0x04881d05;
   0xd9d4d039; 0xe6db99e5; 0x1fa27cf8; 0xc4ac5665;
   0xf4292244; 0x432aff97; 0xab9423a7; 0xfc93a039;
   0x655b59c3; 0x8f0ccc92; 0xffeff47d; 0x85845dd1;
   0x6fa87e4f; 0xfe2ce6e0; 0xa3014314; 0x4e0811a1;
   0xf7537e82; 0xbd3af235; 0x2ad7d2bb; 0xeb86d391].

Definition bytes_of (s : string) : list Z := map PyStr.code (PyStr.chars s).

(** the [n] low bytes of [x], lowest first *)
Fixpoint le_bytes (n : nat) (x : Z) : list Z :=
  match n with
  | O => []
  | S n' => Z.land x 0xFF :: le_bytes n' (Z.shiftr x 8)
  end.

(** padding: a one bit, zeros up to 56 modulo 64, the bit length on 8 bytes *)
Definition pad (msg : list Z) : list Z :=
  let len := Z.of_nat (length msg) in
  msg ++ [0x80] ++ repeat 0 (Z.to_nat ((55 - len) mod 64))
      ++ le_bytes 8 (Z.land (8 * len) 0xFFFFFFFFFFFFFFFF).

Fixpoint le_word (bs : list Z) : Z :=
  match bs with
  | [] => 0
  | b :: bs' => b + 256 * le_word bs'
  end.

Fixpoint words (n : nat) (bs : list Z) : list Z :=
  match n with
  | O => []
  | S n' => le_word (take 4 bs) :: words n' (drop 4 bs)
  end.

Definition state : Type := Z * Z * Z * Z.

Definition round (M : list Z) (st : state) (i : Z) : state :=
  let '(A, B, C, D) := st in
  let '(F, g) :=
    if i <? 16 then (Z.lor (Z.land B C) (Z.land (not32 B) D), i)
    else if i <? 32 then (Z.lor (Z.land D B) (Z.land (not32 D) C), (5 * i + 1) mod 16)
    else if i <? 48 then (Z.lxor (Z.lxor B C) D, (3 * i + 5) mod 16)
    else (Z.lxor C (Z.lor B (not32 D)), (7 * i) mod 16) in
  let F' := w32 (F + A + nth (Z.to_nat i) K_table 0 + nth (Z.to_nat g) M 0) in
  (D, w32 (B + rotl32 F' (nth (Z.to_nat i) S_table 0)), B, C).

Definition process_block (h : state) (block : list Z) : state :=
  let M := words 16 block in
  let '(a0, b0, c0, d0) := h in
  let '(A, B, C, D) := fold_left (round M) (map Z.of_nat (seq 0 64)) h in
  (w32 (a0 + A), w32 (b0 + B), w32 (c0 + C), w32 (d0 + D)).

Fixpoint blocks (n : nat) (h : state) (bs : list Z) : state :=
  match n with
  | O => h
  | S n' => blocks n' (process_block h (take 64 bs)) (drop 64 bs)
  end.

(** [hashlib.md5(s.encode()).hexdigest()] *)
Definition hexdigest (s : string) : string :=
  let bs := pad (bytes_of s) in
  let '(a, b, c, d) :=
    blocks (length bs / 64) (0x67452301, 0xefcdab89, 0x98badcfe, 0x10325476) bs in
  String.concat ""
    (map PyStr.hex_byte (le_bytes 4 a ++ le_bytes 4 b ++ le_bytes 4 c ++ le_bytes 4 d)).

End MD5.

(** ** config/permissions.py *)

Module Role.
Definition ADMIN : string := "admin".
Definition SALES : string := "sales".
Definition SUPPORT : string := "support".
Definition FINANCE : string := "finance".
Definition READONLY : string := "readonly".
End Role.

Module PermissionConfig.

Import Role.

Definition FUNCTION_PERMISSIONS : gmap string (list string) :=
  list_to_map
    [ ("get_client_notes", [ADMIN; SALES; SUPPORT]);
      ("get_all_notes", [ADMIN; SALES; SUPPORT]);
      ("get_transaction_count", [ADMIN; FINANCE; SALES]);
      ("get_total_amount_paid", [ADMIN; FINANCE]);
      ("get_payment_history", [ADMIN; FINANCE]);
      ("get_contract_status", [ADMIN; SALES]);
      ("get_client_summary", [ADMIN; SALES; FINANCE]) ].

Definition RATE_LIMITS : gmap string Z :=
  list_to_map
    [ (ADMIN, 1000); (SALES, 500); (SUPPORT, 500); (FINANCE, 300); (READONLY, 100) ].

Record data_access := {
  acc_view_all_clients : bool;
  acc_view_financials : bool;
  acc_tables : option (list string)   (* [None] is the wildcard of all tables *)
}.

Definition DATA_ACCESS : gmap string data_access :=
  list_to_map
    [ (ADMIN, {| acc_view_all_clients := true; acc_view_financials := true;
                 acc_tables := None |});
      (SALES, {| acc_view_all_clients := true; acc_view_financials := false;
                 acc_tables := Some ["dbo.notes"; "dbo.contracts"; "dbo.clients"] |});
      (SUPPORT, {| acc_view_all_clients := false; acc_view_financials := false;
                   acc_tables := Some ["dbo.notes"; "dbo.tickets"] |});
      (FINANCE, {| acc_view_all_clients := true; acc_view_financials := true;
                   acc_tables := Some ["dbo.payments"; "dbo.invoices"; "dbo.contracts"] |});
      (READONLY, {| acc_view_all_clients := false; acc_view_financials := false;
                    acc_tables := Some [] |}) ].

(** [FUNCTION_PERMISSIONS.get(function_name, [])] *)
Definition allowed_roles (function_name : string) : list string :=
  default [] (FUNCTION_PERMISSIONS !! function_name).

Definition can_access_function (role function_name : string) : bool :=
  bool_decide (role ∈ allowed_roles function_name) || bool_decide (role = ADMIN).

Definition get_rate_limit (role : string) : Z :=
  default 100 (RATE_LIMITS !! role).

Definition can_view_all_clients (role : string) : bool :=
  match DATA_ACCESS !! role with
  | Some access => acc_view_all_clients access
  | None => false
  end.

Definition can_view_financials (role : string) : bool :=
  match DATA_ACCESS !! role with
  | Some access => acc_view_financials access
  | None => false
  end.

End PermissionConfig.

(** ** Results of calls that may raise *)

Inductive res (A : Type) :=
| Ret (a : A)
| Raise (msg : string).
Arguments Ret {A} a.
Arguments Raise {A} msg.

(** ** json.dumps and json.loads

    [dumps] is [json.dumps(value, default=str)] with the default
    [ensure_ascii]: every code point outside printable ASCII is written as
    a [\uXXXX] escape (two of them, a surrogate pair, above U+FFFF).
    [loads] decodes a JSON scalar; that covers what [dumps] writes for the
    strings this program caches and the counters Redis holds.  A document
    that is an array, an object or a float is outside the model. *)

Module Json.

Import PyRepr.

Definition hex4 (n : Z) : string :=
  PyStr.hex_byte (Z.shiftr n 8) +:+ PyStr.hex_byte (Z.land n 0xFF).

Definition escape_unit (n : Z) : string := String backslash ("u" +:+ hex4 n).

Definition escape_code_point (cp : Z) : string :=
  if cp <? 0x10000 then escape_unit cp
  else
    let v := cp - 0x10000 in
    escape_unit (0xD800 + Z.shiftr v 10) +:+ escape_unit (0xDC00 + Z.land v 0x3FF).

Definition escape_ascii (c : ascii) : string :=
  let n := PyStr.code c in
  if Ascii.eqb c dquote then String backslash (String dquote EmptyString)
  else if Ascii.eqb c backslash then String backslash (String backslash EmptyString)
  else if n =? 10 then String backslash "n"
  else if n =? 13 then String backslash "r"
  else if n =? 9 then String backslash "t"
  else if n =? 8 then String backslash "b"
  else if n =? 12 then String backslash "f"
  else if (n <? 32) || (n =? 127) then escape_unit n
  else String c EmptyString.

Definition cont (c : ascii) : Z := Z.land (PyStr.code c) 0x3F.

(** The code point at the head of [s] and the number of bytes it takes,
    for a head byte outside ASCII. *)
Definition decode_utf8 (s : string) : option (Z * nat) :=
  match s with
  | String a (String b rest) =>
      let n := PyStr.code a in
      if n <? 0xE0 then Some (Z.land n 0x1F * 64 + cont b, 2%nat)
      else
        match rest with
        | String c rest' =>
            if n <? 0xF0 then Some ((Z.land n 0x0F * 64 + cont b) * 64 + cont c, 3%nat)
            else
              match rest' with
              | String d _ =>
                  Some (((Z.land n 0x07 * 64 + cont b) * 64 + cont c) * 64 + cont d, 4%nat)
              | EmptyString => None
              end
        | EmptyString => None
        end
  | _ => None
  end.

Fixpoint escape_from (skip : nat) (s : string) : string :=
  match s with
  | EmptyString => EmptyString
  | String c s' =>
      match skip with
      | S k => escape_from k s'
      | O =>
          if PyStr.code c <? 0x80 then escape_ascii c +:+ escape_from O s'
          else
            match decode_utf8 s with
            | Some (cp, len) => escape_code_point cp +:+ escape_from (Nat.pred len) s'
            | None => escape_unit (PyStr.code c) +:+ escape_from O s'
            end
      end
  end.

Definition dumps_str (s : string) : string :=
  String dquote (escape_from O s) +:+ String dquote EmptyString.

Fixpoint dumps (v : pyval) : string :=
  match v with
  | PyNone => "null"
  | PyBool true => "true"
  | PyBool false => "false"
  | PyInt n => PyStr.of_Z n
  | PyStr s => dumps_str s
  | PyDatetime d => dumps_str (PyRepr.str (PyDatetime d))
  | PyList xs | PyTuple xs => "[" +:+ String.concat ", " (map dumps xs) +:+ "]"
  | PyDict items =>
      "{" +:+ String.concat ", "
                (map (fun kv => dumps_str (fst kv) +:+ ": " +:+ dumps (snd kv)) items)
          +:+ "}"
  end.

Definition hex_value (c : ascii) : option Z :=
  let n := PyStr.code c in
  if (48 <=? n) && (n <=? 57) then Some (n - 48)
  else if (97 <=? n) && (n <=? 102) then Some (n - 87)
  else if (65 <=? n) && (n <=? 70) then Some (n - 55)
  else None.

Definition unit_value (a b c d : ascii) : option Z :=
  match hex_value a, hex_value b, hex_value c, hex_value d with
  | Some x, Some y, Some z, Some t => Some (((x * 16 + y) * 16 + z) * 16 + t)
  | _, _, _, _ => None
  end.

(** UTF-8 bytes of a code point *)
Definition encode_utf8 (cp : Z) : string :=
  let b (n : Z) := PyStr.chr n in
  if cp <? 0x80 then String (b cp) EmptyString
  else if cp <? 0x800 then
    String (b (0xC0 + Z.shiftr cp 6)) (String (b (0x80 + Z.land cp 0x3F)) EmptyString)
  else if cp <? 0x10000 then
    String (b (0xE0 + Z.shiftr cp 12))
      (String (b (0x80 + Z.land (Z.shiftr cp 6) 0x3F))
         (String (b (0x80 + Z.land cp 0x3F)) EmptyString))
  else
    String (b (0xF0 + Z.shiftr cp 18))
      (String (b (0x80 + Z.land (Z.shiftr cp 12) 0x3F))
         (String (b (0x80 + Z.land (Z.shiftr cp 6) 0x3F))
            (String (b (0x80 + Z.land cp 0x3F)) EmptyString))).

Definition is_json_space (c : ascii) : bool :=
  let n := PyStr.code c in
  (n =? 32) || (n =? 9) || (n =? 10) || (n =? 13).

Fixpoint skip_space (s : string) : string :=
  match s with
  | String c s' => if is_json_space c then skip_space s' else s
  | EmptyString => EmptyString
  end.

Definition simple_escape (e : ascii) : option ascii :=
  let n := PyStr.code e in
  if Ascii.eqb e dquote then Some dquote
  else if Ascii.eqb e backslash then Some backslash
  else if n =? 47 then Some (PyStr.chr 47)
  else if n =? 98 then Some (PyStr.chr 8)
  else if n =? 102 then Some (PyStr.chr 12)
  else if n =? 110 then Some (PyStr.chr 10)
  else if n =? 114 then Some (PyStr.chr 13)
  else if n =? 116 then Some (PyStr.chr 9)
  else None.

(** The string literal whose opening quote was just read: its text and
    what follows the closing quote. *)
Fixpoint string_body (s : string) : option (string * string) :=
  match s with
  | EmptyString => None
  | String c s1 =>
      if Ascii.eqb c dquote then Some (EmptyString, s1)
      else if PyStr.code c <? 32 then None
      else if negb (Ascii.eqb c backslash) then
        match string_body s1 with
        | Some (t, rest) => Some (String c t, rest)
        | None => None
        end
      else
        match s1 with
        | EmptyString => None
        | String e s2 =>
            if Ascii.eqb e "u"%char then
              match s2 with
              | String h1 (String h2 (String h3 (String h4 s6))) =>
                  match unit_value h1 h2 h3 h4 with
                  | None => None
                  | Some hi =>
                      let single :=
                        match string_body s6 with
                        | Some (t, rest) => Some (encode_utf8 hi +:+ t, rest)
                        | None => None
                        end in
                      if (0xD800 <=? hi) && (hi <=? 0xDBFF) then
                        match s6 with
                        | String b1 (String u1 (String l1 (String l2 (String l3 (String l4 s12))))) =>
                            match unit_value l1 l2 l3 l4 with
                            | Some lo =>
                                if Ascii.eqb b1 backslash && Ascii.eqb u1 "u"%char
                                   && (0xDC00 <=? lo) && (lo <=? 0xDFFF)
                                then
                                  match string_body s12 with
                                  | Some (t, rest) =>
                                      Some (encode_utf8
                                              (0x10000 + (hi - 0xD800) * 1024 + (lo - 0xDC00))
                                              +:+ t, rest)
                                  | None => None
                                  end
                                else single
                            | None => single
                            end
                        | _ => single
                        end
                      else single
                  end
              | _ => None
              end
            else
              match simple_escape e, string_body s2 with
              | Some c', Some (t, rest) => Some (String c' t, rest)
              | _, _ => None
              end
        end
  end.

(** An integer literal: an optional minus sign, then [0] or digits that
    do not start with [0]. *)
Fixpoint digits (acc : Z) (s : string) : option Z :=
  match s with
  | EmptyString => Some acc
  | String c s' =>
      let n := PyStr.code c in
      if (48 <=? n) && (n <=? 57) then digits (10 * acc + (n - 48)) s' else None
  end.

Definition natural (s : string) : option Z :=
  match s with
  | EmptyString => None
  | String c s' =>
      if Ascii.eqb c "0"%char
      then (match s' with EmptyString => Some 0 | _ => None end)
      else digits 0 s
  end.

Definition integer (s : string) : option Z :=
  match s with
  | String c s' =>
      if Ascii.eqb c "-"%char then option_map Z.opp (natural s') else natural s
  | EmptyString => None
  end.

Definition invalid : res pyval := Raise "Expecting value".

Definition loads (text : string) : res pyval :=
  match skip_space text with
  | EmptyString => invalid
  | String c s' as s =>
      if Ascii.eqb c dquote then
        match string_body s' with
        | Some (t, rest) =>
            match skip_space rest with
            | EmptyString => Ret (PyStr t)
            | _ => Raise "Extra data"
            end
        | None => Raise "Unterminated string"
        end
      else
        let body := String.rev (skip_space (String.rev s)) in
        if String.eqb body "null" then Ret PyNone
        else if String.eqb body "true" then Ret (PyBool true)
        else if String.eqb body "false" then Ret (PyBool false)
        else match integer body with
             | Some n => Ret (PyInt n)
             | None => invalid
             end
  end.

End Json.

(** ** The world the pipeline runs in *)

(** A key of the Redis store: its text and the time it expires at, if any. *)
Record entry := {
  e_value : string;
  e_expiry : option Z
}.

Record world := {
  cache_client : bool;          (* [CacheConfig._client] is set: Redis answered at start-up *)
  redis_fault : option string;  (* the exception every Redis command raises now, if any *)
  redis : gmap string entry;
  now : Z;                      (* the clock of the Redis server, in seconds *)
  executed : list (string * list pyval);   (* statements sent through a cursor, oldest first *)
  logs : list (string * string)            (* level and message, oldest first *)
}.

Definition set_redis (st : gmap string entry) (w : world) : world :=
  {| cache_client := cache_client w; redis_fault := redis_fault w; redis := st;
     now := now w; executed := executed w; logs := logs w |}.

Definition log (level msg : string) (w : world) : world :=
  {| cache_client := cache_client w; redis_fault := redis_fault w; redis := redis w;
     now := now w; executed := executed w; logs := logs w ++ [(level, msg)] |}.

Definition record_statement (sql : string) (params : list pyval) (w : world) : world :=
  {| cache_client := cache_client w; redis_fault := redis_fault w; redis := redis w;
     now := now w; executed := executed w ++ [(sql, params)]; logs := logs w |}.

(** The clock moves between calls. *)
Definition at_time (t : Z) (w : world) : world :=
  {| cache_client := cache_client w; redis_fault := redis_fault w; redis := redis w;
     now := t; executed := executed w; logs := logs w |}.

(** What the process is configured with, and how the database answers.
    The query file [functions/json/queries.json] and the environment are
    not part of the sources, so they are parameters here. *)
Record env := {
  default_ttl : Z;                              (* CACHE_TTL_SECONDS, 300 if unset *)
  max_query_rows : Z;                           (* MAX_QUERY_ROWS, 1000 if unset *)
  ENABLE_ROW_LEVEL_SECURITY : option string;    (* the variable, if set *)
  notes_query : option string;                  (* QUERIES["client_notes"]["get_all_notes"] *)
  db_connect : res unit;                        (* [pyodbc.connect] *)
  db_execute : string -> list pyval -> res (list string * list (list pyval));
                                                (* [cursor.execute]: column names and rows *)
  glob_match : string -> string -> bool         (* Redis pattern matching of KEYS *)
}.

(** ** The Redis server, as the client library shows it *)

Module Redis.

Definition live (t : Z) (e : entry) : bool :=
  match e_expiry e with
  | Some deadline => t <? deadline
  | None => true
  end.

Definition lookup (st : gmap string entry) (t : Z) (key : string) : option entry :=
  match st !! key with
  | Some e => if live t e then Some e else None
  | None => None
  end.

Definition int64_ok (n : Z) : bool := (- 2 ^ 63 <=? n) && (n <? 2 ^ 63).

(** The text of a 64-bit integer as Redis reads it: the decimal writing
    of the number and nothing else (no plus sign, no leading zero, no
    blank, no [-0]). *)
Definition parse_int (s : string) : option Z :=
  match NilZero.int_of_string s with
  | Some d =>
      let n := Z.of_int d in
      if String.eqb (PyStr.of_Z n) s && int64_ok n then Some n else None
  | None => None
  end.

Definition GET (key : string) (st : gmap string entry) (t : Z)
    : res (option string * gmap string entry) :=
  Ret (e_value <$> lookup st t key, st).

Definition SETEX (key : string) (seconds : Z) (value : string)
    (st : gmap string entry) (t : Z) : res (unit * gmap string entry) :=
  if seconds <=? 0 then Raise "invalid expire time in 'setex' command"
  else Ret (tt, <[key := {| e_value := value; e_expiry := Some (t + seconds) |}]> st).

Definition INCRBY (key : string) (amount : Z) (st : gmap string entry) (t : Z)
    : res (Z * gmap string entry) :=
  let '(old, expiry) :=
    match lookup st t key with
    | Some e => (parse_int (e_value e), e_expiry e)
    | None => (Some 0, None)
    end in
  match old with
  | None => Raise "value is not an integer or out of range"
  | Some n =>
      if int64_ok (n + amount)
      then Ret (n + amount,
                <[key := {| e_value := PyStr.of_Z (n + amount); e_expiry := expiry |}]> st)
      else Raise "increment or decrement would overflow"
  end.

Definition EXPIRE (key : string) (seconds : Z) (st : gmap string entry) (t : Z)
    : res (bool * gmap string entry) :=
  match lookup st t key with
  | Some e =>
      if seconds <=? 0 then Ret (true, delete key st)
      else Ret (true, <[key := {| e_value := e_value e; e_expiry := Some (t + seconds) |}]> st)
  | None => Ret (false, st)
  end.

Definition DEL (keys : list string) (st : gmap string entry) (t : Z)
    : res (Z * gmap string entry) :=
  Ret (Z.of_nat (length (filter (fun k => is_Some (lookup st t k)) (remove_dups keys))),
       foldr delete st keys).

Definition KEYS (matches : string -> bool) (st : gmap string entry) (t : Z)
    : res (list string * gmap string entry) :=
  Ret (filter (fun k => matches k = true ∧ is_Some (lookup st t k)) (map fst (map_to_list st)),
       st).

(** A command sent through the client: it raises when the server does not
    answer, and changes the store otherwise. *)
Definition call {A} (cmd : gmap string entry -> Z -> res (A * gmap string entry))
    (w : world) : res A * world :=
  match redis_fault w with
  | Some msg => (Raise msg, w)
  | None =>
      match cmd (redis w) (now w) with
      | Ret (a, st) => (Ret a, set_redis st w)
      | Raise msg => (Raise msg, w)
      end
  end.

End Redis.

(** ** config/cache.py *)

Module CacheConfig.

Definition get (key : string) (w : world) : pyval * world :=
  if negb (cache_client w) then (PyNone, w)
  else
    match Redis.call (Redis.GET key) w with
    | (Ret value, w1) =>
        match value with
        | Some (String _ _ as text) =>
            let w2 := log "DEBUG" ("Cache HIT: " +:+ key) w1 in
            match Json.loads text with
            | Ret v => (v, w2)
            | Raise msg => (PyNone, log "ERROR" ("Cache get error: " +:+ msg) w2)
            end
        | _ => (PyNone, log "DEBUG" ("Cache MISS: " +:+ key) w1)
        end
    | (Raise msg, w1) => (PyNone, log "ERROR" ("Cache get error: " +:+ msg) w1)
    end.

(** [ttl or self.default_ttl] *)
Definition ttl_or_default (cfg : env) (ttl : option Z) : Z :=
  match ttl with
  | Some t => if t =? 0 then default_ttl cfg else t
  | None => default_ttl cfg
  end.

Definition set (cfg : env) (key : string) (value : pyval) (ttl : option Z) (w : world)
    : bool * world :=
  if negb (cache_client w) then (false, w)
  else
    let ttl := ttl_or_default cfg ttl in
    match Redis.call (Redis.SETEX key ttl (Json.dumps value)) w with
    | (Ret _, w1) =>
        (true, log "DEBUG" ("Cache SET: " +:+ key +:+ " (TTL: " +:+ PyStr.of_Z ttl +:+ "s)") w1)
    | (Raise msg, w1) => (false, log "ERROR" ("Cache set error: " +:+ msg) w1)
    end.

Definition delete (key : string) (w : world) : bool * world :=
  if negb (cache_client w) then (false, w)
  else
    match Redis.call (Redis.DEL [key]) w with
    | (Ret _, w1) => (true, log "DEBUG" ("Cache DELETE: " +:+ key) w1)
    | (Raise msg, w1) => (false, log "ERROR" ("Cache delete error: " +:+ msg) w1)
    end.

Definition clear_pattern (cfg : env) (pattern : string) (w : world) : Z * world :=
  if negb (cache_client w) then (0, w)
  else
    match Redis.call (Redis.KEYS (glob_match cfg pattern)) w with
    | (Ret [], w1) => (0, w1)
    | (Ret keys, w1) =>
        match Redis.call (Redis.DEL keys) w1 with
        | (Ret deleted, w2) =>
            (deleted,
             log "INFO" ("Cache cleared: " +:+ PyStr.of_Z deleted +:+ " keys matching '"
                         +:+ pattern +:+ "'") w2)
        | (Raise msg, w2) => (0, log "ERROR" ("Cache clear error: " +:+ msg) w2)
        end
    | (Raise msg, w1) => (0, log "ERROR" ("Cache clear error: " +:+ msg) w1)
    end.

Definition item_le (a b : string * pyval) : Prop := String.le (fst a) (fst b).

#[export] Instance item_le_dec : RelDecision item_le.
Proof. intros a b. unfold item_le. apply _. Defined.

(** [sorted(kwargs.items())]: the keys of a dict differ, so the order of
    the pairs is the order of their keys. *)
Definition sorted_items (kwargs : pydict) : pydict := merge_sort item_le kwargs.

Definition key_data (args : list pyval) (kwargs : pydict) : string :=
  PyRepr.repr (PyTuple args) +:+ ":" +:+
  PyRepr.repr (PyList (map (fun kv => PyTuple [PyStr (fst kv); snd kv]) (sorted_items kwargs))).

Definition generate_cache_key (args : list pyval) (kwargs : pydict) : string :=
  MD5.hexdigest (key_data args kwargs).

Definition increment (key : string) (amount : Z) (w : world) : Z * world :=
  if negb (cache_client w) then (0, w)
  else
    match Redis.call (Redis.INCRBY key amount) w with
    | (Ret n, w1) => (n, w1)
    | (Raise msg, w1) => (0, log "ERROR" ("Cache increment error: " +:+ msg) w1)
    end.

Definition expire (key : string) (seconds : Z) (w : world) : bool * world :=
  if negb (cache_client w) then (false, w)
  else
    match Redis.call (Redis.EXPIRE key seconds) w with
    | (Ret b, w1) => (b, w1)
    | (Raise msg, w1) => (false, log "ERROR" ("Cache expire error: " +:+ msg) w1)
    end.

End CacheConfig.

(** ** functions/base_function.py *)

Module BaseClientFunction.

Section Methods.

Variable cfg : env.
Variable FUNCTION_NAME : string.

(** [user.get('id', 'unknown')] as an f-string prints it *)
Definition user_id_text (user : pydict) : string :=
  match dict_get user "id" with
  | Some v => PyRepr.str v
  | None => "unknown"
  end.

(** [user.get('role', '')].  A role that is not a str equals no role name
    and is a key of no table, which is how the empty default behaves. *)
Definition user_role (user : pydict) : string :=
  match dict_get user "role" with
  | Some (PyStr r) => r
  | _ => ""
  end.

Definition user_role_text (user : pydict) : string :=
  match dict_get user "role" with
  | Some v => PyRepr.str v
  | None => ""
  end.

Definition UNAVAILABLE : string := "Unable to retrieve data. Please try again later.".

(** [cursor.execute(sql, params)] *)
Definition cursor_execute (sql : string) (params : list pyval) (w : world)
    : res (list string * list (list pyval)) * world :=
  (db_execute cfg sql params, record_statement sql params w).

(** The body of the [try] of [_execute_query]. *)
Definition run_query (query : string) (params : list pyval) (max_rows : Z) (w : world)
    : res (list pydict) * world :=
  match db_connect cfg with
  | Raise msg => (Raise msg, log "ERROR" ("Database connection failed: " +:+ msg) w)
  | Ret _ =>
      let w := log "DEBUG" "Database connection acquired from pool" w in
      match cursor_execute "SET LOCK_TIMEOUT 5000" [] w with
      | (Raise msg, w) => (Raise msg, w)
      | (Ret _, w) =>
          match cursor_execute ("SET ROWCOUNT " +:+ PyStr.of_Z max_rows) [] w with
          | (Raise msg, w) => (Raise msg, w)
          | (Ret _, w) =>
              match cursor_execute query params w with
              | (Raise msg, w) => (Raise msg, w)
              | (Ret (columns, rows), w) =>
                  let results := map (fun row => zip columns row) rows in
                  (Ret results,
                   log "DEBUG"
                     ("Query executed: " +:+ PyStr.of_Z (Z.of_nat (length results))
                      +:+ " rows returned. Query: " +:+ PyStr.take 100 query +:+ "...") w)
              end
          end
      end
  end.

(** [track_performance] only measures and logs wall-clock time; what the
    wrapped call returns or raises passes through it unchanged. *)
Definition _execute_query (query : string) (params : list pyval)
    (max_rows : option Z) (use_cache : bool) (w : world) : res (list pydict) * world :=
  let max_rows :=
    match max_rows with
    | Some n => if n =? 0 then max_query_rows cfg else n
    | None => max_query_rows cfg
    end in
  match run_query query params max_rows w with
  | (Ret results, w) => (Ret results, w)
  | (Raise msg, w) =>
      (Raise UNAVAILABLE, log "ERROR" ("Query execution failed: " +:+ msg) w)
  end.

Definition ACCESS_QUERY : string :=
"
            SELECT 1
            FROM dbo.user_client_access
            WHERE user_id = ? AND client_id = ?
        ".

Definition _can_access_client (user : pydict) (client_id : string) (w : world)
    : bool * world :=
  let user_role := user_role user in
  if PermissionConfig.can_view_all_clients user_role then (true, w)
  else
    let user_id := default PyNone (dict_get user "id") in
    match _execute_query ACCESS_QUERY [user_id; PyStr client_id] None false w with
    | (Ret results, w) => (Nat.ltb 0 (length results), w)
    | (Raise msg, w) => (false, log "ERROR" ("Error checking client access: " +:+ msg) w)
    end.

Definition rate_limit_key (user : pydict) : string :=
  "rate_limit:" +:+ user_id_text user.

Definition _check_rate_limit (user : pydict) (w : world) : bool * world :=
  let limit := PermissionConfig.get_rate_limit (user_role user) in
  let key := rate_limit_key user in
  let '(current, w) := CacheConfig.increment key 1 w in
  let w := if current =? 1 then snd (CacheConfig.expire key 3600 w) else w in
  if limit <? current then (false, w) else (true, w).

(** [os.getenv('ENABLE_ROW_LEVEL_SECURITY', 'true').lower() == 'true'] *)
Definition row_level_security : bool :=
  String.eqb (PyStr.lower (default "true" (ENABLE_ROW_LEVEL_SECURITY cfg))) "true".

(** [client_id and os.getenv(...).lower() == 'true'] *)
Definition row_level_applies (client_id : option string) : bool :=
  match client_id with
  | Some cid => negb (String.eqb cid "") && row_level_security
  | None => false
  end.

Definition _check_permissions (user : pydict) (client_id : option string) (w : world)
    : bool * world :=
  let user_id := user_id_text user in
  let role := user_role user in
  if negb (PermissionConfig.can_access_function role FUNCTION_NAME) then
    (false,
     log "WARNING" ("Permission denied: user=" +:+ user_id +:+ ", role="
                    +:+ user_role_text user +:+ ", function=" +:+ FUNCTION_NAME) w)
  else
    let cid := default "" client_id in
    match (if row_level_applies client_id then _can_access_client user cid w
           else (true, w)) with
    | (false, w) =>
        (false,
         log "WARNING" ("Client access denied: user=" +:+ user_id +:+ ", client=" +:+ cid) w)
    | (true, w) =>
        match _check_rate_limit user w with
        | (false, w) => (false, log "WARNING" ("Rate limit exceeded: user=" +:+ user_id) w)
        | (true, w) => (true, w)
        end
    end.

Definition dangerous : list string := [";"; "--"; "/*"; "*/"; "xp_"; "sp_"].

Definition _sanitize_input (value : option string) : string :=
  match value with
  | None | Some EmptyString => ""
  | Some v => PyStr.strip (fold_left (fun sanitized char => PyStr.replace char "" sanitized)
                                     dangerous v)
  end.

Definition GENERIC_ERROR : string :=
  "I encountered an error while retrieving the data. " +:+
  "Please try again or contact support if the issue persists.".

Definition _format_error_response (error : string) (w : world) : string * world :=
  (GENERIC_ERROR, log "ERROR" ("Error in " +:+ FUNCTION_NAME +:+ ": " +:+ error) w).

End Methods.

(** The key [cache_result] computes for a call of the method [name]. *)
Definition cache_key (name : string) (args : list pyval) (kwargs : pydict) : string :=
  let cache_kwargs := filter (fun kv => fst kv ≠ "__user__") kwargs in
  name +:+ ":" +:+ CacheConfig.generate_cache_key args cache_kwargs.

(** [cache_result(ttl)] applied to the method [func] named [name]. *)
Definition cache_result (cfg : env) (ttl : Z) (name : string)
    (func : list pyval -> pydict -> world -> res pyval * world)
    (args : list pyval) (kwargs : pydict) (w : world) : res pyval * world :=
  let cache_key := cache_key name args kwargs in
  let '(cached_result, w) := CacheConfig.get cache_key w in
  match cached_result with
  | PyNone =>
      let w := log "INFO" ("Cache MISS: " +:+ cache_key) w in
      match func args kwargs w with
      | (Ret result, w) =>
          let '(_, w) := CacheConfig.set cfg cache_key result (Some ttl) w in
          (Ret result, w)
      | (Raise msg, w) => (Raise msg, w)
      end
  | _ => (Ret cached_result, log "INFO" ("Cache HIT: " +:+ cache_key) w)
  end.

End BaseClientFunction.

(** ** functions/client_notes.py *)

Module ClientNotesFunction.

Import BaseClientFunction.

Definition FUNCTION_NAME : string := "get_client_notes".
Definition REQUIRED_PERMISSIONS : list string := ["admin"; "sales"; "support"].

Definition INVALID_CLIENT : string := "❌ Please provide a valid client ID.".
Definition ACCESS_DENIED : string :=
  "🔒 Access denied. You don't have permission to view this client's notes.".
Definition QUERY_MISSING : string :=
  "❌ Query configuration missing. Please check queries.json file.".

Definition type_name (v : pyval) : string :=
  match v with
  | PyNone => "NoneType"
  | PyBool _ => "bool"
  | PyInt _ => "int"
  | PyStr _ => "str"
  | PyDatetime _ => "datetime.datetime"
  | PyList _ => "list"
  | PyTuple _ => "tuple"
  | PyDict _ => "dict"
  end.

Definition no_attribute (v : pyval) (attr : string) : string :=
  "'" +:+ type_name v +:+ "' object has no attribute '" +:+ attr +:+ "'".

(** [row[column]], a [KeyError] when the column is missing *)
Definition column (row : pydict) (name : string) : res pyval :=
  match dict_get row name with
  | Some v => Ret v
  | None => Raise (PyRepr.repr_str name)
  end.

(** The lines one row adds to the response. *)
Definition format_row (row : pydict) : res string :=
  match column row "created_date" with
  | Raise msg => Raise msg
  | Ret (PyDatetime d) =>
      let created_date := PyRepr.strftime_minutes d in
      match column row "action_type", column row "note_text",
            column row "created_by", column row "status" with
      | Ret action_type, Ret note_text, Ret created_by, Ret status =>
          Ret ("**[" +:+ created_date +:+ "]** " +:+ PyRepr.str action_type +:+ PyStr.nl
               +:+ "_" +:+ PyRepr.str note_text +:+ "_" +:+ PyStr.nl
               +:+ "By: " +:+ PyRepr.str created_by +:+ " | Status: "
               +:+ PyRepr.str status +:+ PyStr.nl +:+ PyStr.nl)
      | Raise msg, _, _, _ => Raise msg
      | _, Raise msg, _, _ => Raise msg
      | _, _, Raise msg, _ => Raise msg
      | _, _, _, Raise msg => Raise msg
      end
  | Ret v => Raise (no_attribute v "strftime")
  end.

Fixpoint format_rows (response : string) (rows : list pydict) : res string :=
  match rows with
  | [] => Ret response
  | row :: rows' =>
      match format_row row with
      | Ret text => format_rows (response +:+ text) rows'
      | Raise msg => Raise msg
      end
  end.

Section Body.

Variable cfg : env.

(** The decorated method body, with its parameters bound. *)
Definition get_all_notes_body (client_id limit user : pyval) (w : world)
    : res pyval * world :=
  if negb (PyRepr.truthy client_id) then (Ret (PyStr INVALID_CLIENT), w)
  else
    match client_id with
    | PyStr raw =>
        if String.eqb (PyStr.strip raw) "" then (Ret (PyStr INVALID_CLIENT), w)
        else
          let client_id := _sanitize_input (Some raw) in
          match user with
          | PyDict u =>
              let '(ok, w) := _check_permissions cfg FUNCTION_NAME u (Some client_id) w in
              if negb ok then (Ret (PyStr ACCESS_DENIED), w)
              else
                match notes_query cfg with
                | Some (String _ _ as query) =>
                    match _execute_query cfg query [limit; PyStr client_id] None true w with
                    | (Ret [], w) =>
                        (Ret (PyStr ("ℹ️ No notes found for client " +:+ client_id +:+ ".")), w)
                    | (Ret results, w) =>
                        let response :=
                          "📋 **" +:+ PyStr.of_Z (Z.of_nat (length results))
                          +:+ " notes for client " +:+ client_id +:+ ":**"
                          +:+ PyStr.nl +:+ PyStr.nl in
                        match format_rows response results with
                        | Ret text => (Ret (PyStr text), w)
                        | Raise msg =>
                            let '(text, w) := _format_error_response FUNCTION_NAME msg w in
                            (Ret (PyStr text), w)
                        end
                    | (Raise msg, w) =>
                        let '(text, w) := _format_error_response FUNCTION_NAME msg w in
                        (Ret (PyStr text), w)
                    end
                | _ => (Ret (PyStr QUERY_MISSING), w)
                end
          | _ => (Raise (no_attribute user "get"), w)
          end
    | _ => (Raise (no_attribute client_id "strip"), w)
    end.

Definition parameters : list string := ["client_id"; "limit"; "__user__"].

(** How Python binds the arguments of a call to [client_id], [limit] and
    [__user__]; a call that does not fit the signature is a [TypeError]. *)
Definition bind_parameter (args : list pyval) (kwargs : pydict) (i : nat)
    (name : string) (default : res pyval) : res pyval :=
  match args !! i, dict_get kwargs name with
  | Some _, Some _ =>
      Raise ("get_all_notes() got multiple values for argument '" +:+ name +:+ "'")
  | Some v, None => Ret v
  | None, Some v => Ret v
  | None, None => default
  end.

Definition method (args : list pyval) (kwargs : pydict) (w : world) : res pyval * world :=
  if Nat.ltb 3 (length args) then
    (Raise "get_all_notes() takes from 2 to 4 positional arguments", w)
  else if negb (forallb (fun kv => bool_decide (fst kv ∈ parameters)) kwargs) then
    (Raise "get_all_notes() got an unexpected keyword argument", w)
  else
    match bind_parameter args kwargs 0 "client_id"
            (Raise "get_all_notes() missing 1 required positional argument: 'client_id'"),
          bind_parameter args kwargs 1 "limit" (Ret (PyInt 100)),
          bind_parameter args kwargs 2 "__user__" (Ret (PyDict [])) with
    | Ret client_id, Ret limit, Ret user => get_all_notes_body client_id limit user w
    | Raise msg, _, _ => (Raise msg, w)
    | _, Raise msg, _ => (Raise msg, w)
    | _, _, Raise msg => (Raise msg, w)
    end.

(** [@cache_result(ttl=300) def get_all_notes(...)] *)
Definition get_all_notes : list pyval -> pydict -> world -> res pyval * world :=
  cache_result cfg 300 "get_all_notes" method.

(** [execute], called with keyword arguments only *)
Definition execute (kwargs : pydict) : world -> res pyval * world :=
  get_all_notes [] kwargs.

End Body.

End ClientNotesFunction.

Module Tools.

(** [self.notes_func.get_all_notes(client_id, limit, __user__)] *)
Definition get_all_notes (cfg : env) (client_id limit user : pyval)
    : world -> res pyval * world :=
  ClientNotesFunction.get_all_notes cfg [client_id; limit; user] [].

End Tools.

(** ** Runs and sample deployments *)

(** Successive rate-limit checks of one caller, the clock reading
    [t] at each of the [times]. *)
Fixpoint rate_limit_checks (user : pydict) (times : list Z) (w : world)
    : list bool * world :=
  match times with
  | [] => ([], w)
  | t :: times' =>
      let '(ok, w) := BaseClientFunction._check_rate_limit user (at_time t w) in
      let '(oks, w) := rate_limit_checks user times' w in
      (ok :: oks, w)
  end.

(** The cache layer cannot reach its store: no client was made at
    start-up, or the commands raise. *)
Definition unreachable (w : world) : Prop :=
  cache_client w = false ∨ is_Some (redis_fault w).

(** The counter under [key] reads [n] and expires at [deadline], and the
    cache layer reaches its store. *)
Definition counter_is (w : world) (key : string) (n deadline : Z) : Prop :=
  cache_client w = true ∧ redis_fault w = None
  ∧ redis w !! key = Some {| e_value := PyStr.of_Z n; e_expiry := Some deadline |}.

Module Scenario.

(** A process that has just started: Redis answers and is empty. *)
Definition fresh : world :=
  {| cache_client := true; redis_fault := None; redis := ∅; now := 0;
     executed := []; logs := [] |}.

(** Redis went away after start-up. *)
Definition outage : world :=
  {| cache_client := true; redis_fault := Some "Error 111 connecting to localhost:6379";
     redis := ∅; now := 0; executed := []; logs := [] |}.

Definition NOTES_QUERY : string :=
  "SELECT TOP (?) note_id, action_type, note_text, created_by, created_date, status FROM dbo.notes WHERE client_id = ?".

Definition note : list pyval :=
  [ PyInt 1; PyStr "Call"; PyStr "Called client"; PyStr "John Doe";
    PyDatetime {| dt_year := 2025; dt_month := 1; dt_day := 15;
                  dt_hour := 10; dt_minute := 0; dt_second := 0 |};
    PyStr "completed" ].

(** A database with one note per client and an empty access mapping. *)
Definition database (sql : string) (params : list pyval)
    : res (list string * list (list pyval)) :=
  if String.eqb sql NOTES_QUERY then
    Ret (["note_id"; "action_type"; "note_text"; "created_by"; "created_date"; "status"],
         [note])
  else if String.eqb sql BaseClientFunction.ACCESS_QUERY then Ret ([""], [])
  else Ret ([], []).

Definition cfg : env :=
  {| default_ttl := 300; max_query_rows := 1000; ENABLE_ROW_LEVEL_SECURITY := None;
     notes_query := Some NOTES_QUERY; db_connect := Ret tt; db_execute := database;
     glob_match := fun _ _ => true |}.

(** The same deployment when the database refuses connections. *)
Definition cfg_down : env :=
  {| default_ttl := 300; max_query_rows := 1000; ENABLE_ROW_LEVEL_SECURITY := None;
     notes_query := Some NOTES_QUERY;
     db_connect := Raise "[08001] Login timeout expired (dbo.notes)";
     db_execute := database; glob_match := fun _ _ => true |}.

(** The callers of [tests/test_functions.py], and a support agent. *)
Definition admin : pydict :=
  [("id", PyStr "user123"); ("name", PyStr "Test User"); ("role", PyStr "admin")].
Definition unauthorized : pydict :=
  [("id", PyStr "user456"); ("name", PyStr "Unauthorized User"); ("role", PyStr "readonly")].
Definition support : pydict :=
  [("id", PyStr "user789"); ("name", PyStr "Support Agent"); ("role", PyStr "support")].

Definition NOTES : string :=
  "📋 **1 notes for client CLIENT123:**" +:+ PyStr.nl +:+ PyStr.nl +:+
  "**[2025-01-15 10:00]** Call" +:+ PyStr.nl +:+ "_Called client_" +:+ PyStr.nl +:+
  "By: John Doe | Status: completed" +:+ PyStr.nl +:+ PyStr.nl.

End Scenario.

(** ** Stages of a call, as the specification speaks of them *)

(** The cache layer and its store are the same in both worlds. *)
Definition same_store (w w' : world) : Prop :=
  cache_client w' = cache_client w ∧ redis_fault w' = redis_fault w
  ∧ redis w' = redis w ∧ now w' = now w.

(** The access-mapping lookup of [_can_access_client]. *)
Definition access_lookup (cfg : env) (user : pydict) (client_id : string) (w : world)
    : res (list pydict) * world :=
  BaseClientFunction._execute_query cfg BaseClientFunction.ACCESS_QUERY
    [default PyNone (dict_get user "id"); PyStr client_id] None false w.

(** The call is refused by the function-level or by the row-level check. *)
Definition denied_by_authorization (cfg : env) (function_name : string)
    (user : pydict) (client_id : option string) (w : world) : Prop :=
  PermissionConfig.can_access_function (BaseClientFunction.user_role user) function_name
    = false
  ∨ (BaseClientFunction.row_level_applies cfg client_id = true
     ∧ fst (BaseClientFunction._can_access_client cfg user (default "" client_id) w)
       = false).

(** The call passes both authorization checks and reaches the rate limit
    in the world [w1]. *)
Definition authorized_into (cfg : env) (function_name : string)
    (user : pydict) (client_id : option string) (w w1 : world) : Prop :=
  PermissionConfig.can_access_function (BaseClientFunction.user_role user) function_name
    = true
  ∧ (if BaseClientFunction.row_level_applies cfg client_id
     then BaseClientFunction._can_access_client cfg user (default "" client_id) w
          = (true, w1)
     else w1 = w).

(** The statements one [_execute_query] sends: the two settings, then the
    query. *)
Definition statements (cfg : env) (query : string) (params : list pyval)
    : list (string * list pyval) :=
  [ ("SET LOCK_TIMEOUT 5000", []);
    ("SET ROWCOUNT " +:+ PyStr.of_Z (max_query_rows cfg), []);
    (query, params) ].

(** The test [if not client_id or not client_id.strip()] for a str, and
    [not client_id] for a value that is falsy. *)
Definition invalid_client_id (client_id : pyval) : bool :=
  match client_id with
  | PyStr raw => String.eqb (PyStr.strip raw) ""
  | v => negb (PyRepr.truthy v)
  end.

(** The client id [get_all_notes] works with after sanitising. *)
Definition sanitized (client_id : pyval) : string :=
  match client_id with
  | PyStr raw => BaseClientFunction._sanitize_input (Some raw)
  | _ => ""
  end.

(** ** Further notions used by the properties *)

(** The cache layer reaches its store. *)
Definition reachable (w : world) : Prop :=
  cache_client w = true ∧ redis_fault w = None.

(** Between [w] and [w'] the cache layer is as reachable as before, the
    clock stands, and no key outside [keys] has changed. *)
Definition touches_only (keys : list string) (w w' : world) : Prop :=
  cache_client w' = cache_client w ∧ redis_fault w' = redis_fault w
  ∧ now w' = now w
  ∧ ∀ k, k ∉ keys → redis w' !! k = redis w !! k.

(** The keys [KEYS] finds: the live keys of the store that match. *)
Definition live_matches (cfg : env) (pattern : string) (w : world) : list string :=
  filter (fun k => glob_match cfg pattern k = true
                   ∧ is_Some (Redis.lookup (redis w) (now w) k))
         (map fst (map_to_list (redis w))).

(** [max_rows or self.max_rows] *)
Definition effective_max_rows (cfg : env) (max_rows : option Z) : Z :=
  match max_rows with
  | Some n => if n =? 0 then max_query_rows cfg else n
  | None => max_query_rows cfg
  end.

(** The counter keys a call made for [user] may touch. *)
Definition caller_keys (user : pyval) : list string :=
  match user with
  | PyDict u => [BaseClientFunction.rate_limit_key u]
  | _ => []
  end.

(** A row [get_all_notes] can format: [created_date] is a datetime and
    the four other columns are there. *)
Definition well_formed_row (row : pydict) : bool :=
  match dict_get row "created_date" with
  | Some (PyDatetime _) => true
  | _ => false
  end
  && forallb (fun name => bool_decide (is_Some (dict_get row name)))
       ["action_type"; "note_text"; "created_by"; "status"].

(** ** config/database.py *)

Module DatabaseConfig.

(** [v == 1] *)
Definition equals_one (v : pyval) : bool :=
  match v with
  | PyInt n => n =? 1
  | PyBool b => b
  | _ => false
  end.

(** [test_connection]: the success line is logged before the value of
    the row is looked at. *)
Definition test_connection (cfg : env) (w : world) : bool * world :=
  let failed (msg : string) (w : world) :=
    (false, log "ERROR" ("Database connection test failed: " +:+ msg) w) in
  match db_connect cfg with
  | Raise msg => failed msg (log "ERROR" ("Database connection failed: " +:+ msg) w)
  | Ret _ =>
      let w := log "DEBUG" "Database connection acquired from pool" w in
      match BaseClientFunction.cursor_execute cfg "SELECT 1" [] w with
      | (Raise msg, w) => failed msg w
      | (Ret (_, rows), w) =>
          let w := log "INFO" "Database connection test successful" w in
          match rows with
          | [] => failed "'NoneType' object is not subscriptable" w
          | [] :: _ => failed "tuple index out of range" w
          | (v :: _) :: _ => (equals_one v, w)
          end
      end
  end.

End DatabaseConfig.

(** ** scripts/validate.py *)

Module FunctionValidator.


(** The validator's two lists and what it has printed, oldest first. *)
Record validator := {
  errors : list string;
  warnings : list string;
  printed : list string
}.











Definition fresh : validator := {| errors := []; warnings := []; printed := [] |}.

End FunctionValidator.

(** The database as the repository's test mocks it: [created_date] is a
    string. *)
Module Mocked.

Definition row : list pyval :=
  [ PyInt 1; PyStr "Call"; PyStr "Called client"; PyStr "John Doe";
    PyStr "2025-01-15 10:00:00"; PyStr "completed" ].

Definition columns : list string :=
  ["note_id"; "action_type"; "note_text"; "created_by"; "created_date"; "status"].

Definition cfg : env :=
  {| default_ttl := 300; max_query_rows := 1000; ENABLE_ROW_LEVEL_SECURITY := None;
     notes_query := Some Scenario.NOTES_QUERY; db_connect := Ret tt;
     db_execute := fun sql _ =>
       if String.eqb sql Scenario.NOTES_QUERY then Ret (columns, [row]) else Ret ([], []);
     glob_match := fun _ _ => true |}.

End Mocked.

(** ** scripts/deploy.py *)

Module Deployer.

(** [s.split(sep)] for a non-empty [sep]: the pieces between the matches
    of [sep], which are looked for from the left.  [skip] counts the
    characters of a match that are still to be jumped over.  The head of
    the result is the piece that is being read. *)
Fixpoint split_from (sep : string) (skip : nat) (s : string) : list string :=
  match s with
  | EmptyString => [EmptyString]
  | String c s' =>
      match skip with
      | S k => split_from sep k s'
      | O =>
          if String.prefix sep s
          then EmptyString :: split_from sep (Nat.pred (String.length sep)) s'
          else match split_from sep O s' with
               | piece :: pieces => String c piece :: pieces
               | [] => [String c EmptyString]
               end
      end
  end.

Definition split (sep s : string) : list string := split_from sep O s.

(** [s.lstrip(chars)] *)
Fixpoint lstrip_any (chars : list ascii) (s : string) : string :=
  match s with
  | EmptyString => EmptyString
  | String c s' => if existsb (Ascii.eqb c) chars then lstrip_any chars s' else s
  end.

(** [s.strip(chars)] *)
Definition strip_any (chars : list ascii) (s : string) : string :=
  String.rev (lstrip_any chars (String.rev (lstrip_any chars s))).

(** The double and the single quote. *)
Definition quotes : list ascii := [PyStr.chr 34; PyStr.chr 39].

(** [line.split(sep)[1]] *)
Definition second_piece (sep line : string) : res string :=
  match split sep line with
  | _ :: piece :: _ => Ret piece
  | _ => Raise "list index out of range"
  end.

Definition defaults : gmap string string :=
  <["title" := "Unknown"]> (<["version" := "0.0.0"]> (<["id" := "unknown"]> ∅)).

(** The body of the loop over the lines. *)
Definition read_line (metadata : gmap string string) (line : string)
    : res (gmap string string) :=
  if PyStr.contains "title:" line then
    match second_piece "title:" line with
    | Ret piece => Ret (<["title" := PyStr.strip piece]> metadata)
    | Raise msg => Raise msg
    end
  else if PyStr.contains "version:" line then
    match second_piece "version:" line with
    | Ret piece => Ret (<["version" := PyStr.strip piece]> metadata)
    | Raise msg => Raise msg
    end
  else if PyStr.contains "FUNCTION_NAME" line && PyStr.contains "=" line then
    match second_piece "=" line with
    | Ret piece => Ret (<["id" := strip_any quotes (PyStr.strip piece)]> metadata)
    | Raise msg => Raise msg
    end
  else Ret metadata.

Fixpoint read_lines (metadata : gmap string string) (lines : list string)
    : res (gmap string string) :=
  match lines with
  | [] => Ret metadata
  | line :: lines' =>
      match read_line metadata line with
      | Ret metadata' => read_lines metadata' lines'
      | Raise msg => Raise msg
      end
  end.

Definition _extract_metadata (code : string) : res (gmap string string) :=
  read_lines defaults (split PyStr.nl code).

(** What [deploy_function] relies on: the three keys are there, title and
    version carry no whitespace at either end, and stripping quotes from
    the id again changes nothing. *)
Definition well_formed (metadata : gmap string string) : Prop :=
  ∃ title version id,
    metadata !! "title" = Some title ∧ metadata !! "version" = Some version
    ∧ metadata !! "id" = Some id
    ∧ PyStr.leading_space title = None ∧ PyStr.trailing_space title = None
    ∧ PyStr.leading_space version = None ∧ PyStr.trailing_space version = None
    ∧ strip_any quotes id = id.

End Deployer.

(** * Properties *)

(** ** Strings *)

Module PyStrFacts.

Import PyStr.

Lemma chars_app (a b : string) : chars (a +:+ b) = chars a ++ chars b.
Proof. induction a as [|c a IH]; simpl; [done | by rewrite IH]. Qed.

Lemma chars_inj (a b : string) : chars a = chars b → a = b.
Proof.
  intros H. rewrite <- (string_of_list_ascii_of_string a),
    <- (string_of_list_ascii_of_string b). unfold chars in H. by rewrite H.
Qed.

Lemma app_assoc (a b c : string) : (a +:+ b) +:+ c = a +:+ (b +:+ c).
Proof. apply chars_inj. rewrite !chars_app. by rewrite <- List.app_assoc. Qed.

Lemma app_empty_r (a : string) : a +:+ "" = a.
Proof. apply chars_inj. rewrite chars_app. simpl. by rewrite List.app_nil_r. Qed.

Lemma chars_rev_app (a b : string) :
  chars (String.rev_app a b) = List.rev (chars a) ++ chars b.
Proof.
  revert b. induction a as [|c a IH]; intros b; simpl; [done|].
  rewrite IH. simpl. by rewrite <- List.app_assoc.
Qed.

Lemma chars_rev (a : string) : chars (String.rev a) = List.rev (chars a).
Proof. unfold String.rev. rewrite chars_rev_app. simpl. by rewrite List.app_nil_r. Qed.

Lemma rev_involutive (a : string) : String.rev (String.rev a) = a.
Proof. apply chars_inj. rewrite !chars_rev. apply List.rev_involutive. Qed.

Lemma rev_app_distr (a b : string) :
  String.rev (a +:+ b) = String.rev b +:+ String.rev a.
Proof.
  apply chars_inj. rewrite chars_rev, !chars_app, !chars_rev. apply List.rev_app_distr.
Qed.

Lemma app_cons (c : ascii) (a t : string) : String c a +:+ t = String c (a +:+ t).
Proof. reflexivity. Qed.

(** [String.prefix a b] holds exactly when [b] is [a] followed by something. *)
Lemma prefix_true (a b : string) :
  String.prefix a b = true ↔ ∃ t, b = a +:+ t.
Proof.
  revert b. induction a as [|c a IH]; intros b; simpl.
  - split; [intros _; by exists b | by destruct b].
  - destruct b as [|d b].
    + split; [done | intros [t Ht]; discriminate].
    + simpl. destruct (ascii_dec c d) as [->|Hne].
      * rewrite IH. split; intros [t Ht]; exists t; rewrite app_cons in *; congruence.
      * split; [done | intros [t Ht]; rewrite app_cons in Ht; congruence].
Qed.

Lemma prefix_extend (w a t : string) :
  String.prefix w a = true → String.prefix w (a +:+ t) = true.
Proof.
  rewrite !prefix_true. intros [u ->]. exists (u +:+ t). apply app_assoc.
Qed.

(** A character of a string after a removal was a character before it. *)
Lemma replace_from_chars (old : string) (skip : nat) (s : string) (c : ascii) :
  In c (chars (replace_from old "" skip s)) → In c (chars s).
Proof.
  revert skip. induction s as [|d s IH]; intros skip; [done|].
  cbn [replace_from]. destruct skip as [|k].
  - destruct (String.prefix old (String d s)).
    + change ("" +:+ ?x) with x. intros H. right. by apply (IH _ H).
    + intros [->|H]; [by left | right; by apply (IH _ H)].
  - intros H. right. by apply (IH _ H).
Qed.

Lemma intersperse_empty (s : string) : intersperse "" s = s.
Proof.
  induction s as [|c s IH]; [done|].
  cbn [intersperse]. change ("" +:+ ?x) with x. by rewrite IH.
Qed.

Lemma replace_chars (old s : string) (c : ascii) :
  In c (chars (replace old "" s)) → In c (chars s).
Proof.
  destruct old as [|a old]; simpl.
  - by rewrite intersperse_empty.
  - apply replace_from_chars.
Qed.

(** Removing a one-character pattern leaves no occurrence of the character. *)
Lemma replace_char_gone (a : ascii) (s : string) :
  ¬ In a (chars (replace (String a "") "" s)).
Proof.
  unfold replace. induction s as [|d s IH]; simpl; [tauto|].
  destruct (ascii_dec a d) as [->|Hne]; simpl.
  - destruct s; exact IH.
  - intros [->|H]; [done | by apply IH].
Qed.

Lemma contains_char (a : ascii) (s : string) :
  contains (String a "") s = false ↔ ¬ In a (chars s).
Proof.
  induction s as [|d s IH]; simpl; [tauto|].
  destruct (ascii_dec a d) as [->|Hne]; simpl.
  - destruct s; simpl; split; try done; intros H; exfalso; apply H; by left.
  - rewrite IH. split; [intros H [?|?]; [congruence | done] | tauto].
Qed.

(** What a strip leaves is the end of what it was given. *)
Lemma lstrip_from_suffix (skip : nat) (s : string) :
  ∃ p, s = p +:+ lstrip_from skip s.
Proof.
  revert skip. induction s as [|d s IH]; intros skip; [by exists ""|].
  cbn [lstrip_from]. destruct skip as [|k].
  - destruct (leading_space (String d s)) as [w|].
    + destruct (IH (Nat.pred (String.length w))) as [p Hp].
      exists (String d p). rewrite app_cons. by rewrite <- Hp.
    + by exists "".
  - destruct (IH k) as [p Hp]. exists (String d p). rewrite app_cons. by rewrite <- Hp.
Qed.

Lemma rstrip_from_suffix (skip : nat) (r : string) :
  ∃ p, r = p +:+ rstrip_from skip r.
Proof.
  revert skip. induction r as [|d r IH]; intros skip; [by exists ""|].
  cbn [rstrip_from]. destruct skip as [|k].
  - destruct (List.find _ whitespace) as [w|].
    + destruct (IH (Nat.pred (String.length w))) as [p Hp].
      exists (String d p). rewrite app_cons. by rewrite <- Hp.
    + by exists "".
  - destruct (IH k) as [p Hp]. exists (String d p). rewrite app_cons. by rewrite <- Hp.
Qed.

Lemma lstrip_from_clean (skip : nat) (s : string) :
  leading_space (lstrip_from skip s) = None.
Proof.
  revert skip. induction s as [|d s IH]; intros skip; [done|].
  cbn [lstrip_from]. destruct skip as [|k]; [|apply IH].
  destruct (leading_space (String d s)) as [w|] eqn:E; [apply IH | exact E].
Qed.

Lemma rstrip_from_clean (skip : nat) (r : string) :
  List.find (fun w => String.prefix (String.rev w) (rstrip_from skip r)) whitespace = None.
Proof.
  revert skip. induction r as [|d r IH]; intros skip; [done|].
  cbn [rstrip_from]. destruct skip as [|k]; [|apply IH].
  destruct (List.find (fun w => String.prefix (String.rev w) (String d r)) whitespace)
    as [w|] eqn:E; [apply IH | exact E].
Qed.

Lemma rstrip_prefix (s : string) : ∃ t, s = rstrip s +:+ t.
Proof.
  unfold rstrip. destruct (rstrip_from_suffix O (String.rev s)) as [p Hp].
  exists (String.rev p).
  rewrite <- rev_app_distr, <- Hp. symmetry. apply rev_involutive.
Qed.

Lemma rstrip_clean (s : string) : trailing_space (rstrip s) = None.
Proof.
  unfold trailing_space, rstrip. rewrite rev_involutive. apply rstrip_from_clean.
Qed.

Lemma rstrip_keeps_clean (s : string) :
  leading_space s = None → leading_space (rstrip s) = None.
Proof.
  unfold leading_space. intros H.
  destruct (List.find (fun w => String.prefix w (rstrip s)) whitespace)
    as [w|] eqn:E; [|done].
  apply List.find_some in E as [Hin Hw].
  destruct (rstrip_prefix s) as [t Ht].
  pose proof (List.find_none _ _ H w Hin) as Hs. cbv beta in Hs.
  rewrite Ht, (prefix_extend _ _ t Hw) in Hs. discriminate.
Qed.

Lemma strip_clean (s : string) :
  leading_space (strip s) = None ∧ trailing_space (strip s) = None.
Proof.
  unfold strip. split; [|apply rstrip_clean].
  apply rstrip_keeps_clean, lstrip_from_clean.
Qed.

Lemma strip_chars (s : string) (c : ascii) : In c (chars (strip s)) → In c (chars s).
Proof.
  unfold strip, lstrip. intros H.
  destruct (lstrip_from_suffix O s) as [p Hp].
  destruct (rstrip_prefix (lstrip_from O s)) as [t Ht].
  rewrite Hp, chars_app, Ht, chars_app, !in_app_iff. auto.
Qed.

End PyStrFacts.

(** ** The permission registry *)

Module PermissionFacts.

Import PermissionConfig.

(** C4.  The function-level check grants access exactly to the roles of
    the operation's allowed set and to the administrator: a role outside
    the set that is not the administrator is refused, the administrator is
    admitted to every operation, and an operation without a registry entry
    has an empty allowed set, so every other role is refused there. *)
Theorem can_access_function_spec (role function_name : string) :
  (can_access_function role function_name = true
     ↔ role ∈ allowed_roles function_name ∨ role = Role.ADMIN)
  ∧ (role ∉ allowed_roles function_name → role ≠ Role.ADMIN →
     can_access_function role function_name = false)
  ∧ can_access_function Role.ADMIN function_name = true
  ∧ (FUNCTION_PERMISSIONS !! function_name = None →
     allowed_roles function_name = []
     ∧ (role ≠ Role.ADMIN → can_access_function role function_name = false)).
Proof.
  assert (Hiff : ∀ r, can_access_function r function_name = true
                      ↔ r ∈ allowed_roles function_name ∨ r = Role.ADMIN).
  { intros r. unfold can_access_function.
    rewrite orb_true_iff, !bool_decide_eq_true. tauto. }
  assert (Hno : ∀ r, r ∉ allowed_roles function_name → r ≠ Role.ADMIN →
                     can_access_function r function_name = false).
  { intros r H1 H2. apply not_true_is_false. rewrite Hiff. tauto. }
  split; [apply Hiff|]. split; [apply Hno|]. split.
  - apply Hiff. by right.
  - intros Hnone. assert (Hempty : allowed_roles function_name = []).
    { unfold allowed_roles. by rewrite Hnone. }
    split; [exact Hempty|]. intros Hne. apply Hno; [|exact Hne].
    rewrite Hempty. apply not_elem_of_nil.
Qed.

End PermissionFacts.

(** ** Input sanitising *)

Module SanitizeFacts.

Import BaseClientFunction PyStrFacts.

Lemma sanitize_chars (v : string) (c : ascii) :
  In c (PyStr.chars (_sanitize_input (Some v))) →
  In c (PyStr.chars (PyStr.replace ";" "" v)).
Proof.
  destruct v as [|a v]; [done|]. unfold _sanitize_input, dangerous.
  cbn [fold_left]. intros H.
  apply strip_chars in H. do 5 apply replace_chars in H. exact H.
Qed.

(** C10.  What [_sanitize_input] returns has no semicolon and neither
    starts nor ends with whitespace, and is empty for [None] and for the
    empty string; the other patterns can be put together again by the
    removals that follow, as ['--'] is from ['-xp_-']. *)
Theorem sanitize_input_guarantees :
  (∀ value : option string,
     PyStr.contains ";" (_sanitize_input value) = false
     ∧ PyStr.leading_space (_sanitize_input value) = None
     ∧ PyStr.trailing_space (_sanitize_input value) = None)
  ∧ _sanitize_input None = ""
  ∧ _sanitize_input (Some "") = ""
  ∧ _sanitize_input (Some "-xp_-") = "--"
  ∧ PyStr.contains "--" (_sanitize_input (Some "-xp_-")) = true.
Proof.
  split; [|by vm_compute].
  intros [[|a v]|]; try by vm_compute.
  split.
  - apply contains_char. intros H. apply sanitize_chars in H.
    by apply replace_char_gone in H.
  - apply strip_clean.
Qed.

End SanitizeFacts.

(** ** The cache layer *)

Module CacheFacts.

Import CacheConfig.

Lemma parse_int_of_Z (n : Z) :
  Redis.int64_ok n = true → Redis.parse_int (PyStr.of_Z n) = Some n.
Proof.
  intros Hok. unfold Redis.parse_int, PyStr.of_Z.
  assert (Hisi : NilZero.int_of_string (NilZero.string_of_int (Z.to_int n))
                 = Some (Z.to_int n)).
  { destruct n; [reflexivity | |]; apply NilZero.isi; simpl; try discriminate;
      intros [= H]; by apply DecimalPos.Unsigned.to_uint_nonnil in H. }
  rewrite Hisi, DecimalZ.of_to. unfold PyStr.of_Z. by rewrite String.eqb_refl, Hok.
Qed.

Lemma rate_limit_lower_bound (role : string) : 100 ≤ PermissionConfig.get_rate_limit role.
Proof.
  unfold PermissionConfig.get_rate_limit, PermissionConfig.RATE_LIMITS. simpl.
  repeat (rewrite lookup_insert; case_decide; [simpl; lia|]).
  rewrite lookup_empty. simpl. lia.
Qed.

Lemma rate_limit_default (role : string) :
  PermissionConfig.RATE_LIMITS !! role = None → PermissionConfig.get_rate_limit role = 100.
Proof. unfold PermissionConfig.get_rate_limit. by intros ->. Qed.

Lemma call_fault {A} (cmd : gmap string entry → Z → res (A * gmap string entry))
    (w : world) (msg : string) :
  redis_fault w = Some msg → Redis.call cmd w = (Raise msg, w).
Proof. unfold Redis.call. by intros ->. Qed.

(** C8.  When the cache layer cannot reach its store, every operation
    returns its inert default and leaves the store alone: [get] gives
    [None], [set], [expire] and [delete] give [False], [increment] and
    [clear_pattern] give 0; the rate-limit check then passes for every
    caller. *)
Theorem unreachable_cache_is_inert (cfg : env) (w : world)
    (key pattern : string) (value : pyval) (ttl : option Z) (amount seconds : Z)
    (user : pydict) :
  unreachable w →
  (fst (get key w) = PyNone ∧ redis (snd (get key w)) = redis w)
  ∧ (fst (set cfg key value ttl w) = false ∧ redis (snd (set cfg key value ttl w)) = redis w)
  ∧ (fst (increment key amount w) = 0 ∧ redis (snd (increment key amount w)) = redis w)
  ∧ (fst (expire key seconds w) = false ∧ redis (snd (expire key seconds w)) = redis w)
  ∧ (fst (delete key w) = false ∧ redis (snd (delete key w)) = redis w)
  ∧ (fst (clear_pattern cfg pattern w) = 0
     ∧ redis (snd (clear_pattern cfg pattern w)) = redis w)
  ∧ fst (BaseClientFunction._check_rate_limit user w) = true.
Proof.
  intros [Hnone | [msg Hfault]].
  - unfold get, set, increment, expire, delete, clear_pattern,
      BaseClientFunction._check_rate_limit, increment.
    rewrite Hnone. simpl.
    repeat split; try done.
    pose proof (rate_limit_lower_bound (BaseClientFunction.user_role user)).
    destruct (_ <? 0) eqn:E; [lia | done].
  - unfold get, set, increment, expire, delete, clear_pattern,
      BaseClientFunction._check_rate_limit, increment.
    destruct (cache_client w); simpl.
    + rewrite !call_fault with (msg := msg) by done. simpl.
      repeat split; try done.
      pose proof (rate_limit_lower_bound (BaseClientFunction.user_role user)).
      destruct (_ <? 0) eqn:E; [lia | done].
    + repeat split; try done.
      pose proof (rate_limit_lower_bound (BaseClientFunction.user_role user)).
      destruct (_ <? 0) eqn:E; [lia | done].
Qed.

(** A Redis server that stopped answering after start-up. *)
Lemma unreachable_cache_is_inert_witness :
  fst (get "get_all_notes:b7f16b97101a2f42ae5441025a0409ec" Scenario.outage) = PyNone
  ∧ fst (increment "rate_limit:user123" 1 Scenario.outage) = 0
  ∧ fst (BaseClientFunction._check_rate_limit Scenario.admin Scenario.outage) = true.
Proof.
  destruct (unreachable_cache_is_inert Scenario.cfg Scenario.outage
              "get_all_notes:b7f16b97101a2f42ae5441025a0409ec" "*" PyNone None 1 3600
              Scenario.admin) as ((Hget & _) & _ & _ & _ & _ & _ & Hlimit).
  - right. by eexists.
  - split; [exact Hget|]. split; [|exact Hlimit].
    apply (unreachable_cache_is_inert Scenario.cfg Scenario.outage "rate_limit:user123"
             "*" PyNone None 1 3600 Scenario.admin).
    right. by eexists.
Defined.

End CacheFacts.

(** ** Rate limiting *)

Module RateLimitFacts.

Import BaseClientFunction CacheConfig CacheFacts.

Lemma rate_limit_upper_bound (role : string) : PermissionConfig.get_rate_limit role ≤ 1000.
Proof.
  unfold PermissionConfig.get_rate_limit, PermissionConfig.RATE_LIMITS. simpl.
  repeat (rewrite lookup_insert; case_decide; [simpl; lia|]).
  rewrite lookup_empty. simpl. lia.
Qed.

Lemma increment_absent (key : string) (w : world) :
  cache_client w = true → redis_fault w = None →
  Redis.lookup (redis w) (now w) key = None →
  increment key 1 w
  = (1, set_redis (<[key := {| e_value := "1"; e_expiry := None |}]> (redis w)) w).
Proof.
  intros Hc Hf Habsent. unfold increment, Redis.call, Redis.INCRBY.
  by rewrite Hc, Hf, Habsent.
Qed.

Lemma increment_present (key : string) (w : world) (n : Z) (expiry : option Z) :
  cache_client w = true → redis_fault w = None →
  Redis.lookup (redis w) (now w) key
    = Some {| e_value := PyStr.of_Z n; e_expiry := expiry |} →
  Redis.int64_ok n = true → Redis.int64_ok (n + 1) = true →
  increment key 1 w
  = (n + 1,
     set_redis (<[key := {| e_value := PyStr.of_Z (n + 1); e_expiry := expiry |}]> (redis w)) w).
Proof.
  intros Hc Hf Hkey Hn Hn1. unfold increment, Redis.call, Redis.INCRBY.
  rewrite Hc, Hf, Hkey. cbn [negb e_value e_expiry].
  by rewrite (parse_int_of_Z _ Hn), Hn1.
Qed.

Lemma expire_present (key : string) (w : world) (e : entry) (seconds : Z) :
  cache_client w = true → redis_fault w = None →
  Redis.lookup (redis w) (now w) key = Some e → 0 < seconds →
  expire key seconds w
  = (true,
     set_redis (<[key := {| e_value := e_value e; e_expiry := Some (now w + seconds) |}]>
                  (redis w)) w).
Proof.
  intros Hc Hf Hkey Hs. unfold expire, Redis.call, Redis.EXPIRE.
  rewrite Hc, Hf, Hkey. cbn [negb].
  destruct (Z.leb_spec seconds 0); [lia | done].
Qed.

(** The first check of a window: the counter is created at 1 and given
    its hour. *)
Lemma check_rate_limit_first (user : pydict) (w : world) :
  cache_client w = true → redis_fault w = None →
  Redis.lookup (redis w) (now w) (rate_limit_key user) = None →
  ∃ w', _check_rate_limit user w = (true, w')
        ∧ counter_is w' (rate_limit_key user) 1 (now w + 3600).
Proof.
  intros Hc Hf Habsent. unfold _check_rate_limit.
  rewrite (increment_absent _ _ Hc Hf Habsent). cbn [Z.eqb Pos.eqb].
  rewrite (expire_present _ _ {| e_value := "1"; e_expiry := None |} 3600);
    [| done | done | | lia].
  - pose proof (rate_limit_lower_bound (user_role user)) as Hlow.
    destruct (Z.ltb_spec (PermissionConfig.get_rate_limit (user_role user)) 1); [lia|].
    eexists. split; [reflexivity|].
    unfold counter_is. cbn. by rewrite insert_insert_eq, lookup_insert_eq.
  - unfold Redis.lookup. cbn. by rewrite lookup_insert_eq.
Qed.

(** A later check inside the window: the counter goes up by one and
    keeps its deadline. *)
Lemma check_rate_limit_next (user : pydict) (w : world) (n deadline : Z) :
  counter_is w (rate_limit_key user) n deadline →
  1 ≤ n → n + 1 < 2 ^ 63 → now w < deadline →
  ∃ w', _check_rate_limit user w
          = (n + 1 <=? PermissionConfig.get_rate_limit (user_role user), w')
        ∧ counter_is w' (rate_limit_key user) (n + 1) deadline
        ∧ now w' = now w.
Proof.
  intros (Hc & Hf & Hkey) Hn Hmax Hlive. unfold _check_rate_limit.
  rewrite (increment_present _ _ n (Some deadline) Hc Hf);
    [| | unfold Redis.int64_ok; lia | unfold Redis.int64_ok; lia].
  - assert (Hne : (n + 1 =? 1) = false) by lia. rewrite Hne.
    eexists. split; [|split].
    + destruct (Z.ltb_spec (PermissionConfig.get_rate_limit (user_role user)) (n + 1));
        destruct (Z.leb_spec (n + 1) (PermissionConfig.get_rate_limit (user_role user)));
        try lia; reflexivity.
    + unfold counter_is. cbn. by rewrite lookup_insert_eq.
    + reflexivity.
  - unfold Redis.lookup, Redis.live. rewrite Hkey. cbn.
    destruct (Z.ltb_spec (now w) deadline); [done | lia].
Qed.

Lemma counter_at_time (w : world) (key : string) (n deadline t : Z) :
  counter_is w key n deadline → counter_is (at_time t w) key n deadline.
Proof. done. Qed.

(** Checks inside the window after the [n]-th: the [k]-th of them passes
    exactly when [n + k] is within the limit. *)
Lemma checks_in_window (user : pydict) (deadline : Z) (times : list Z) :
  ∀ (w : world) (n : Z),
    counter_is w (rate_limit_key user) n deadline →
    1 ≤ n → n + Z.of_nat (length times) < 2 ^ 63 →
    Forall (fun t => t < deadline) times →
    ∃ w', rate_limit_checks user times w
            = (map (fun k => n + Z.of_nat k
                               <=? PermissionConfig.get_rate_limit (user_role user))
                   (seq 1 (length times)), w')
          ∧ counter_is w' (rate_limit_key user) (n + Z.of_nat (length times)) deadline.
Proof.
  induction times as [|t times IH]; intros w n Hcount Hn Hmax Hall.
  - exists w. split; [reflexivity|]. cbn. by rewrite Z.add_0_r.
  - apply Forall_cons in Hall as [Ht Hall]. cbn [rate_limit_checks length] in *.
    destruct (check_rate_limit_next user (at_time t w) n deadline)
      as (w1 & Hstep & Hcount1 & _); [by apply counter_at_time | lia | lia | done |].
    rewrite Hstep.
    destruct (IH w1 (n + 1) Hcount1) as (w2 & Hrest & Hcount2); [lia | lia | done |].
    rewrite Hrest. exists w2. split.
    + cbn [seq map]. f_equal. f_equal.
      rewrite <- (seq_shift (length times) 1), map_map.
      apply map_ext. intros k. f_equal. lia.
    + replace (n + Z.of_nat (S (length times))) with (n + 1 + Z.of_nat (length times)) by lia.
      exact Hcount2.
Qed.

Lemma all_pass (N : Z) (m : nat) :
  Z.of_nat m ≤ N →
  map (fun k => 1 + Z.of_nat k <=? N) (seq 0 m) = repeat true m.
Proof.
  induction m as [|m IH]; intros Hm; [reflexivity|].
  rewrite seq_S, map_app. cbn [repeat]. rewrite repeat_cons.
  rewrite IH by lia. cbn [map Nat.add]. do 2 f_equal.
  destruct (Z.leb_spec (1 + Z.of_nat m) N); [done | lia].
Qed.

Lemma passes_then_denial (N : Z) (m : nat) :
  Z.of_nat m = N →
  map (fun k => 1 + Z.of_nat k <=? N) (seq 0 (S m)) = repeat true m ++ [false].
Proof.
  intros HN. rewrite seq_S, map_app, all_pass by lia. cbn [map Nat.add]. do 2 f_equal.
  destruct (Z.leb_spec (1 + Z.of_nat m) N); [lia | done].
Qed.

(** C7.  With the cache reachable and no counter for the caller, of
    [N + 1] checks made within an hour of the first, [N] being the limit
    of the caller's role, the first [N] pass and the last is refused.  The
    expiry is set by the check that creates the counter and by no later
    one, so the counter still expires an hour after the first check; a
    check made after that hour starts a new counter at 1 with an hour of
    its own.  A role without a configured limit has the limit 100. *)
Theorem rate_limit_window (user : pydict) (w : world) (t0 : Z) (rest : list Z) :
  cache_client w = true → redis_fault w = None →
  Redis.lookup (redis w) t0 (rate_limit_key user) = None →
  Z.of_nat (length rest) = PermissionConfig.get_rate_limit (user_role user) →
  Forall (fun t => t < t0 + 3600) rest →
  ∃ w',
    rate_limit_checks user (t0 :: rest) w = (repeat true (length rest) ++ [false], w')
    ∧ redis w' !! rate_limit_key user
      = Some {| e_value := PyStr.of_Z (Z.of_nat (length rest) + 1);
                e_expiry := Some (t0 + 3600) |}
    ∧ (∀ t, t0 + 3600 ≤ t →
         ∃ w'', _check_rate_limit user (at_time t w') = (true, w'')
                ∧ redis w'' !! rate_limit_key user
                  = Some {| e_value := "1"; e_expiry := Some (t + 3600) |})
    ∧ (PermissionConfig.RATE_LIMITS !! user_role user = None → length rest = 100%nat).
Proof.
  intros Hc Hf Habsent Hlen Hall.
  pose proof (rate_limit_upper_bound (user_role user)) as Hup.
  assert (Hlow : 100 ≤ Z.of_nat (length rest))
    by (rewrite Hlen; apply rate_limit_lower_bound).
  destruct (check_rate_limit_first user (at_time t0 w)) as (w1 & Hfirst & Hcount1);
    [done | done | done |].
  destruct (checks_in_window user (t0 + 3600) rest w1 1 Hcount1) as (w2 & Hrest & Hcount2);
    [lia | lia | done |].
  exists w2. cbn [rate_limit_checks]. rewrite Hfirst, Hrest.
  split; [|split; [|split]].
  - f_equal. rewrite <- Hlen.
    rewrite <- (passes_then_denial (Z.of_nat (length rest)) (length rest) eq_refl).
    cbn [seq map]. f_equal.
    destruct (Z.leb_spec (1 + Z.of_nat 0) (Z.of_nat (length rest))); [done | lia].
  - destruct Hcount2 as (_ & _ & Hkey). rewrite Hkey. do 3 f_equal. lia.
  - intros t Ht. destruct Hcount2 as (Hc2 & Hf2 & Hkey).
    destruct (check_rate_limit_first user (at_time t w2)) as (w3 & Hagain & Hcount3);
      [done | done | |].
    + unfold Redis.lookup. cbn. rewrite Hkey. cbn.
      destruct (Z.ltb_spec t (t0 + 3600)); [lia | done].
    + exists w3. split; [done|]. by destruct Hcount3 as (_ & _ & ->).
  - intros Hnone%rate_limit_default. lia.
Qed.

(** A read-only caller, limit 100: a first check at time 0 and a hundred
    more one second later. *)
Lemma rate_limit_window_witness :
  ∃ w', rate_limit_checks Scenario.unauthorized (0 :: repeat 1 100) Scenario.fresh
        = (repeat true 100 ++ [false], w').
Proof.
  destruct (rate_limit_window Scenario.unauthorized Scenario.fresh 0 (repeat 1 100))
    as (w' & Hrun & _); try reflexivity.
  - apply List.Forall_forall. intros t Ht%repeat_spec. lia.
  - exists w'. exact Hrun.
Defined.

End RateLimitFacts.

(** ** The permission pipeline *)

Module PipelineFacts.

Import BaseClientFunction.

Lemma same_store_refl (w : world) : same_store w w.
Proof. done. Qed.

Lemma same_store_trans (w1 w2 w3 : world) :
  same_store w1 w2 → same_store w2 w3 → same_store w1 w3.
Proof. unfold same_store. intros (-> & -> & -> & ->) (-> & -> & -> & ->). done. Qed.

Lemma same_store_log (level msg : string) (w : world) : same_store w (log level msg w).
Proof. done. Qed.

Lemma same_store_statement (sql : string) (params : list pyval) (w : world) :
  same_store w (record_statement sql params w).
Proof. done. Qed.

(** A query touches the log and the cursor, never the cache. *)
Lemma run_query_frame (cfg : env) (query : string) (params : list pyval)
    (max_rows : Z) (w : world) :
  same_store w (snd (run_query cfg query params max_rows w))
  ∧ ∃ k, executed (snd (run_query cfg query params max_rows w))
         = executed w
           ++ take k [ ("SET LOCK_TIMEOUT 5000", []);
                       ("SET ROWCOUNT " +:+ PyStr.of_Z max_rows, []);
                       (query, params) ].
Proof.
  unfold run_query, cursor_execute.
  destruct (db_connect cfg) as [[]|msg]; cbn.
  - destruct (db_execute cfg "SET LOCK_TIMEOUT 5000" []) as [?|m1]; cbn.
    + destruct (db_execute cfg _ []) as [?|m2]; cbn.
      * destruct (db_execute cfg query params) as [[columns rows]|m3]; cbn;
          (split; [done|]); exists 3%nat; cbn; by rewrite <- !List.app_assoc.
      * split; [done|]. exists 2%nat. cbn. by rewrite <- !List.app_assoc.
    + split; [done|]. by exists 1%nat.
  - split; [done|]. exists 0%nat. cbn. by rewrite List.app_nil_r.
Qed.

Lemma execute_query_frame (cfg : env) (query : string) (params : list pyval)
    (max_rows : option Z) (use_cache : bool) (w : world) :
  same_store w (snd (_execute_query cfg query params max_rows use_cache w))
  ∧ ∃ k n, executed (snd (_execute_query cfg query params max_rows use_cache w))
           = executed w
             ++ take k [ ("SET LOCK_TIMEOUT 5000", []);
                         ("SET ROWCOUNT " +:+ PyStr.of_Z n, []);
                         (query, params) ].
Proof.
  unfold _execute_query.
  match goal with |- context [run_query cfg query params ?m w] =>
    destruct (run_query_frame cfg query params m w) as [Hs [k Hk]];
    destruct (run_query cfg query params m w) as [[rows|msg] w1]; cbn in *;
    (split; [done | by exists k, m])
  end.
Qed.

(** Whatever makes a query fail, [_execute_query] raises one fixed text. *)
Lemma execute_query_raises (cfg : env) (query : string) (params : list pyval)
    (max_rows : option Z) (use_cache : bool) (w w' : world) (msg : string) :
  _execute_query cfg query params max_rows use_cache w = (Raise msg, w') →
  msg = UNAVAILABLE.
Proof.
  unfold _execute_query.
  destruct (run_query cfg query params _ w) as [[rows|m] w1]; congruence.
Qed.

(** The two ways the store fails under a query: no connection, or a
    statement that raises. *)
Lemma run_query_connection_failure (cfg : env) (query : string) (params : list pyval)
    (max_rows : Z) (w : world) (detail : string) :
  db_connect cfg = Raise detail →
  run_query cfg query params max_rows w
  = (Raise detail, log "ERROR" ("Database connection failed: " +:+ detail) w).
Proof. unfold run_query. by intros ->. Qed.

Lemma run_query_statement_failure (cfg : env) (query : string) (params : list pyval)
    (max_rows : Z) (w : world) (detail : string)
    (r1 r2 : list string * list (list pyval)) :
  db_connect cfg = Ret tt →
  db_execute cfg "SET LOCK_TIMEOUT 5000" [] = Ret r1 →
  db_execute cfg ("SET ROWCOUNT " +:+ PyStr.of_Z max_rows) [] = Ret r2 →
  db_execute cfg query params = Raise detail →
  fst (run_query cfg query params max_rows w) = Raise detail.
Proof.
  unfold run_query, cursor_execute. intros -> H1 H2 H3. cbn. rewrite H1. cbn.
  rewrite H2. cbn. by rewrite H3.
Qed.

Lemma can_access_client_frame (cfg : env) (user : pydict) (client_id : string) (w : world) :
  same_store w (snd (_can_access_client cfg user client_id w)).
Proof.
  unfold _can_access_client.
  destruct (PermissionConfig.can_view_all_clients _); [done|].
  match goal with |- context [_execute_query cfg ?q ?p ?m ?u w] =>
    destruct (execute_query_frame cfg q p m u w) as [Hs _];
    destruct (_execute_query cfg q p m u w) as [[rows|msg] w1]; cbn in *; done
  end.
Qed.

(** C9, as the code has it.  A call refused by the function-level or the
    row-level check returns before the rate limit is looked at, and
    leaves the Redis store, the caller's counter included, as it was.  A
    call that passes both checks goes through the rate-limit check, and
    the store it leaves is the one that check leaves: the increment stays
    also when the limit then refuses the call. *)
Theorem authorization_denial_skips_counter (cfg : env) (function_name : string)
    (user : pydict) (client_id : option string) (w : world) :
  (denied_by_authorization cfg function_name user client_id w →
   fst (_check_permissions cfg function_name user client_id w) = false
   ∧ redis (snd (_check_permissions cfg function_name user client_id w)) = redis w)
  ∧ (∀ w1, authorized_into cfg function_name user client_id w w1 →
     fst (_check_permissions cfg function_name user client_id w)
       = fst (_check_rate_limit user w1)
     ∧ redis (snd (_check_permissions cfg function_name user client_id w))
       = redis (snd (_check_rate_limit user w1))).
Proof.
  split.
  - intros Hdenied. unfold _check_permissions.
    destruct (PermissionConfig.can_access_function _ _) eqn:Hfun; cbn [negb]; [|done].
    destruct Hdenied as [Hno | [Happlies Hrow]]; [congruence|].
    rewrite Happlies.
    pose proof (can_access_client_frame cfg user (default "" client_id) w) as (_ & _ & Hr & _).
    destruct (_can_access_client cfg user (default "" client_id) w) as [[] w1];
      cbn in *; [discriminate | done].
  - intros w1 [Hfun Hrow]. unfold _check_permissions. rewrite Hfun. cbn [negb].
    destruct (row_level_applies cfg client_id).
    + rewrite Hrow. by destruct (_check_rate_limit user w1) as [[] w2].
    + subst w1. by destruct (_check_rate_limit user w) as [[] w2].
Qed.

(** C9 as written fails for the read-only caller of the tests,
    refused at the function level, and for a support agent without an
    access row, refused at the row level: after either call there is no
    counter for the caller. *)
Lemma denied_call_does_not_increment :
  fst (_check_permissions Scenario.cfg ClientNotesFunction.FUNCTION_NAME
         Scenario.unauthorized (Some "CLIENT123") Scenario.fresh) = false
  ∧ redis (snd (_check_permissions Scenario.cfg ClientNotesFunction.FUNCTION_NAME
                  Scenario.unauthorized (Some "CLIENT123") Scenario.fresh))
      !! rate_limit_key Scenario.unauthorized = None
  ∧ fst (_check_permissions Scenario.cfg ClientNotesFunction.FUNCTION_NAME
           Scenario.support (Some "CLIENT123") Scenario.fresh) = false
  ∧ redis (snd (_check_permissions Scenario.cfg ClientNotesFunction.FUNCTION_NAME
                  Scenario.support (Some "CLIENT123") Scenario.fresh))
      !! rate_limit_key Scenario.support = None.
Proof. by vm_compute. Qed.

(** C5.  For a caller whose role cannot see all clients, the row-level
    check grants access exactly when the access-mapping lookup returns a
    row; a lookup that raises is a refusal; and a refusal here refuses
    the call although the function-level check passed. *)
Theorem row_level_check_spec (cfg : env) (user : pydict) (client_id : string) (w : world) :
  PermissionConfig.can_view_all_clients (user_role user) = false →
  (fst (_can_access_client cfg user client_id w) = true
     ↔ ∃ row rows w', access_lookup cfg user client_id w = (Ret (row :: rows), w'))
  ∧ (∀ msg w', access_lookup cfg user client_id w = (Raise msg, w') →
       fst (_can_access_client cfg user client_id w) = false)
  ∧ (∀ function_name,
       PermissionConfig.can_access_function (user_role user) function_name = true →
       row_level_applies cfg (Some client_id) = true →
       (∀ row rows w', access_lookup cfg user client_id w ≠ (Ret (row :: rows), w')) →
       fst (_check_permissions cfg function_name user (Some client_id) w) = false).
Proof.
  intros Hrestricted.
  assert (Hiff : fst (_can_access_client cfg user client_id w) = true
                 ↔ ∃ row rows w', access_lookup cfg user client_id w = (Ret (row :: rows), w')).
  { unfold _can_access_client, access_lookup. rewrite Hrestricted.
    destruct (_execute_query cfg ACCESS_QUERY _ None false w) as [[[|row rows]|msg] w1]; cbn.
    - split; [done | intros (? & ? & ? & [=])].
    - split; [by exists row, rows, w1 | done].
    - split; [done | intros (? & ? & ? & [=])]. }
  split; [exact Hiff|]. split.
  - intros msg w' Hraise. apply not_true_is_false. rewrite Hiff.
    intros (row & rows & w1 & Hret). congruence.
  - intros function_name Hfun Happlies Hnone. unfold _check_permissions.
    rewrite Hfun, Happlies. cbn [negb].
    change (default "" (Some client_id)) with client_id.
    destruct (_can_access_client cfg user client_id w) as [[] w1] eqn:Hrow;
      [|reflexivity].
    exfalso. destruct (proj1 Hiff) as (row & rows & w2 & Hret); [reflexivity|].
    by apply (Hnone row rows w2).
Qed.

(** A support agent, a role that cannot see all clients, with no row in
    the access mapping. *)
Lemma row_level_check_spec_witness :
  fst (_check_permissions Scenario.cfg ClientNotesFunction.FUNCTION_NAME
         Scenario.support (Some "CLIENT123") Scenario.fresh) = false.
Proof.
  apply (row_level_check_spec Scenario.cfg Scenario.support "CLIENT123" Scenario.fresh);
    [reflexivity | reflexivity | reflexivity |].
  intros row rows w'. by vm_compute.
Defined.

End PipelineFacts.

(** ** The cached operation *)

Module NotesFacts.

Import BaseClientFunction ClientNotesFunction PipelineFacts.

(** A hit returns what the cache holds, whatever the method would do. *)
Lemma cache_result_hit (cfg : env) (ttl : Z) (name : string)
    (func : list pyval → pydict → world → res pyval * world)
    (args : list pyval) (kwargs : pydict) (w w0 : world) (v : pyval) :
  CacheConfig.get (cache_key name args kwargs) w = (v, w0) → v ≠ PyNone →
  cache_result cfg ttl name func args kwargs w
  = (Ret v, log "INFO" ("Cache HIT: " +:+ cache_key name args kwargs) w0).
Proof.
  intros Hget Hv. unfold cache_result. rewrite Hget. by destruct v.
Qed.

(** A miss runs the method and offers its result to the cache. *)
Lemma cache_result_miss (cfg : env) (ttl : Z) (name : string)
    (func : list pyval → pydict → world → res pyval * world)
    (args : list pyval) (kwargs : pydict) (w w0 w1 : world) (result : pyval) :
  CacheConfig.get (cache_key name args kwargs) w = (PyNone, w0) →
  func args kwargs (log "INFO" ("Cache MISS: " +:+ cache_key name args kwargs) w0)
    = (Ret result, w1) →
  cache_result cfg ttl name func args kwargs w
  = (Ret result,
     snd (CacheConfig.set cfg (cache_key name args kwargs) result (Some ttl) w1)).
Proof.
  intros Hget Hrun. unfold cache_result. rewrite Hget, Hrun.
  by destruct (CacheConfig.set cfg _ result (Some ttl) w1).
Qed.

(** Writing to the cache adds to the log and sends nothing to the database. *)
Lemma cache_set_frame (cfg : env) (key : string) (value : pyval) (ttl : option Z)
    (w : world) :
  executed (snd (CacheConfig.set cfg key value ttl w)) = executed w
  ∧ ∃ more, logs (snd (CacheConfig.set cfg key value ttl w)) = logs w ++ more.
Proof.
  unfold CacheConfig.set, Redis.call, Redis.SETEX.
  destruct (cache_client w); cbn; [|split; [done | exists []; by rewrite List.app_nil_r]].
  destruct (redis_fault w); cbn; [split; [done | by eexists]|].
  destruct (_ <=? 0); cbn; split; try done; by eexists.
Qed.

(** How a positional call, as [Tools.get_all_notes] makes it, is bound. *)
Lemma method_positional (cfg : env) (client_id limit user : pyval) (w : world) :
  method cfg [client_id; limit; user] [] w = get_all_notes_body cfg client_id limit user w.
Proof. reflexivity. Qed.

(** The body of [get_all_notes] once validation and the permission
    check have passed and the store fails under the query. *)
Lemma body_store_failure (cfg : env) (raw query : string) (limit : pyval)
    (user : pydict) (w w1 w2 : world) (detail : string) :
  invalid_client_id (PyStr raw) = false →
  _check_permissions cfg FUNCTION_NAME user (Some (sanitized (PyStr raw))) w = (true, w1) →
  notes_query cfg = Some query → query ≠ "" →
  run_query cfg query [limit; PyStr (sanitized (PyStr raw))] (max_query_rows cfg) w1
    = (Raise detail, w2) →
  get_all_notes_body cfg (PyStr raw) limit (PyDict user) w
  = (Ret (PyStr GENERIC_ERROR),
     log "ERROR" ("Error in " +:+ FUNCTION_NAME +:+ ": " +:+ UNAVAILABLE)
       (log "ERROR" ("Query execution failed: " +:+ detail) w2)).
Proof.
  unfold invalid_client_id, sanitized. intros Hvalid Hperm Hquery Hne Hfail.
  unfold get_all_notes_body.
  assert (Htruthy : PyRepr.truthy (PyStr raw) = true).
  { destruct raw; [discriminate Hvalid | reflexivity]. }
  rewrite Htruthy, Hvalid. cbn [negb]. rewrite Hperm. cbn [negb]. rewrite Hquery.
  destruct query as [|c query]; [done|].
  unfold _execute_query. by rewrite Hfail.
Qed.

(** C6.  When the store fails under the query of a call that reached it
    (the connection or a statement raises, with any text), the caller gets
    the one generic message, and the text of the failure goes to the log
    only: [_execute_query] raises a fixed text whatever failed, and
    [_format_error_response] returns a fixed text whatever it is given. *)
Theorem store_failure_is_masked (cfg : env) (raw query : string) (limit : pyval)
    (user : pydict) (w w0 w1 w2 : world) (detail : string) :
  CacheConfig.get (cache_key "get_all_notes" [PyStr raw; limit; PyDict user] []) w
    = (PyNone, w0) →
  invalid_client_id (PyStr raw) = false →
  _check_permissions cfg FUNCTION_NAME user (Some (sanitized (PyStr raw)))
    (log "INFO" ("Cache MISS: "
                 +:+ cache_key "get_all_notes" [PyStr raw; limit; PyDict user] []) w0)
    = (true, w1) →
  notes_query cfg = Some query → query ≠ "" →
  run_query cfg query [limit; PyStr (sanitized (PyStr raw))] (max_query_rows cfg) w1
    = (Raise detail, w2) →
  fst (Tools.get_all_notes cfg (PyStr raw) limit (PyDict user) w)
    = Ret (PyStr GENERIC_ERROR)
  ∧ In ("ERROR", "Query execution failed: " +:+ detail)
       (logs (snd (Tools.get_all_notes cfg (PyStr raw) limit (PyDict user) w)))
  ∧ (∀ q params max_rows use_cache wa wb msg,
       _execute_query cfg q params max_rows use_cache wa = (Raise msg, wb) →
       msg = UNAVAILABLE)
  ∧ (∀ function_name error wa,
       fst (_format_error_response function_name error wa) = GENERIC_ERROR).
Proof.
  intros Hmiss Hvalid Hperm Hquery Hne Hfail.
  pose proof (body_store_failure cfg raw query limit user _ w1 w2 detail
                Hvalid Hperm Hquery Hne Hfail) as Hbody.
  unfold Tools.get_all_notes, get_all_notes.
  rewrite (cache_result_miss cfg 300 "get_all_notes" (method cfg) _ _ w w0 _ _ Hmiss Hbody).
  split; [reflexivity|]. split; [|split].
  - cbn [snd].
    match goal with |- context [CacheConfig.set cfg ?k ?v ?t ?x] =>
      destruct (cache_set_frame cfg k v t x) as [_ [more Hlogs]] end.
    rewrite Hlogs. cbn [logs log]. rewrite !in_app_iff. left. left. right. by left.
  - intros q params max_rows use_cache wa wb msg. apply execute_query_raises.
  - reflexivity.
Qed.

(** The administrator of the tests asks for the notes of a client while
    the database refuses connections. *)
Lemma store_failure_is_masked_witness :
  fst (Tools.get_all_notes Scenario.cfg_down (PyStr "CLIENT123") (PyInt 100)
         (PyDict Scenario.admin) Scenario.fresh)
    = Ret (PyStr GENERIC_ERROR)
  ∧ In ("ERROR", "Query execution failed: [08001] Login timeout expired (dbo.notes)")
       (logs (snd (Tools.get_all_notes Scenario.cfg_down (PyStr "CLIENT123") (PyInt 100)
                     (PyDict Scenario.admin) Scenario.fresh))).
Proof.
  pose proof (store_failure_is_masked Scenario.cfg_down "CLIENT123" Scenario.NOTES_QUERY
                (PyInt 100) Scenario.admin Scenario.fresh
                (snd (CacheConfig.get
                        (cache_key "get_all_notes"
                           [PyStr "CLIENT123"; PyInt 100; PyDict Scenario.admin] [])
                        Scenario.fresh))) as H.
  edestruct H as (Hres & Hlog & _); [by vm_compute .. | ].
  split; [exact Hres | exact Hlog].
Defined.

Lemma call_executed {A} (cmd : gmap string entry → Z → res (A * gmap string entry))
    (w : world) :
  executed (snd (Redis.call cmd w)) = executed w.
Proof.
  unfold Redis.call. destruct (redis_fault w); [done|].
  by destruct (cmd (redis w) (now w)) as [[a st]|msg].
Qed.

Lemma cache_get_executed (key : string) (w : world) :
  executed (snd (CacheConfig.get key w)) = executed w.
Proof.
  unfold CacheConfig.get. destruct (cache_client w); [|done]. cbn [negb].
  pose proof (call_executed (Redis.GET key) w) as H.
  destruct (Redis.call (Redis.GET key) w) as [[[[|c text]|]|msg] w1]; cbn in *; try done.
  by destruct (Json.loads (String c text)).
Qed.

Lemma increment_executed (key : string) (amount : Z) (w : world) :
  executed (snd (CacheConfig.increment key amount w)) = executed w.
Proof.
  unfold CacheConfig.increment. destruct (cache_client w); [|done]. cbn [negb].
  pose proof (call_executed (Redis.INCRBY key amount) w) as H.
  by destruct (Redis.call (Redis.INCRBY key amount) w) as [[n|msg] w1].
Qed.

Lemma expire_executed (key : string) (seconds : Z) (w : world) :
  executed (snd (CacheConfig.expire key seconds w)) = executed w.
Proof.
  unfold CacheConfig.expire. destruct (cache_client w); [|done]. cbn [negb].
  pose proof (call_executed (Redis.EXPIRE key seconds) w) as H.
  by destruct (Redis.call (Redis.EXPIRE key seconds) w) as [[b|msg] w1].
Qed.

Lemma check_rate_limit_executed (user : pydict) (w : world) :
  executed (snd (_check_rate_limit user w)) = executed w.
Proof.
  unfold _check_rate_limit.
  pose proof (increment_executed (rate_limit_key user) 1 w) as Hinc.
  destruct (CacheConfig.increment (rate_limit_key user) 1 w) as [current w1].
  cbn [snd] in Hinc.
  pose proof (expire_executed (rate_limit_key user) 3600 w1) as Hexp.
  destruct (current =? 1), (_ <? current); cbn [snd]; congruence.
Qed.

(** What the row-level check sends to the database: nothing for a role
    that sees all clients, and otherwise the statements of the lookup, up
    to the first that fails. *)
Lemma can_access_client_executed (cfg : env) (user : pydict) (client_id : string)
    (w : world) :
  (∃ k, executed (snd (_can_access_client cfg user client_id w))
        = executed w
          ++ take k (statements cfg ACCESS_QUERY
                       [default PyNone (dict_get user "id"); PyStr client_id]))
  ∧ (PermissionConfig.can_view_all_clients (user_role user) = true →
     executed (snd (_can_access_client cfg user client_id w)) = executed w).
Proof.
  unfold _can_access_client.
  destruct (PermissionConfig.can_view_all_clients _).
  { split; [|done]. exists 0%nat. cbn. by rewrite List.app_nil_r. }
  split; [|done]. unfold _execute_query.
  destruct (run_query_frame cfg ACCESS_QUERY
              [default PyNone (dict_get user "id"); PyStr client_id]
              (max_query_rows cfg) w) as [_ [k Hk]].
  exists k.
  by destruct (run_query cfg ACCESS_QUERY _ (max_query_rows cfg) w) as [[rows|msg] w1].
Qed.

Lemma check_permissions_executed (cfg : env) (function_name : string)
    (user : pydict) (client_id : option string) (w : world) :
  (∃ k, executed (snd (_check_permissions cfg function_name user client_id w))
        = executed w
          ++ take k (statements cfg ACCESS_QUERY
                       [default PyNone (dict_get user "id"); PyStr (default "" client_id)]))
  ∧ (PermissionConfig.can_access_function (user_role user) function_name = false
     ∨ PermissionConfig.can_view_all_clients (user_role user) = true →
     executed (snd (_check_permissions cfg function_name user client_id w)) = executed w).
Proof.
  assert (Hnil : ∀ l : list (string * list pyval), l = l ++ take 0 (statements cfg
            ACCESS_QUERY [default PyNone (dict_get user "id"); PyStr (default "" client_id)])).
  { intros l. cbn. by rewrite List.app_nil_r. }
  unfold _check_permissions.
  destruct (PermissionConfig.can_access_function _ _) eqn:Hfun; cbn [negb].
  2:{ split; [exists 0%nat; apply Hnil | done]. }
  destruct (can_access_client_executed cfg user (default "" client_id) w) as [[k Hk] Hall].
  destruct (row_level_applies cfg client_id).
  - destruct (_can_access_client cfg user (default "" client_id) w) as [[] w1]; cbn [snd] in *.
    + pose proof (check_rate_limit_executed user w1) as Hrate.
      destruct (_check_rate_limit user w1) as [[] w2]; cbn [snd] in *;
        (split; [exists k; cbn; congruence |]);
        (intros [?|Hview]; [congruence | cbn; rewrite Hrate; by apply Hall]).
    + split; [exists k; cbn; congruence |].
      intros [?|Hview]; [congruence | cbn; by apply Hall].
  - pose proof (check_rate_limit_executed user w) as Hrate.
    destruct (_check_rate_limit user w) as [[] w2]; cbn [snd] in *;
      (split; [exists 0%nat; rewrite <- Hnil; cbn; congruence | intros _; cbn; congruence]).
Qed.

Lemma body_invalid (cfg : env) (client_id limit user : pyval) (w : world) :
  invalid_client_id client_id = true →
  get_all_notes_body cfg client_id limit user w = (Ret (PyStr INVALID_CLIENT), w).
Proof.
  unfold get_all_notes_body, invalid_client_id.
  destruct client_id as [| | |raw| | | |]; try by intros ->.
  intros Hblank. destruct raw as [|c raw]; [done|]. cbn [PyRepr.truthy negb String.eqb].
  by rewrite Hblank.
Qed.

Lemma body_denied (cfg : env) (raw : string) (limit : pyval) (user : pydict)
    (w w1 : world) :
  invalid_client_id (PyStr raw) = false →
  _check_permissions cfg FUNCTION_NAME user (Some (sanitized (PyStr raw))) w = (false, w1) →
  get_all_notes_body cfg (PyStr raw) limit (PyDict user) w = (Ret (PyStr ACCESS_DENIED), w1).
Proof.
  unfold invalid_client_id, sanitized. intros Hvalid Hperm. unfold get_all_notes_body.
  assert (Htruthy : PyRepr.truthy (PyStr raw) = true).
  { destruct raw; [discriminate Hvalid | reflexivity]. }
  by rewrite Htruthy, Hvalid, Hperm.
Qed.

(** C3, as the code has it.  A call that misses the cache and ends in a
    refusal returns the validation or the denial message and never runs
    the query of the operation.  A validation failure and a function-level
    denial send nothing to the database; a row-level or a rate-limit
    denial sends at most the statements of the access-mapping lookup, and
    nothing when the role sees all clients. *)
Theorem denial_runs_no_data_query (cfg : env) (client_id limit : pyval) (user : pydict)
    (w w0 : world) :
  CacheConfig.get (cache_key "get_all_notes" [client_id; limit; PyDict user] []) w
    = (PyNone, w0) →
  (invalid_client_id client_id = true →
   fst (Tools.get_all_notes cfg client_id limit (PyDict user) w)
     = Ret (PyStr INVALID_CLIENT)
   ∧ executed (snd (Tools.get_all_notes cfg client_id limit (PyDict user) w)) = executed w)
  ∧ (∀ raw w1,
       client_id = PyStr raw → invalid_client_id client_id = false →
       _check_permissions cfg FUNCTION_NAME user (Some (sanitized client_id))
         (log "INFO" ("Cache MISS: "
                      +:+ cache_key "get_all_notes" [client_id; limit; PyDict user] []) w0)
         = (false, w1) →
       fst (Tools.get_all_notes cfg client_id limit (PyDict user) w)
         = Ret (PyStr ACCESS_DENIED)
       ∧ (∃ k, executed (snd (Tools.get_all_notes cfg client_id limit (PyDict user) w))
               = executed w
                 ++ take k (statements cfg ACCESS_QUERY
                              [default PyNone (dict_get user "id");
                               PyStr (sanitized client_id)]))
       ∧ (PermissionConfig.can_access_function (user_role user) FUNCTION_NAME = false
          ∨ PermissionConfig.can_view_all_clients (user_role user) = true →
          executed (snd (Tools.get_all_notes cfg client_id limit (PyDict user) w))
            = executed w)).
Proof.
  intros Hmiss.
  pose proof (cache_get_executed
                (cache_key "get_all_notes" [client_id; limit; PyDict user] []) w) as Hget.
  rewrite Hmiss in Hget. cbn [snd] in Hget.
  split.
  - intros Hinvalid. unfold Tools.get_all_notes, get_all_notes.
    rewrite (cache_result_miss cfg 300 "get_all_notes" (method cfg) _ _ w w0 _ _ Hmiss
               (body_invalid cfg client_id limit (PyDict user) _ Hinvalid)).
    split; [reflexivity|]. cbn [snd].
    by rewrite (proj1 (cache_set_frame _ _ _ _ _)).
  - intros raw w1 -> Hvalid Hperm. unfold Tools.get_all_notes, get_all_notes.
    rewrite (cache_result_miss cfg 300 "get_all_notes" (method cfg) _ _ w w0 _ _ Hmiss
               (body_denied cfg raw limit user _ w1 Hvalid Hperm)).
    cbn [fst snd]. rewrite (proj1 (cache_set_frame _ _ _ _ _)).
    destruct (check_permissions_executed cfg FUNCTION_NAME user
                (Some (sanitized (PyStr raw)))
                (log "INFO" ("Cache MISS: "
                   +:+ cache_key "get_all_notes" [PyStr raw; limit; PyDict user] []) w0))
      as [[k Hk] Hnone].
    rewrite Hperm in Hk, Hnone. cbn [snd log executed default] in Hk, Hnone.
    rewrite Hget in Hk, Hnone.
    split; [reflexivity|]. split; [by exists k | exact Hnone].
Qed.

(** The read-only caller of the tests, refused at the function level on
    an empty cache. *)
Lemma denial_runs_no_data_query_witness :
  fst (Tools.get_all_notes Scenario.cfg (PyStr "CLIENT123") (PyInt 100)
         (PyDict Scenario.unauthorized) Scenario.fresh)
    = Ret (PyStr ACCESS_DENIED)
  ∧ executed (snd (Tools.get_all_notes Scenario.cfg (PyStr "CLIENT123") (PyInt 100)
                     (PyDict Scenario.unauthorized) Scenario.fresh)) = [].
Proof.
  edestruct (denial_runs_no_data_query Scenario.cfg (PyStr "CLIENT123") (PyInt 100)
               Scenario.unauthorized Scenario.fresh) as [_ Hdenied];
    [by vm_compute|].
  edestruct (Hdenied "CLIENT123") as (Hres & _ & Hnone); [by vm_compute .. |].
  split; [exact Hres | apply Hnone; by left].
Defined.

(** C3 as written fails on an empty, reachable cache.  The
    read-only caller of the tests is refused at the function level, and
    the denial message is stored under the cache key of the call.  A
    support agent without an access row is refused at the row level after
    the statements of the lookup went to the database, and the message is
    stored as well; the administrator who then makes the same call by
    keyword is served that stored denial. *)
Lemma denial_is_cached_and_lookup_runs :
  fst (Tools.get_all_notes Scenario.cfg (PyStr "CLIENT123") (PyInt 100)
         (PyDict Scenario.unauthorized) Scenario.fresh)
    = Ret (PyStr ACCESS_DENIED)
  ∧ Redis.lookup
      (redis (snd (Tools.get_all_notes Scenario.cfg (PyStr "CLIENT123") (PyInt 100)
                     (PyDict Scenario.unauthorized) Scenario.fresh))) 0
      (cache_key "get_all_notes"
         [PyStr "CLIENT123"; PyInt 100; PyDict Scenario.unauthorized] [])
    = Some {| e_value := Json.dumps (PyStr ACCESS_DENIED); e_expiry := Some 300 |}
  ∧ fst (execute Scenario.cfg
           [("client_id", PyStr "CLIENT123"); ("__user__", PyDict Scenario.support)]
           Scenario.fresh)
    = Ret (PyStr ACCESS_DENIED)
  ∧ executed (snd (execute Scenario.cfg
                     [("client_id", PyStr "CLIENT123"); ("__user__", PyDict Scenario.support)]
                     Scenario.fresh))
    = statements Scenario.cfg ACCESS_QUERY [PyStr "user789"; PyStr "CLIENT123"]
  ∧ fst (execute Scenario.cfg
           [("client_id", PyStr "CLIENT123"); ("__user__", PyDict Scenario.admin)]
           (snd (execute Scenario.cfg
                   [("client_id", PyStr "CLIENT123"); ("__user__", PyDict Scenario.support)]
                   Scenario.fresh)))
    = Ret (PyStr ACCESS_DENIED).
Proof. by vm_compute. Qed.

(** C1 fails on the code.  The administrator of the tests reads the notes
    of a client, which fills the cache; the read-only caller of the tests
    then makes the same call.  The role is refused by the function-level
    check, and the method, had it run, would answer with the denial; yet
    the call returns the notes from the cache, with no statement sent, no
    counter touched and nothing but the two cache lines logged. *)
Lemma cache_hit_bypasses_authorization :
  PermissionConfig.can_access_function (user_role Scenario.unauthorized) FUNCTION_NAME
    = false
  ∧ fst (get_all_notes Scenario.cfg [PyStr "CLIENT123"]
           [("__user__", PyDict Scenario.admin)] Scenario.fresh)
    = Ret (PyStr Scenario.NOTES)
  ∧ fst (get_all_notes Scenario.cfg [PyStr "CLIENT123"]
           [("__user__", PyDict Scenario.unauthorized)]
           (snd (get_all_notes Scenario.cfg [PyStr "CLIENT123"]
                   [("__user__", PyDict Scenario.admin)] Scenario.fresh)))
    = Ret (PyStr Scenario.NOTES)
  ∧ fst (method Scenario.cfg [PyStr "CLIENT123"]
           [("__user__", PyDict Scenario.unauthorized)]
           (snd (get_all_notes Scenario.cfg [PyStr "CLIENT123"]
                   [("__user__", PyDict Scenario.admin)] Scenario.fresh)))
    = Ret (PyStr ACCESS_DENIED)
  ∧ redis (snd (get_all_notes Scenario.cfg [PyStr "CLIENT123"]
                  [("__user__", PyDict Scenario.unauthorized)]
                  (snd (get_all_notes Scenario.cfg [PyStr "CLIENT123"]
                          [("__user__", PyDict Scenario.admin)] Scenario.fresh))))
      !! rate_limit_key Scenario.unauthorized = None.
Proof. by vm_compute. Qed.

End NotesFacts.

(** ** Cache keys *)

Module CacheKeyFacts.

Import BaseClientFunction CacheConfig.

#[local] Instance item_le_trans : Transitive item_le.
Proof. intros a b c. unfold item_le. apply transitivity. Qed.

#[local] Instance item_le_total : Total item_le.
Proof. intros a b. unfold item_le. apply total, _. Qed.

(** Two sorted lists of pairs with the same pairs and no repeated key
    are the same list. *)
Lemma sorted_unique (l1 l2 : pydict) :
  StronglySorted item_le l1 → StronglySorted item_le l2 →
  l1 ≡ₚ l2 → NoDup (l1.*1) → l1 = l2.
Proof.
  revert l2. induction l1 as [|x l1 IH]; intros l2 Hs1 Hs2 Hperm Hkeys.
  - by apply Permutation_nil in Hperm.
  - destruct l2 as [|y l2]; [by apply Permutation_sym, Permutation_nil in Hperm|].
    apply StronglySorted_inv in Hs1 as [Hs1 Hx].
    apply StronglySorted_inv in Hs2 as [Hs2 Hy].
    apply NoDup_cons in Hkeys as [Hfresh Hkeys].
    assert (Hxy : x = y).
    { assert (Hin1 : x ∈ y :: l2) by (rewrite <- Hperm; left).
      assert (Hin2 : y ∈ x :: l1) by (rewrite Hperm; left).
      apply elem_of_cons in Hin1 as [?|Hin1]; [done|].
      apply elem_of_cons in Hin2 as [?|Hin2]; [done|].
      exfalso. apply Hfresh.
      rewrite Forall_forall in Hx, Hy.
      assert (Hkey : x.1 = y.1).
      { apply (anti_symm String.le); [apply Hx, Hin2 | apply Hy, Hin1]. }
      rewrite Hkey. by apply list_elem_of_fmap_2. }
    subst y. f_equal. apply IH; try done.
    by apply Permutation_cons_inv in Hperm.
Qed.

Lemma sorted_items_order (kw1 kw2 : pydict) :
  kw1 ≡ₚ kw2 → NoDup (kw1.*1) → sorted_items kw1 = sorted_items kw2.
Proof.
  intros Hperm Hkeys. unfold sorted_items. apply sorted_unique.
  - apply StronglySorted_merge_sort; apply _.
  - apply StronglySorted_merge_sort; apply _.
  - by rewrite !merge_sort_Permutation.
  - by rewrite merge_sort_Permutation.
Qed.

Lemma filter_keys_NoDup (P : string * pyval → Prop) `{!∀ kv, Decision (P kv)}
    (kw : pydict) :
  NoDup (kw.*1) → NoDup ((filter P kw).*1).
Proof.
  intros Hkeys. apply (sublist_NoDup _ (kw.*1)); [done|].
  apply fmap_sublist, sublist_filter.
Qed.

(** The key does not depend on the order the keyword arguments come in. *)
Lemma cache_key_kwargs_order (name : string) (args : list pyval) (kw1 kw2 : pydict) :
  kw1 ≡ₚ kw2 → NoDup (kw1.*1) →
  cache_key name args kw1 = cache_key name args kw2.
Proof.
  intros Hperm Hkeys. unfold cache_key, generate_cache_key, key_data.
  rewrite (sorted_items_order (filter (fun kv => fst kv ≠ "__user__") kw1)
             (filter (fun kv => fst kv ≠ "__user__") kw2)); [done | |].
  - by rewrite Hperm.
  - by apply filter_keys_NoDup.
Qed.

(** The key does not depend on a caller passed by keyword. *)
Lemma cache_key_keyword_caller (name : string) (args : list pyval)
    (before after : pydict) (user1 user2 : pyval) :
  cache_key name args (before ++ ("__user__", user1) :: after)
  = cache_key name args (before ++ ("__user__", user2) :: after).
Proof.
  assert (Hdrop : ∀ user : pyval,
            filter (fun kv : string * pyval => fst kv ≠ "__user__")
                   (before ++ ("__user__", user) :: after)
            = filter (fun kv : string * pyval => fst kv ≠ "__user__") (before ++ after)).
  { intros user. rewrite !filter_app, filter_cons. by case_decide. }
  unfold cache_key. by rewrite !Hdrop.
Qed.

(** C2 fails on the code.  The wrapper drops [__user__] from the keyword
    arguments only.  [Tools.get_all_notes] passes the caller as the third
    positional argument, so the caller's dict is part of the text that is
    hashed: the administrator and the read-only caller of the tests get
    different keys for the same client and limit, although the same two
    callers passed by keyword get one key. *)
Lemma positional_caller_changes_cache_key :
  cache_key "get_all_notes" [PyStr "CLIENT123"; PyInt 100; PyDict Scenario.admin] []
    = "get_all_notes:4971413f966649eb2fc8efc58b508665"
  ∧ cache_key "get_all_notes" [PyStr "CLIENT123"; PyInt 100; PyDict Scenario.unauthorized] []
    = "get_all_notes:615c188e0313196a10d45586d52b477f"
  ∧ key_data [PyStr "CLIENT123"; PyInt 100; PyDict Scenario.unauthorized] []
    = "('CLIENT123', 100, {'id': 'user456', 'name': 'Unauthorized User', 'role': 'readonly'}):[]"
  ∧ cache_key "get_all_notes" [PyStr "CLIENT123"] [("__user__", PyDict Scenario.admin)]
    = cache_key "get_all_notes" [PyStr "CLIENT123"]
        [("__user__", PyDict Scenario.unauthorized)].
Proof. by vm_compute. Qed.

End CacheKeyFacts.

(** ** More on the cache layer *)

Module CacheLayerFacts.

Import CacheConfig.

Lemma call_ok {A} (cmd : gmap string entry → Z → res (A * gmap string entry))
    (w : world) (a : A) (st : gmap string entry) :
  redis_fault w = None → cmd (redis w) (now w) = Ret (a, st) →
  Redis.call cmd w = (Ret a, set_redis st w).
Proof. unfold Redis.call. by intros -> ->. Qed.

Lemma call_raise {A} (cmd : gmap string entry → Z → res (A * gmap string entry))
    (w : world) (msg : string) :
  redis_fault w = None → cmd (redis w) (now w) = Raise msg →
  Redis.call cmd w = (Raise msg, w).
Proof. unfold Redis.call. by intros -> ->. Qed.

(** What [set] leaves in a reachable store. *)
Lemma set_reachable (cfg : env) (key : string) (value : pyval) (ttl : option Z)
    (w : world) :
  reachable w → 0 < ttl_or_default cfg ttl →
  ∃ w1, set cfg key value ttl w = (true, w1)
        ∧ reachable w1 ∧ now w1 = now w ∧ executed w1 = executed w
        ∧ redis w1 = <[key := {| e_value := Json.dumps value;
                                 e_expiry := Some (now w + ttl_or_default cfg ttl) |}]>
                       (redis w).
Proof.
  intros [Hc Hf] Httl. unfold set. rewrite Hc. cbn [negb].
  rewrite (call_ok _ w tt
             (<[key := {| e_value := Json.dumps value;
                          e_expiry := Some (now w + ttl_or_default cfg ttl) |}]> (redis w)) Hf).
  - eexists. split; [reflexivity|]. by repeat split.
  - unfold Redis.SETEX. destruct (Z.leb_spec (ttl_or_default cfg ttl) 0); [lia | done].
Qed.

(** What [get] returns for a key that holds a text. *)
Lemma get_live (key text : string) (expiry : option Z) (w : world) (v : pyval) :
  reachable w →
  redis w !! key = Some {| e_value := text; e_expiry := expiry |} →
  Redis.live (now w) {| e_value := text; e_expiry := expiry |} = true →
  Json.loads text = Ret v →
  fst (get key w) = v.
Proof.
  intros [Hc Hf] Hkey Hlive Hloads. unfold get. rewrite Hc. cbn [negb].
  rewrite (call_ok _ w (Some text) (redis w) Hf).
  - destruct text as [|c text]; [by vm_compute in Hloads|]. by rewrite Hloads.
  - unfold Redis.GET, Redis.lookup. by rewrite Hkey, Hlive.
Qed.

Lemma get_dead (key : string) (w : world) :
  Redis.lookup (redis w) (now w) key = None → fst (get key w) = PyNone.
Proof.
  intros Hdead. unfold get, Redis.call, Redis.GET.
  destruct (cache_client w); [|done]. cbn [negb].
  destruct (redis_fault w); [done|]. by rewrite Hdead.
Qed.

(** The cache round trip.  On a reachable cache [set] succeeds whenever
    the time to live it ends up with ([ttl], or the default when [ttl] is
    absent or 0) is positive.  A value that survives JSON is then returned
    by [get] at every time before that many seconds have passed, and from
    then on [get] returns [None]. *)
Theorem set_get_round_trip (cfg : env) (key : string) (value : pyval)
    (ttl : option Z) (w : world) (t : Z) :
  reachable w → 0 < ttl_or_default cfg ttl →
  Json.loads (Json.dumps value) = Ret value →
  fst (set cfg key value ttl w) = true
  ∧ (t < now w + ttl_or_default cfg ttl →
     fst (get key (at_time t (snd (set cfg key value ttl w)))) = value)
  ∧ (now w + ttl_or_default cfg ttl ≤ t →
     fst (get key (at_time t (snd (set cfg key value ttl w)))) = PyNone).
Proof.
  intros Hreach Httl Hjson.
  destruct (set_reachable cfg key value ttl w Hreach Httl)
    as (w1 & Hset & [Hc1 Hf1] & Hnow & _ & Hstore).
  rewrite Hset. cbn [fst snd]. split; [done|]. split.
  - intros Ht. apply (get_live key (Json.dumps value)
                        (Some (now w + ttl_or_default cfg ttl))); try done.
    + cbn. rewrite Hstore. apply lookup_insert_eq.
    + cbn. destruct (Z.ltb_spec t (now w + ttl_or_default cfg ttl)); [done | lia].
  - intros Ht. apply get_dead. unfold Redis.lookup. cbn. rewrite Hstore, lookup_insert_eq.
    cbn. destruct (Z.ltb_spec t (now w + ttl_or_default cfg ttl)); [lia | done].
Qed.

(** The denial message of the notes operation, stored without a time to
    live of its own: it is read back 299 seconds later. *)
Lemma set_get_round_trip_witness :
  fst (get "k" (at_time 299 (snd (set Scenario.cfg "k"
                                    (PyStr ClientNotesFunction.ACCESS_DENIED) None
                                    Scenario.fresh))))
  = PyStr ClientNotesFunction.ACCESS_DENIED.
Proof.
  apply (set_get_round_trip Scenario.cfg "k" (PyStr ClientNotesFunction.ACCESS_DENIED)
           None Scenario.fresh 299); by vm_compute.
Defined.

(** [get] reads only: whatever it returns, the store, the clock and the
    statements sent to the database are as before. *)
Lemma get_frame (key : string) (w : world) :
  touches_only [] w (snd (get key w)) ∧ executed (snd (get key w)) = executed w.
Proof.
  unfold get, Redis.call, Redis.GET. destruct (cache_client w); [|done]. cbn [negb].
  destruct (redis_fault w); [done|].
  destruct (Redis.lookup (redis w) (now w) key) as [[[|c text] expiry]|]; cbn; try done.
  by destruct (Json.loads (String c text)).
Qed.


(** On a reachable cache [delete] answers [True] whether or not the key
    was there; afterwards the key reads as a miss and every other key is
    as before. *)
Theorem delete_then_get (key : string) (w : world) :
  reachable w →
  fst (delete key w) = true
  ∧ fst (get key (snd (delete key w))) = PyNone
  ∧ (∀ k, k ≠ key → redis (snd (delete key w)) !! k = redis w !! k).
Proof.
  intros [Hc Hf]. unfold delete. rewrite Hc. cbn [negb].
  unfold Redis.call, Redis.DEL. rewrite Hf. cbn.
  split; [done|]. split.
  - apply get_dead. unfold Redis.lookup. cbn. by rewrite lookup_delete_eq.
  - intros k Hk. by rewrite lookup_delete_ne.
Qed.

Lemma delete_then_get_witness :
  fst (get "k" (snd (delete "k" (snd (set Scenario.cfg "k" (PyInt 7) None Scenario.fresh)))))
  = PyNone.
Proof.
  apply (delete_then_get "k" (snd (set Scenario.cfg "k" (PyInt 7) None Scenario.fresh))).
  by vm_compute.
Defined.

(** [increment] fails open.  When the key holds a text that is not a
    64-bit integer, as a cached result is, [increment] logs the error and
    returns 0 with the store untouched; the rate-limit check of a caller
    whose counter key holds such a text therefore passes every time. *)
Theorem increment_on_text_is_inert (key : string) (amount : Z) (w : world) (e : entry)
    (user : pydict) :
  reachable w →
  Redis.lookup (redis w) (now w) key = Some e →
  Redis.parse_int (e_value e) = None →
  fst (increment key amount w) = 0
  ∧ redis (snd (increment key amount w)) = redis w
  ∧ (key = BaseClientFunction.rate_limit_key user →
     fst (BaseClientFunction._check_rate_limit user w) = true
     ∧ redis (snd (BaseClientFunction._check_rate_limit user w)) = redis w).
Proof.
  intros [Hc Hf] He Hbad.
  assert (Hinc : ∀ k, k = key →
            increment k 1 w = (0, log "ERROR"
              "Cache increment error: value is not an integer or out of range" w)
            ∧ ∀ a, increment k a w = (0, log "ERROR"
              "Cache increment error: value is not an integer or out of range" w)).
  { intros k ->. assert (Hany : ∀ a, increment key a w = (0, log "ERROR"
              "Cache increment error: value is not an integer or out of range" w)).
    { intros a. unfold increment. rewrite Hc. cbn [negb].
      rewrite (call_raise _ w "value is not an integer or out of range" Hf); [done|].
      unfold Redis.INCRBY. by rewrite He, Hbad. }
    split; [apply Hany | exact Hany]. }
  destruct (Hinc key eq_refl) as [_ Hany]. rewrite (Hany amount).
  split; [done|]. split; [done|].
  intros ->. unfold BaseClientFunction._check_rate_limit.
  rewrite (Hany 1). cbn.
  pose proof (CacheFacts.rate_limit_lower_bound (BaseClientFunction.user_role user)).
  destruct (Z.ltb_spec (PermissionConfig.get_rate_limit
                          (BaseClientFunction.user_role user)) 0); [lia | done].
Qed.

(** A caller whose counter key was overwritten with a cached text. *)
Lemma increment_on_text_is_inert_witness :
  fst (BaseClientFunction._check_rate_limit Scenario.unauthorized
         (snd (set Scenario.cfg "rate_limit:user456" (PyStr "notes") None Scenario.fresh)))
  = true.
Proof.
  apply (increment_on_text_is_inert "rate_limit:user456" 1
           (snd (set Scenario.cfg "rate_limit:user456" (PyStr "notes") None Scenario.fresh))
           {| e_value := Json.dumps (PyStr "notes"); e_expiry := Some 300 |}
           Scenario.unauthorized); by vm_compute.
Defined.

(** [expire] gives a live key exactly [seconds] more to live and answers
    [True]; on a key that is missing or has expired it answers [False] and
    changes nothing. *)
Theorem expire_sets_deadline (key : string) (seconds : Z) (w : world) :
  reachable w → 0 < seconds →
  (∀ e, Redis.lookup (redis w) (now w) key = Some e →
     fst (expire key seconds w) = true
     ∧ ∀ t, Redis.lookup (redis (snd (expire key seconds w))) t key
            = if t <? now w + seconds
              then Some {| e_value := e_value e; e_expiry := Some (now w + seconds) |}
              else None)
  ∧ (Redis.lookup (redis w) (now w) key = None →
     fst (expire key seconds w) = false ∧ redis (snd (expire key seconds w)) = redis w).
Proof.
  intros [Hc Hf] Hs. unfold expire. rewrite Hc. cbn [negb].
  unfold Redis.call, Redis.EXPIRE. rewrite Hf. split.
  - intros e ->. destruct (Z.leb_spec seconds 0); [lia|]. cbn. split; [done|].
    intros t. unfold Redis.lookup. by rewrite lookup_insert_eq.
  - by intros ->.
Qed.

Lemma expire_sets_deadline_witness :
  fst (expire "rate_limit:user456" 3600 Scenario.fresh) = false.
Proof.
  apply (expire_sets_deadline "rate_limit:user456" 3600 Scenario.fresh);
    [done | lia | reflexivity].
Defined.

Lemma remove_dups_NoDup {A} `{EqDecision A} (l : list A) :
  NoDup l → remove_dups l = l.
Proof.
  induction 1 as [|x l Hx Hl IH]; [done|]. simpl.
  case_decide; [done | by rewrite IH].
Qed.

Lemma filter_all {A} (P : A → Prop) `{!∀ x, Decision (P x)} (l : list A) :
  Forall P l → filter P l = l.
Proof.
  induction 1 as [|x l Hx Hl IH]; [done|]. rewrite filter_cons_True by done.
  by rewrite IH.
Qed.

Lemma live_matches_spec (cfg : env) (pattern : string) (w : world) (k : string) :
  k ∈ live_matches cfg pattern w
  ↔ glob_match cfg pattern k = true ∧ is_Some (Redis.lookup (redis w) (now w) k).
Proof.
  unfold live_matches. rewrite list_elem_of_filter. split; [tauto|].
  intros [Hm Hlive]. split; [done|].
  destruct Hlive as [e He]. unfold Redis.lookup in He.
  destruct (redis w !! k) as [e'|] eqn:Hk; [|done].
  apply (list_elem_of_fmap_2 fst _ (k, e')). by apply elem_of_map_to_list.
Qed.

Lemma live_matches_NoDup (cfg : env) (pattern : string) (w : world) :
  NoDup (live_matches cfg pattern w).
Proof. apply NoDup_filter, NoDup_fst_map_to_list. Qed.

(** [clear_pattern] on a reachable cache returns the number of live keys
    that match the pattern; afterwards no key that matches is live, and
    every key that does not match is as it was. *)
Theorem clear_pattern_spec (cfg : env) (pattern : string) (w : world) :
  reachable w →
  fst (clear_pattern cfg pattern w) = Z.of_nat (length (live_matches cfg pattern w))
  ∧ (∀ k, glob_match cfg pattern k = true →
       Redis.lookup (redis (snd (clear_pattern cfg pattern w))) (now w) k = None)
  ∧ (∀ k, glob_match cfg pattern k = false →
       redis (snd (clear_pattern cfg pattern w)) !! k = redis w !! k).
Proof.
  intros [Hc Hf]. unfold clear_pattern. rewrite Hc. cbn [negb].
  assert (Hsame : set_redis (redis w) w = w) by by destruct w.
  rewrite (call_ok (Redis.KEYS (glob_match cfg pattern)) w
             (live_matches cfg pattern w) (redis w) Hf eq_refl), Hsame.
  pose proof (live_matches_spec cfg pattern w) as Hspec.
  pose proof (live_matches_NoDup cfg pattern w) as Hnodup.
  destruct (live_matches cfg pattern w) as [|k0 keys] eqn:Hkeys.
  - cbn [fst snd length]. split; [done|]. split; [|done].
    intros k Hk. destruct (Redis.lookup (redis w) (now w) k) eqn:Hl; [|done].
    exfalso. apply (not_elem_of_nil k), Hspec. by split.
  - assert (Hall : filter (fun k => is_Some (Redis.lookup (redis w) (now w) k))
                          (k0 :: keys) = k0 :: keys).
    { apply filter_all. apply Forall_forall. intros k Hk.
      by apply Hspec in Hk as [_ ?]. }
    rewrite (call_ok (Redis.DEL (k0 :: keys)) w
               (Z.of_nat (length (k0 :: keys))) (foldr base.delete (redis w) (k0 :: keys)) Hf).
    2:{ unfold Redis.DEL. by rewrite (remove_dups_NoDup _ Hnodup), Hall. }
    cbn [fst snd redis set_redis log].
    split; [done|]. split.
    + intros k Hk. unfold Redis.lookup.
      destruct (decide (k ∈ k0 :: keys)) as [Hin|Hout].
      * by rewrite lookup_foldr_delete.
      * rewrite lookup_foldr_delete_not_elem_of by done.
        destruct (redis w !! k) as [e|] eqn:Hst; [|done].
        destruct (Redis.live (now w) e) eqn:Hlive; [|done].
        exfalso. apply Hout, Hspec. split; [done|].
        unfold Redis.lookup. rewrite Hst, Hlive. by eexists.
    + intros k Hk. apply lookup_foldr_delete_not_elem_of.
      intros Hin%Hspec. destruct Hin as [Hm _]. congruence.
Qed.

(** Clearing after two calls have stored their results. *)
Lemma clear_pattern_spec_witness :
  fst (clear_pattern Scenario.cfg "get_all_notes:*"
         (snd (set Scenario.cfg "get_all_notes:a" (PyInt 1) None
                 (snd (set Scenario.cfg "get_all_notes:b" (PyInt 2) None Scenario.fresh)))))
  = 2.
Proof.
  destruct (clear_pattern_spec Scenario.cfg "get_all_notes:*"
              (snd (set Scenario.cfg "get_all_notes:a" (PyInt 1) None
                      (snd (set Scenario.cfg "get_all_notes:b" (PyInt 2) None
                              Scenario.fresh))))) as [Hcount _]; [by vm_compute|].
  rewrite Hcount. by vm_compute.
Defined.

End CacheLayerFacts.

(** ** More on query execution, sanitising and rate limiting *)

Module MediatorFacts.

Import BaseClientFunction PyStrFacts PipelineFacts RateLimitFacts.

(** A query that the store answers: [_execute_query] returns one dict
    per row, pairing the column names with the values of the row, after
    sending the lock timeout, the row cap and the query, in that order and
    nothing else; the row cap is [max_rows] unless that is absent or 0,
    when it is the configured one; the cache is not touched. *)
Theorem execute_query_success (cfg : env) (query : string) (params : list pyval)
    (max_rows : option Z) (use_cache : bool) (w : world)
    (columns : list string) (rows : list (list pyval))
    (r1 r2 : list string * list (list pyval)) :
  db_connect cfg = Ret tt →
  db_execute cfg "SET LOCK_TIMEOUT 5000" [] = Ret r1 →
  db_execute cfg ("SET ROWCOUNT " +:+ PyStr.of_Z (effective_max_rows cfg max_rows)) []
    = Ret r2 →
  db_execute cfg query params = Ret (columns, rows) →
  fst (_execute_query cfg query params max_rows use_cache w)
    = Ret (map (fun row => zip columns row) rows)
  ∧ executed (snd (_execute_query cfg query params max_rows use_cache w))
    = executed w
      ++ [ ("SET LOCK_TIMEOUT 5000", []);
           ("SET ROWCOUNT " +:+ PyStr.of_Z (effective_max_rows cfg max_rows), []);
           (query, params) ]
  ∧ same_store w (snd (_execute_query cfg query params max_rows use_cache w))
  ∧ effective_max_rows cfg None = max_query_rows cfg
  ∧ effective_max_rows cfg (Some 0) = max_query_rows cfg.
Proof.
  intros Hconn H1 H2 H3. unfold _execute_query.
  fold (effective_max_rows cfg max_rows).
  unfold run_query, cursor_execute. rewrite Hconn. cbn. rewrite H1. cbn. rewrite H2. cbn.
  rewrite H3. cbn. split; [done|]. split; [by rewrite <- !List.app_assoc|]. done.
Qed.

Lemma execute_query_success_witness :
  fst (_execute_query Scenario.cfg Scenario.NOTES_QUERY [PyInt 5; PyStr "CLIENT123"]
         (Some 0) true Scenario.fresh)
  = Ret [zip ["note_id"; "action_type"; "note_text"; "created_by"; "created_date"; "status"]
             Scenario.note].
Proof.
  by apply (execute_query_success Scenario.cfg Scenario.NOTES_QUERY
              [PyInt 5; PyStr "CLIENT123"] (Some 0) true Scenario.fresh
              ["note_id"; "action_type"; "note_text"; "created_by"; "created_date"; "status"]
              [Scenario.note] ([], []) ([], [])).
Defined.

(** A query that fails: whatever raised, [_execute_query] raises the one
    fixed text, the statement that failed is the last one sent, nothing is
    sent when the connection itself could not be had, and the cache is
    not touched. *)
Theorem execute_query_failure (cfg : env) (query : string) (params : list pyval)
    (max_rows : option Z) (use_cache : bool) (w : world) :
  (∀ msg w', _execute_query cfg query params max_rows use_cache w = (Raise msg, w') →
     msg = UNAVAILABLE
     ∧ same_store w w'
     ∧ ∃ k, (k < 3)%nat
            ∧ executed w'
              = executed w
                ++ take (S k) [ ("SET LOCK_TIMEOUT 5000", []);
                                ("SET ROWCOUNT "
                                 +:+ PyStr.of_Z (effective_max_rows cfg max_rows), []);
                                (query, params) ]
            ∨ executed w' = executed w ∧ ∃ detail, db_connect cfg = Raise detail)
  ∧ (∀ detail, db_connect cfg = Raise detail →
       fst (_execute_query cfg query params max_rows use_cache w) = Raise UNAVAILABLE
       ∧ executed (snd (_execute_query cfg query params max_rows use_cache w))
         = executed w).
Proof.
  unfold _execute_query. fold (effective_max_rows cfg max_rows).
  unfold run_query, cursor_execute. split.
  - intros msg w'. destruct (db_connect cfg) as [[]|detail]; cbn.
    + destruct (db_execute cfg "SET LOCK_TIMEOUT 5000" []) as [?|m1]; cbn.
      * destruct (db_execute cfg _ []) as [?|m2]; cbn.
        -- destruct (db_execute cfg query params) as [[columns rows]|m3]; cbn; [done|].
           intros [= <- <-]. split; [done|]. split; [done|].
           exists 2%nat. left. split; [lia|]. cbn. by rewrite <- !List.app_assoc.
        -- intros [= <- <-]. split; [done|]. split; [done|].
           exists 1%nat. left. split; [lia|]. cbn. by rewrite <- !List.app_assoc.
      * intros [= <- <-]. split; [done|]. split; [done|].
        exists 0%nat. left. split; [lia|]. done.
    + intros [= <- <-]. split; [done|]. split; [done|].
      exists 0%nat. right. split; [done | by exists detail].
  - intros detail ->. done.
Qed.

Lemma execute_query_failure_witness :
  fst (_execute_query Scenario.cfg_down Scenario.NOTES_QUERY [PyInt 5; PyStr "CLIENT123"]
         None true Scenario.fresh) = Raise UNAVAILABLE.
Proof.
  by apply (execute_query_failure Scenario.cfg_down Scenario.NOTES_QUERY
              [PyInt 5; PyStr "CLIENT123"] None true Scenario.fresh)
    with (detail := "[08001] Login timeout expired (dbo.notes)").
Defined.

(** *** Sanitising *)

Lemma replace_from_sublist (old : string) (skip : nat) (s : string) :
  PyStr.chars (PyStr.replace_from old "" skip s) `sublist_of` PyStr.chars s.
Proof.
  revert skip. induction s as [|d s IH]; intros skip; [done|].
  cbn [PyStr.replace_from]. destruct skip as [|k].
  - destruct (String.prefix old (String d s)).
    + change ("" +:+ ?x) with x. apply sublist_cons, IH.
    + apply sublist_skip, IH.
  - apply sublist_cons, IH.
Qed.

Lemma replace_sublist (old s : string) :
  PyStr.chars (PyStr.replace old "" s) `sublist_of` PyStr.chars s.
Proof.
  destruct old as [|a old]; cbn [PyStr.replace].
  - by rewrite intersperse_empty.
  - apply replace_from_sublist.
Qed.

Lemma strip_sublist (s : string) :
  PyStr.chars (PyStr.strip s) `sublist_of` PyStr.chars s.
Proof.
  unfold PyStr.strip, PyStr.lstrip.
  destruct (lstrip_from_suffix O s) as [p Hp].
  destruct (rstrip_prefix (PyStr.lstrip_from O s)) as [t Ht].
  rewrite Hp at 2. rewrite chars_app. apply sublist_inserts_l.
  rewrite Ht at 2. rewrite chars_app. by apply sublist_inserts_r.
Qed.

(** Sanitising only deletes: what [_sanitize_input] returns is the input
    with some characters left out, in the same order, and so is never
    longer than the input. *)
Theorem sanitize_only_deletes (value : string) :
  PyStr.chars (_sanitize_input (Some value)) `sublist_of` PyStr.chars value
  ∧ (String.length (_sanitize_input (Some value)) ≤ String.length value)%nat.
Proof.
  assert (Hsub : PyStr.chars (_sanitize_input (Some value)) `sublist_of` PyStr.chars value).
  { destruct value as [|a v]; [done|]. unfold _sanitize_input, dangerous.
    cbn [fold_left]. etrans; [apply strip_sublist|].
    do 5 (etrans; [apply replace_sublist|]). apply replace_sublist. }
  split; [exact Hsub|].
  apply sublist_length in Hsub.
  assert (Hlen : ∀ s, length (PyStr.chars s) = String.length s).
  { induction s as [|c s IH]; [done|]. cbn. by rewrite <- IH. }
  by rewrite !Hlen in Hsub.
Qed.

Lemma replace_absent (old s : string) :
  old ≠ "" → PyStr.contains old s = false → PyStr.replace old "" s = s.
Proof.
  intros Hold. destruct old as [|a old]; [done|]. cbn [PyStr.replace].
  induction s as [|d s IH]; [done|].
  cbn [PyStr.contains PyStr.replace_from]. intros [Hp Hrest]%orb_false_iff.
  rewrite Hp. by rewrite IH.
Qed.

Lemma strip_clean_identity (s : string) :
  PyStr.leading_space s = None → PyStr.trailing_space s = None → PyStr.strip s = s.
Proof.
  intros Hlead Htrail. unfold PyStr.strip.
  assert (Hl : PyStr.lstrip s = s).
  { unfold PyStr.lstrip. destruct s as [|c s]; [done|]. cbn [PyStr.lstrip_from].
    by rewrite Hlead. }
  rewrite Hl. unfold PyStr.rstrip. unfold PyStr.trailing_space in Htrail.
  destruct (String.rev s) as [|c r] eqn:Hrev.
  - cbn. rewrite <- (rev_involutive s). by rewrite Hrev.
  - cbn [PyStr.rstrip_from]. rewrite Htrail. rewrite <- Hrev. apply rev_involutive.
Qed.

(** A value with none of the six patterns in it and no whitespace at
    either end passes through [_sanitize_input] unchanged. *)
Theorem sanitize_keeps_clean_input (value : string) :
  Forall (fun pattern => PyStr.contains pattern value = false) dangerous →
  PyStr.leading_space value = None → PyStr.trailing_space value = None →
  _sanitize_input (Some value) = value.
Proof.
  intros Hclean Hlead Htrail. destruct value as [|a v]; [done|].
  unfold _sanitize_input, dangerous in *. cbn [fold_left].
  repeat (apply Forall_cons in Hclean as [? Hclean]).
  rewrite (replace_absent ";" (String a v)), (replace_absent "--" (String a v)),
    (replace_absent "/*" (String a v)), (replace_absent "*/" (String a v)),
    (replace_absent "xp_" (String a v)), (replace_absent "sp_" (String a v)) by done.
  by apply strip_clean_identity.
Qed.

Lemma sanitize_keeps_clean_input_witness :
  _sanitize_input (Some "CLIENT-123 (north)") = "CLIENT-123 (north)".
Proof. apply sanitize_keeps_clean_input; [by repeat constructor | done | done]. Defined.

(** *** Rate limiting *)

(** Once the counter has reached the limit, every further check within
    the window is refused, and each of them still adds one to the
    counter. *)
Theorem rate_limit_stays_exceeded (user : pydict) (w : world) (n deadline : Z)
    (times : list Z) :
  counter_is w (rate_limit_key user) n deadline →
  PermissionConfig.get_rate_limit (user_role user) ≤ n →
  n + Z.of_nat (length times) < 2 ^ 63 →
  Forall (fun t => t < deadline) times →
  ∃ w', rate_limit_checks user times w = (repeat false (length times), w')
        ∧ counter_is w' (rate_limit_key user) (n + Z.of_nat (length times)) deadline.
Proof.
  intros Hcount Hlimit Hmax Hall.
  pose proof (CacheFacts.rate_limit_lower_bound (user_role user)) as Hlow.
  destruct (checks_in_window user deadline times w n Hcount) as (w' & Hrun & Hcount');
    [lia | done | done |].
  exists w'. split; [|done]. rewrite Hrun. f_equal.
  assert (Hfalse : ∀ m start, (1 ≤ start)%nat →
            map (fun k => n + Z.of_nat k
                          <=? PermissionConfig.get_rate_limit (user_role user))
                (seq start m) = repeat false m).
  { induction m as [|m IH]; intros start Hstart; [done|].
    cbn [seq map repeat]. f_equal; [|apply IH; lia].
    destruct (Z.leb_spec (n + Z.of_nat start)
                (PermissionConfig.get_rate_limit (user_role user))); [lia | done]. }
  by apply Hfalse.
Qed.

(** A read-only caller, limit 100, whose counter already reads 100. *)
Lemma rate_limit_stays_exceeded_witness :
  ∃ w', rate_limit_checks Scenario.unauthorized [10; 20; 30]
          (set_redis {[ "rate_limit:user456" :=
                          {| e_value := "100"; e_expiry := Some 3600 |} ]} Scenario.fresh)
        = ([false; false; false], w').
Proof.
  destruct (rate_limit_stays_exceeded Scenario.unauthorized
              (set_redis {[ "rate_limit:user456" :=
                              {| e_value := "100"; e_expiry := Some 3600 |} ]} Scenario.fresh)
              100 3600 [10; 20; 30]) as (w' & Hrun & _).
  - by vm_compute.
  - by vm_compute.
  - by vm_compute.
  - repeat constructor; lia.
  - by exists w'.
Defined.

End MediatorFacts.

(** ** What a call touches *)

Module FrameFacts.

Import BaseClientFunction ClientNotesFunction CacheConfig.

Lemma touches_refl (w : world) : touches_only [] w w.
Proof. done. Qed.

Lemma touches_trans (a b : list string) (w w1 w2 : world) :
  touches_only a w w1 → touches_only b w1 w2 → touches_only (a ++ b) w w2.
Proof.
  intros (Hc1 & Hf1 & Hn1 & H1) (Hc2 & Hf2 & Hn2 & H2).
  repeat split; [congruence | congruence | congruence |].
  intros k Hk. rewrite not_elem_of_app in Hk. destruct Hk. by rewrite H2, H1.
Qed.

Lemma touches_weaken (a b : list string) (w w' : world) :
  a ⊆ b → touches_only a w w' → touches_only b w w'.
Proof.
  intros Hab (? & ? & ? & Hk). repeat split; try done.
  intros k Hkb. apply Hk. intros Hka. by apply Hkb, Hab.
Qed.

#[local] Ltac keys :=
  intros ?; rewrite ?elem_of_app, ?elem_of_cons, ?elem_of_nil; tauto.

Lemma touches_log (level msg : string) (w : world) : touches_only [] w (log level msg w).
Proof. done. Qed.

Lemma touches_same_store (w w' : world) : same_store w w' → touches_only [] w w'.
Proof. intros (? & ? & Hr & ?). repeat split; try done. intros k _. by rewrite Hr. Qed.

(** A command that changes no key outside [keys]. *)
Lemma call_touches {A} (cmd : gmap string entry → Z → res (A * gmap string entry))
    (keys : list string) (w : world) :
  (∀ a st, cmd (redis w) (now w) = Ret (a, st) →
     ∀ k, k ∉ keys → st !! k = redis w !! k) →
  touches_only keys w (snd (Redis.call cmd w)).
Proof.
  intros Hcmd. unfold Redis.call. destruct (redis_fault w); [done|].
  destruct (cmd (redis w) (now w)) as [[a st]|msg] eqn:E; [|done].
  repeat split; try done. cbn. by apply (Hcmd a).
Qed.

Lemma increment_touches (key : string) (amount : Z) (w : world) :
  touches_only [key] w (snd (increment key amount w)).
Proof.
  unfold increment. destruct (cache_client w) eqn:Hc; [|done]. cbn [negb].
  pose proof (call_touches (Redis.INCRBY key amount) [key] w) as H.
  destruct (Redis.call (Redis.INCRBY key amount) w) as [[n|msg] w1]; cbn [snd] in *.
  - apply H. intros a st. unfold Redis.INCRBY.
    destruct (Redis.lookup (redis w) (now w) key) as [e|];
      [destruct (Redis.parse_int (e_value e)) as [old|]; [|done]|];
      (destruct (Redis.int64_ok _); [|done]); intros [= <- <-] k Hk;
      apply lookup_insert_ne; set_solver.
  - apply (touches_trans [key] [] w w1); [|done]. apply H.
    intros a st. unfold Redis.INCRBY.
    destruct (Redis.lookup (redis w) (now w) key) as [e|];
      [destruct (Redis.parse_int (e_value e)) as [old|]; [|done]|];
      (destruct (Redis.int64_ok _); [|done]); intros [= <- <-] k Hk;
      apply lookup_insert_ne; set_solver.
Qed.

Lemma expire_touches (key : string) (seconds : Z) (w : world) :
  touches_only [key] w (snd (expire key seconds w)).
Proof.
  unfold expire. destruct (cache_client w) eqn:Hc; [|done]. cbn [negb].
  pose proof (call_touches (Redis.EXPIRE key seconds) [key] w) as H.
  assert (Hcmd : ∀ a st, Redis.EXPIRE key seconds (redis w) (now w) = Ret (a, st) →
                  ∀ k, k ∉ [key] → st !! k = redis w !! k).
  { intros a st. unfold Redis.EXPIRE.
    destruct (Redis.lookup (redis w) (now w) key) as [e|]; [|by intros [= <- <-]].
    destruct (seconds <=? 0); intros [= <- <-] k Hk;
      [apply lookup_delete_ne | apply lookup_insert_ne]; set_solver. }
  destruct (Redis.call (Redis.EXPIRE key seconds) w) as [[b|msg] w1]; cbn [snd] in *.
  - by apply H.
  - apply (touches_trans [key] [] w w1); [by apply H | done].
Qed.


Lemma check_rate_limit_touches (user : pydict) (w : world) :
  touches_only [rate_limit_key user] w (snd (_check_rate_limit user w)).
Proof.
  unfold _check_rate_limit.
  pose proof (increment_touches (rate_limit_key user) 1 w) as Hinc.
  destruct (increment (rate_limit_key user) 1 w) as [current w1]. cbn [snd] in Hinc.
  pose proof (expire_touches (rate_limit_key user) 3600 w1) as Hexp.
  assert (Hboth : touches_only [rate_limit_key user] w (snd (expire (rate_limit_key user) 3600 w1))).
  { apply (touches_weaken ([rate_limit_key user] ++ [rate_limit_key user])); [keys|].
    by apply (touches_trans _ _ w w1). }
  by destruct (current =? 1), (_ <? current).
Qed.

Lemma check_permissions_touches (cfg : env) (function_name : string) (user : pydict)
    (client_id : option string) (w : world) :
  touches_only [rate_limit_key user] w
    (snd (_check_permissions cfg function_name user client_id w)).
Proof.
  unfold _check_permissions.
  destruct (PermissionConfig.can_access_function _ _); cbn [negb];
    [|apply (touches_weaken []); [keys | done]].
  assert (Hrow : touches_only [] w
            (snd (if row_level_applies cfg client_id
                  then _can_access_client cfg user (default "" client_id) w
                  else (true, w)))).
  { destruct (row_level_applies cfg client_id); [|done].
    apply touches_same_store, PipelineFacts.can_access_client_frame. }
  destruct (if row_level_applies cfg client_id
            then _can_access_client cfg user (default "" client_id) w
            else (true, w)) as [[] w1]; cbn [snd] in Hrow.
  - pose proof (check_rate_limit_touches user w1) as Hrate.
    destruct (_check_rate_limit user w1) as [[] w2]; cbn [snd] in *.
    + by apply (touches_trans [] _ w w1).
    + apply (touches_trans [] _ w w1 _ Hrow).
      apply (touches_weaken ([rate_limit_key user] ++ [])); [keys|].
      by apply (touches_trans _ _ w1 w2).
  - apply (touches_weaken ([] ++ [])); [keys|].
    by apply (touches_trans _ _ w w1).
Qed.

Lemma body_touches (cfg : env) (client_id limit user : pyval) (w : world) :
  touches_only (caller_keys user) w (snd (get_all_notes_body cfg client_id limit user w)).
Proof.
  assert (Hnone : ∀ ks, touches_only ks w w).
  { intros ks. apply (touches_weaken []); [keys | done]. }
  unfold get_all_notes_body. destruct (PyRepr.truthy client_id); cbn [negb]; [|apply Hnone].
  destruct client_id as [| | |raw| | | |]; try apply Hnone.
  destruct (String.eqb (PyStr.strip raw) ""); [apply Hnone|].
  destruct user as [| | | | | | |u]; try apply Hnone. cbn [caller_keys].
  pose proof (check_permissions_touches cfg FUNCTION_NAME u
                (Some (_sanitize_input (Some raw))) w) as Hperm.
  destruct (_check_permissions cfg FUNCTION_NAME u _ w) as [[] w1]; cbn [negb snd] in *;
    [|done].
  destruct (notes_query cfg) as [[|c query]|]; try done.
  pose proof (PipelineFacts.execute_query_frame cfg (String c query)
                [limit; PyStr (_sanitize_input (Some raw))] None true w1) as [Hq _].
  apply touches_same_store in Hq.
  assert (Hw2 : ∀ w2, touches_only [] w1 w2 → touches_only [rate_limit_key u] w w2).
  { intros w2 H2. apply (touches_weaken ([rate_limit_key u] ++ [])); [keys|].
    by apply (touches_trans _ _ w w1). }
  destruct (_execute_query cfg (String c query) _ None true w1) as [[[|row rows]|msg] w2];
    cbn [snd] in Hq.
  - by apply Hw2.
  - destruct (format_rows _ _); cbn; apply Hw2; [done|].
    apply (touches_trans [] [] w1 w2); done.
  - cbn. apply Hw2. apply (touches_trans [] [] w1 w2); done.
Qed.

Lemma method_touches (cfg : env) (args : list pyval) (kwargs : pydict) (w : world) :
  ∃ keys, touches_only keys w (snd (method cfg args kwargs w)).
Proof.
  unfold method. destruct (Nat.ltb 3 (length args)); [by exists []|].
  destruct (negb _); [by exists []|].
  destruct (bind_parameter args kwargs 0 _ _) as [c|?]; [|by exists []].
  destruct (bind_parameter args kwargs 1 _ _) as [l|?]; [|by exists []].
  destruct (bind_parameter args kwargs 2 _ _) as [u|?]; [|by exists []].
  exists (caller_keys u). apply body_touches.
Qed.




End FrameFacts.

(** ** More on the notes operation *)

Module NotesCallFacts.

Import BaseClientFunction ClientNotesFunction CacheConfig NotesFacts.

(** Within five minutes of a call that missed the cache and returned a
    text, every call with the same cache key is answered from the cache
    with that text: a repeat of the call, and the same call made for
    another caller by keyword.  Such a call sends nothing to the database
    and leaves the store as it is. *)
Theorem repeat_call_is_served_from_cache (cfg : env) (args : list pyval)
    (kwargs kwargs' : pydict) (w w0 : world) (text : string) (t : Z) :
  reachable w →
  get (cache_key "get_all_notes" args kwargs) w = (PyNone, w0) →
  fst (get_all_notes cfg args kwargs w) = Ret (PyStr text) →
  Json.loads (Json.dumps (PyStr text)) = Ret (PyStr text) →
  cache_key "get_all_notes" args kwargs' = cache_key "get_all_notes" args kwargs →
  t < now w + 300 →
  fst (get_all_notes cfg args kwargs' (at_time t (snd (get_all_notes cfg args kwargs w))))
    = Ret (PyStr text)
  ∧ executed (snd (get_all_notes cfg args kwargs'
                     (at_time t (snd (get_all_notes cfg args kwargs w)))))
    = executed (snd (get_all_notes cfg args kwargs w))
  ∧ redis (snd (get_all_notes cfg args kwargs'
                  (at_time t (snd (get_all_notes cfg args kwargs w)))))
    = redis (snd (get_all_notes cfg args kwargs w)).
Proof.
  intros [Hc Hf] Hmiss Hres Hjson Hkey Ht.
  set (key := cache_key "get_all_notes" args kwargs) in *.
  destruct (CacheLayerFacts.get_frame key w) as [(Hc0 & Hf0 & Hn0 & _) _].
  rewrite Hmiss in Hc0, Hf0, Hn0. cbn [snd] in Hc0, Hf0, Hn0.
  destruct (FrameFacts.method_touches cfg args kwargs
              (log "INFO" ("Cache MISS: " +:+ key) w0)) as (ks & Hc1 & Hf1 & Hn1 & _).
  destruct (method cfg args kwargs (log "INFO" ("Cache MISS: " +:+ key) w0))
    as [[result|msg] w1] eqn:Hrun; cbn [snd log cache_client redis_fault now] in *.
  2:{ unfold get_all_notes, cache_result in Hres. fold key in Hres.
      by rewrite Hmiss, Hrun in Hres. }
  unfold get_all_notes in Hres |- *.
  rewrite (cache_result_miss cfg 300 "get_all_notes" (method cfg) args kwargs w w0 w1
             result Hmiss Hrun) in Hres |- *.
  cbn [fst] in Hres. injection Hres as ->. cbn [snd].
  destruct (CacheLayerFacts.set_reachable cfg key (PyStr text) (Some 300) w1)
    as (w2 & Hset & [Hc2 Hf2] & Hn2 & _ & Hstore); [split; congruence | done |].
  fold key. rewrite Hset. cbn [snd].
  assert (Hhit : fst (get key (at_time t w2)) = PyStr text).
  { apply (CacheLayerFacts.get_live key (Json.dumps (PyStr text)) (Some (now w1 + 300)));
      try done.
    - cbn. rewrite Hstore. apply lookup_insert_eq.
    - cbn. destruct (Z.ltb_spec t (now w1 + 300)); [done | lia]. }
  destruct (CacheLayerFacts.get_frame key (at_time t w2)) as [(_ & _ & _ & Hk) Hex].
  destruct (get key (at_time t w2)) as [v w3] eqn:Hget. cbn [fst snd] in *. subst v.
  rewrite (cache_result_hit cfg 300 "get_all_notes" (method cfg)
             args kwargs' (at_time t w2) w3 (PyStr text)).
  - cbn [fst snd log executed redis]. split; [done|]. split; [done|].
    apply map_eq. intros k. apply Hk, not_elem_of_nil.
  - by rewrite Hkey.
  - done.
Qed.

(** The read-only caller of the tests is refused; four minutes later the
    administrator makes the same call by keyword. *)
Lemma repeat_call_is_served_from_cache_witness :
  fst (get_all_notes Scenario.cfg [PyStr "CLIENT123"] [("__user__", PyDict Scenario.admin)]
         (at_time 240
            (snd (get_all_notes Scenario.cfg [PyStr "CLIENT123"]
                    [("__user__", PyDict Scenario.unauthorized)] Scenario.fresh))))
  = Ret (PyStr ACCESS_DENIED).
Proof.
  apply (repeat_call_is_served_from_cache Scenario.cfg [PyStr "CLIENT123"]
           [("__user__", PyDict Scenario.unauthorized)] [("__user__", PyDict Scenario.admin)]
           Scenario.fresh
           (snd (get (cache_key "get_all_notes" [PyStr "CLIENT123"]
                        [("__user__", PyDict Scenario.unauthorized)]) Scenario.fresh))
           ACCESS_DENIED 240); by vm_compute.
Defined.

(** The row-level check is made only for a client id that is a
    non-empty text and with row-level security on: without a client id,
    with the empty one, or with the switch set to anything but a spelling
    of [true], [_check_permissions] sends nothing to the database and its
    answer is the function-level check and the rate limit alone.  A client
    id that is not blank but of which sanitising leaves nothing, as [;]
    or [--], is therefore checked at the function level only. *)
Theorem row_level_check_is_skipped (cfg : env) (function_name : string)
    (user : pydict) (client_id : option string) (w : world) :
  row_level_applies cfg client_id = false →
  fst (_check_permissions cfg function_name user client_id w)
    = PermissionConfig.can_access_function (user_role user) function_name
      && fst (_check_rate_limit user w)
  ∧ executed (snd (_check_permissions cfg function_name user client_id w)) = executed w
  ∧ row_level_applies cfg None = false
  ∧ row_level_applies cfg (Some "") = false
  ∧ (∀ raw, sanitized (PyStr raw) = "" →
       row_level_applies cfg (Some (sanitized (PyStr raw))) = false).
Proof.
  intros Hskip. unfold _check_permissions. rewrite Hskip.
  split; [|split; [|split; [done | split; [done | by intros raw ->]]]].
  - destruct (PermissionConfig.can_access_function _ _); cbn [negb andb fst]; [|done].
    by destruct (_check_rate_limit user w) as [[] w1].
  - destruct (PermissionConfig.can_access_function _ _); cbn [negb]; [|done].
    pose proof (check_rate_limit_executed user w) as Hrate.
    by destruct (_check_rate_limit user w) as [[] w1].
Qed.

(** A support agent without an access row asks for the client [;]. *)
Lemma row_level_check_is_skipped_witness :
  invalid_client_id (PyStr ";") = false
  ∧ fst (_check_permissions Scenario.cfg FUNCTION_NAME Scenario.support
           (Some (sanitized (PyStr ";"))) Scenario.fresh) = true.
Proof.
  split; [done|].
  rewrite (proj1 (row_level_check_is_skipped Scenario.cfg FUNCTION_NAME Scenario.support
                    (Some (sanitized (PyStr ";"))) Scenario.fresh eq_refl)).
  by vm_compute.
Defined.

(** Without a query for the operation in the query file, or with an
    empty one, a call that passed validation and the permission check is
    answered with the configuration message; the permission check has
    taken place, the rate limit included, and nothing more is done. *)
Theorem missing_query_is_reported (cfg : env) (raw : string) (limit : pyval)
    (user : pydict) (w w1 : world) :
  invalid_client_id (PyStr raw) = false →
  _check_permissions cfg FUNCTION_NAME user (Some (sanitized (PyStr raw))) w = (true, w1) →
  notes_query cfg = None ∨ notes_query cfg = Some "" →
  get_all_notes_body cfg (PyStr raw) limit (PyDict user) w = (Ret (PyStr QUERY_MISSING), w1).
Proof.
  unfold invalid_client_id, sanitized. intros Hvalid Hperm Hquery.
  unfold get_all_notes_body.
  assert (Htruthy : PyRepr.truthy (PyStr raw) = true).
  { destruct raw; [discriminate Hvalid | reflexivity]. }
  rewrite Htruthy, Hvalid. cbn [negb]. rewrite Hperm. cbn [negb].
  by destruct Hquery as [-> | ->].
Qed.

Lemma missing_query_is_reported_witness :
  fst (get_all_notes_body
         {| default_ttl := 300; max_query_rows := 1000; ENABLE_ROW_LEVEL_SECURITY := None;
            notes_query := None; db_connect := Ret tt; db_execute := Scenario.database;
            glob_match := fun _ _ => true |}
         (PyStr "CLIENT123") (PyInt 100) (PyDict Scenario.admin) Scenario.fresh)
  = Ret (PyStr QUERY_MISSING).
Proof.
  erewrite missing_query_is_reported; [done | done | by vm_compute | by left].
Defined.

(** Arguments of the wrong type.  A client id that is truthy but not a
    str, and a caller that is not a dict given with a client id that
    passes validation, make the call raise [AttributeError]; when the
    cache was missed, nothing has been sent to the database, no counter
    was touched and nothing is stored in the cache. *)
Theorem ill_typed_call_raises (cfg : env) (client_id limit user : pyval) (w w0 : world) :
  get (cache_key "get_all_notes" [client_id; limit; user] []) w = (PyNone, w0) →
  ((PyRepr.truthy client_id = true ∧ ∀ raw, client_id ≠ PyStr raw) →
   Tools.get_all_notes cfg client_id limit user w
   = (Raise (no_attribute client_id "strip"),
      log "INFO" ("Cache MISS: "
                  +:+ cache_key "get_all_notes" [client_id; limit; user] []) w0))
  ∧ ((invalid_client_id client_id = false ∧ (∃ raw, client_id = PyStr raw)
      ∧ ∀ u, user ≠ PyDict u) →
     Tools.get_all_notes cfg client_id limit user w
     = (Raise (no_attribute user "get"),
        log "INFO" ("Cache MISS: "
                    +:+ cache_key "get_all_notes" [client_id; limit; user] []) w0)).
Proof.
  intros Hmiss. unfold Tools.get_all_notes, get_all_notes, cache_result.
  rewrite Hmiss.
  change (method cfg [client_id; limit; user] [] ?x)
    with (get_all_notes_body cfg client_id limit user x).
  unfold get_all_notes_body. split.
  - intros [Htruthy Hnot]. rewrite Htruthy. cbn [negb].
    destruct client_id; try done. by destruct (Hnot s).
  - intros (Hvalid & [raw ->] & Hnot). unfold invalid_client_id in Hvalid.
    assert (Htruthy : PyRepr.truthy (PyStr raw) = true).
    { destruct raw; [discriminate Hvalid | reflexivity]. }
    rewrite Htruthy, Hvalid. cbn [negb].
    destruct user; try done. by destruct (Hnot items).
Qed.

Lemma ill_typed_call_raises_witness :
  fst (Tools.get_all_notes Scenario.cfg (PyInt 123) (PyInt 100) (PyDict Scenario.admin)
         Scenario.fresh)
  = Raise "'int' object has no attribute 'strip'".
Proof.
  destruct (ill_typed_call_raises Scenario.cfg (PyInt 123) (PyInt 100)
              (PyDict Scenario.admin) Scenario.fresh
              (snd (get (cache_key "get_all_notes"
                           [PyInt 123; PyInt 100; PyDict Scenario.admin] [])
                      Scenario.fresh))) as [Hraise _]; [by vm_compute|].
  rewrite Hraise; [done|]. split; [done | by intros raw].
Defined.

Lemma format_row_well_formed (row : pydict) :
  (well_formed_row row = true → ∃ text, format_row row = Ret text)
  ∧ (well_formed_row row = false → ∃ msg, format_row row = Raise msg).
Proof.
  unfold well_formed_row, format_row, column. cbn [forallb].
  destruct (dict_get row "created_date") as [[| | | |d| | |]|]; cbn [andb];
    try (split; [done | by eexists]).
  destruct (dict_get row "action_type"), (dict_get row "note_text"),
    (dict_get row "created_by"), (dict_get row "status"); cbn;
    (split; [try done; by eexists | try done; by eexists]).
Qed.

Lemma format_rows_well_formed (rows : list pydict) (response : string) :
  (forallb well_formed_row rows = true →
   ∃ text, format_rows response rows = Ret (response +:+ text))
  ∧ (forallb well_formed_row rows = false → ∃ msg, format_rows response rows = Raise msg).
Proof.
  revert response. induction rows as [|row rows IH]; intros response.
  { split; [|done]. intros _. exists "". cbn. by rewrite PyStrFacts.app_empty_r. }
  cbn [forallb format_rows].
  destruct (format_row_well_formed row) as [Hok Hbad].
  destruct (well_formed_row row); cbn [andb].
  - destruct (Hok eq_refl) as [line ->].
    destruct (IH (response +:+ line)) as [IHok IHbad]. split.
    + intros Hrest. destruct (IHok Hrest) as [text ->].
      exists (line +:+ text). by rewrite PyStrFacts.app_assoc.
    + exact IHbad.
  - destruct (Hbad eq_refl) as [msg ->]. split; [done | by exists msg].
Qed.

(** What the caller gets once the query has returned.  No row: the text
    that no notes were found.  Rows that all carry a datetime under
    [created_date] and the four other columns: a text that starts with
    the header giving their number.  A single row without one of the
    columns, or with a [created_date] that is not a datetime (a string,
    as the mock of the repository's test has it): the generic error text,
    and nothing of the other rows. *)
Theorem notes_are_formatted_or_masked (cfg : env) (raw query : string) (limit : pyval)
    (user : pydict) (w w1 w2 : world) (results : list pydict) :
  invalid_client_id (PyStr raw) = false →
  _check_permissions cfg FUNCTION_NAME user (Some (sanitized (PyStr raw))) w = (true, w1) →
  notes_query cfg = Some query → query ≠ "" →
  _execute_query cfg query [limit; PyStr (sanitized (PyStr raw))] None true w1
    = (Ret results, w2) →
  (results = [] →
   get_all_notes_body cfg (PyStr raw) limit (PyDict user) w
   = (Ret (PyStr ("ℹ️ No notes found for client " +:+ sanitized (PyStr raw) +:+ ".")), w2))
  ∧ (results ≠ [] → forallb well_formed_row results = true →
     ∃ text,
       get_all_notes_body cfg (PyStr raw) limit (PyDict user) w
       = (Ret (PyStr (("📋 **" +:+ PyStr.of_Z (Z.of_nat (length results))
                       +:+ " notes for client " +:+ sanitized (PyStr raw) +:+ ":**"
                       +:+ PyStr.nl +:+ PyStr.nl) +:+ text)), w2))
  ∧ (forallb well_formed_row results = false →
     ∃ msg,
       get_all_notes_body cfg (PyStr raw) limit (PyDict user) w
       = (Ret (PyStr GENERIC_ERROR),
          log "ERROR" ("Error in " +:+ FUNCTION_NAME +:+ ": " +:+ msg) w2)).
Proof.
  unfold invalid_client_id, sanitized. intros Hvalid Hperm Hquery Hne Hrun.
  assert (Htruthy : PyRepr.truthy (PyStr raw) = true).
  { destruct raw; [discriminate Hvalid | reflexivity]. }
  unfold get_all_notes_body.
  rewrite Htruthy, Hvalid. cbn [negb]. rewrite Hperm. cbn [negb]. rewrite Hquery.
  destruct query as [|c query]; [done|]. rewrite Hrun.
  split; [by intros ->|]. split.
  - intros Hrows Hwf. destruct results as [|row rows]; [done|].
    match goal with |- context [format_rows ?h (row :: rows)] =>
      destruct (proj1 (format_rows_well_formed (row :: rows) h) Hwf) as [text ->] end.
    by exists text.
  - intros Hwf. destruct results as [|row rows]; [done|].
    match goal with |- context [format_rows ?h (row :: rows)] =>
      destruct (proj2 (format_rows_well_formed (row :: rows) h) Hwf) as [msg ->] end.
    by exists msg.
Qed.

(** The administrator of the tests against the mocked database. *)
Lemma notes_are_formatted_or_masked_witness :
  fst (get_all_notes_body Mocked.cfg (PyStr "CLIENT123") (PyInt 100)
         (PyDict Scenario.admin) Scenario.fresh)
  = Ret (PyStr GENERIC_ERROR).
Proof.
  destruct (notes_are_formatted_or_masked Mocked.cfg "CLIENT123" Scenario.NOTES_QUERY
              (PyInt 100) Scenario.admin Scenario.fresh
              (snd (_check_permissions Mocked.cfg FUNCTION_NAME Scenario.admin
                      (Some "CLIENT123") Scenario.fresh))
              (snd (_execute_query Mocked.cfg Scenario.NOTES_QUERY
                      [PyInt 100; PyStr "CLIENT123"] None true
                      (snd (_check_permissions Mocked.cfg FUNCTION_NAME Scenario.admin
                              (Some "CLIENT123") Scenario.fresh))))
              [zip Mocked.columns Mocked.row]) as (_ & _ & Hbad); [by vm_compute .. |].
  destruct (Hbad eq_refl) as [msg ->]. done.
Defined.

End NotesCallFacts.

(** ** The permission tables *)

Module PermissionTableFacts.

Import PermissionConfig.

(** The rate limit of every role lies between 100 and 1000 queries an
    hour; a role outside the five of the table gets 100, and no role gets
    more than the administrator. *)
Theorem rate_limit_bounds (role : string) :
  100 ≤ get_rate_limit role ≤ 1000
  ∧ (role ∉ [Role.ADMIN; Role.SALES; Role.SUPPORT; Role.FINANCE; Role.READONLY] →
     get_rate_limit role = 100)
  ∧ get_rate_limit role ≤ get_rate_limit Role.ADMIN.
Proof.
  split; [split; [apply CacheFacts.rate_limit_lower_bound
                 | apply RateLimitFacts.rate_limit_upper_bound]|].
  split; [|apply RateLimitFacts.rate_limit_upper_bound].
  intros Hnot. apply CacheFacts.rate_limit_default.
  unfold RATE_LIMITS. simpl.
  repeat (rewrite lookup_insert_ne; [|intros <-; apply Hnot; set_solver]).
  apply lookup_empty.
Qed.

#[local] Ltac known :=
  vm_compute; repeat split; eexists; reflexivity.

(** The tables agree on who exists: every role that the registry allows
    for some operation has a rate limit and data-access rules of its own,
    so that no registered role falls back on the defaults. *)
Theorem registered_roles_are_configured (function_name role : string) :
  role ∈ allowed_roles function_name →
  is_Some (RATE_LIMITS !! role) ∧ is_Some (DATA_ACCESS !! role).
Proof.
  unfold allowed_roles, FUNCTION_PERMISSIONS. simpl.
  repeat (rewrite lookup_insert; case_decide;
          [ simpl; intros Hin;
            repeat (apply elem_of_cons in Hin as [->|Hin]; [known|]);
            by apply elem_of_nil in Hin | ]).
  rewrite lookup_empty. simpl. by intros Hin%elem_of_nil.
Qed.

Lemma registered_roles_are_configured_witness :
  is_Some (RATE_LIMITS !! "support") ∧ is_Some (DATA_ACCESS !! "support").
Proof.
  apply (registered_roles_are_configured "get_client_notes" "support").
  change ("support" ∈ ["admin"; "sales"; "support"]). set_solver.
Defined.

(** Money stays with those who may see it: a role admitted to the total
    paid or to the payment history can view financials, and whoever can
    view financials can view all clients; a role outside the data-access
    table can view neither. *)
Theorem financial_access_is_consistent (role : string) :
  (can_access_function role "get_total_amount_paid" = true
   ∨ can_access_function role "get_payment_history" = true →
   can_view_financials role = true)
  ∧ (can_view_financials role = true → can_view_all_clients role = true)
  ∧ (DATA_ACCESS !! role = None →
     can_view_financials role = false ∧ can_view_all_clients role = false).
Proof.
  split; [|split].
  - unfold can_access_function. rewrite !orb_true_iff, !bool_decide_eq_true.
    intros [[Hin| ->]|[Hin| ->]]; try done;
      vm_compute in Hin;
      repeat (apply elem_of_cons in Hin as [->|Hin]; [done|]);
      by apply elem_of_nil in Hin.
  - unfold can_view_financials, can_view_all_clients, DATA_ACCESS. simpl.
    repeat (rewrite lookup_insert; case_decide; [by simpl|]).
    by rewrite lookup_empty.
  - unfold can_view_financials, can_view_all_clients. by intros ->.
Qed.

End PermissionTableFacts.

(** ** The connection test *)

Module DatabaseFacts.

Import DatabaseConfig.

(** [test_connection] never raises.  It answers [True] exactly when a
    connection is had and [SELECT 1] returns a first row whose first
    value equals 1; it sends that one statement when connected and none
    otherwise; and it leaves the cache alone. *)
Theorem test_connection_spec (cfg : env) (w : world) :
  (fst (test_connection cfg w) = true
   ↔ db_connect cfg = Ret tt
     ∧ ∃ columns v row rows,
         db_execute cfg "SELECT 1" [] = Ret (columns, (v :: row) :: rows)
         ∧ equals_one v = true)
  ∧ executed (snd (test_connection cfg w))
    = executed w ++ match db_connect cfg with
                    | Ret _ => [("SELECT 1", [])]
                    | Raise _ => []
                    end
  ∧ same_store w (snd (test_connection cfg w)).
Proof.
  unfold test_connection, BaseClientFunction.cursor_execute.
  destruct (db_connect cfg) as [[]|msg]; cbn.
  - destruct (db_execute cfg "SELECT 1" []) as [[columns [|[|v row] rows]]|m]; cbn.
    + split; [|done]. split; [done | by intros (_ & ? & ? & ? & ? & ? & _)].
    + split; [|done]. split; [done | by intros (_ & ? & ? & ? & ? & ? & _)].
    + split; [|done]. split.
      * intros Hone. split; [done|]. by exists columns, v, row, rows.
      * intros (_ & ? & ? & ? & ? & [= <- <- <- <-] & Hone). done.
    + split; [|done]. split; [done | by intros (_ & ? & ? & ? & ? & ? & _)].
  - split; [|by rewrite List.app_nil_r].
    split; [done | by intros [? _]].
Qed.

End DatabaseFacts.

(** ** The deployment validator *)

Module ValidatorFacts.

Import FunctionValidator.







End ValidatorFacts.

(** ** Metadata extraction for deployment *)

Module DeployFacts.

Import Deployer PyStrFacts.

Lemma split_from_nonempty (sep : string) (skip : nat) (s : string) :
  split_from sep skip s ≠ [].
Proof.
  revert skip. induction s as [|c s IH]; intros skip; [done|].
  cbn [split_from]. destruct skip as [|k]; [|apply IH].
  destruct (String.prefix sep (String c s)); [done|].
  by destruct (split_from sep 0 s).
Qed.

(** The first piece is the start of the text. *)
Lemma split_head_prefix (sep s : string) :
  ∃ q qs t, split_from sep 0 s = q :: qs ∧ s = q +:+ t.
Proof.
  induction s as [|c s IH]; [by exists "", [], ""|].
  cbn [split_from]. destruct (String.prefix sep (String c s)).
  - by exists "", (split_from sep (Nat.pred (String.length sep)) s), (String c s).
  - destruct IH as (q & qs & t & -> & Hs). exists (String c q), qs, t.
    split; [done|]. by rewrite app_cons, <- Hs.
Qed.

(** A text in which [sep] occurs splits into two pieces at least. *)
Lemma split_two (sep s : string) :
  sep ≠ "" → PyStr.contains sep s = true →
  ∃ a b rest, split_from sep 0 s = a :: b :: rest.
Proof.
  intros Hsep. induction s as [|c s IH]; intros Hin.
  - destruct sep; [done | discriminate Hin].
  - cbn [split_from]. cbn [PyStr.contains] in Hin.
    destruct (String.prefix sep (String c s)).
    + pose proof (split_from_nonempty sep (Nat.pred (String.length sep)) s) as Hne.
      destruct (split_from sep (Nat.pred (String.length sep)) s) as [|b rest]; [done|].
      by exists "", b, rest.
    + destruct (IH Hin) as (a & b & rest & ->). by exists (String c a), b, rest.
Qed.

(** A text in which [sep] does not occur is its own single piece. *)
Lemma split_single (sep s : string) :
  PyStr.contains sep s = false → split_from sep 0 s = [s].
Proof.
  induction s as [|c s IH]; [done|].
  cbn [split_from PyStr.contains]. intros [-> Hrest]%orb_false_iff.
  by rewrite (IH Hrest).
Qed.

Lemma contains_empty (s : string) : PyStr.contains "" s = true.
Proof. by destruct s. Qed.

Lemma contains_cons (p : string) (c : ascii) (s : string) :
  PyStr.contains p s = true → PyStr.contains p (String c s) = true.
Proof. intros H. cbn [PyStr.contains]. rewrite H. apply orb_true_r. Qed.

Lemma contains_at (p pre post : string) :
  PyStr.contains p (pre +:+ p +:+ post) = true.
Proof.
  induction pre as [|c pre IH]; [|rewrite app_cons; by apply contains_cons].
  change ("" +:+ ?x) with x.
  assert (Hp : String.prefix p (p +:+ post) = true) by (apply prefix_true; by exists post).
  destruct (p +:+ post); cbn [PyStr.contains]; by rewrite Hp.
Qed.

(** What occurs in a piece occurs in the text. *)
Lemma piece_contains (sep p : string) (skip : nat) (s piece : string) :
  piece ∈ split_from sep skip s → PyStr.contains p piece = true →
  PyStr.contains p s = true.
Proof.
  revert skip piece. induction s as [|c s IH]; intros skip piece.
  - cbn [split_from]. by intros ->%list_elem_of_singleton.
  - cbn [split_from]. destruct skip as [|k].
    + destruct (String.prefix sep (String c s)).
      * intros [->|Hin]%elem_of_cons Hp.
        -- destruct p; [apply contains_empty | discriminate Hp].
        -- apply contains_cons. exact (IH _ piece Hin Hp).
      * destruct (split_head_prefix sep s) as (q & qs & t & Hsplit & Hs).
        rewrite Hsplit. intros [->|Hin]%elem_of_cons Hp.
        -- cbn [PyStr.contains] in Hp. apply orb_true_iff in Hp as [Hp|Hp].
           ++ cbn [PyStr.contains]. apply orb_true_iff. left.
              rewrite Hs, <- app_cons. by apply prefix_extend.
           ++ apply contains_cons, (IH 0%nat q); [|done]. rewrite Hsplit. by left.
        -- apply contains_cons, (IH 0%nat piece); [|done]. rewrite Hsplit. by right.
    + intros Hin Hp. by apply contains_cons, (IH k piece).
Qed.

(** Lines: a one-character separator never leaves a match to jump over. *)
Lemma split_char_app (c : ascii) (a b : string) :
  split_from (String c "") 0 (a +:+ String c b)
  = split_from (String c "") 0 a ++ split_from (String c "") 0 b.
Proof.
  assert (Hp : ∀ x, String.prefix "" x = true) by by intros [].
  induction a as [|d a IH].
  - change ("" +:+ ?x) with x. cbn [split_from String.prefix String.length Nat.pred].
    destruct (ascii_dec c c); [|done]. by rewrite Hp.
  - rewrite app_cons. cbn [split_from String.prefix String.length Nat.pred].
    destruct (ascii_dec c d) as [->|Hne].
    + rewrite !Hp. by rewrite IH.
    + rewrite IH.
      pose proof (split_from_nonempty (String c "") 0 a) as Hn.
      by destruct (split_from (String c "") 0 a).
Qed.

Lemma split_from_skip (sep t post : string) :
  split_from sep (String.length t) (t +:+ post) = split_from sep 0 post
  ∨ (post = "" ∧ split_from sep (String.length t) (t +:+ post) = [""]).
Proof.
  induction t as [|c t IH].
  - left. by change ("" +:+ ?x) with x.
  - rewrite app_cons. cbn [String.length split_from]. exact IH.
Qed.

Lemma split_from_jump (sep t post : string) :
  split_from sep (String.length t) (t +:+ post) = split_from sep 0 post.
Proof.
  destruct (split_from_skip sep t post) as [?|[-> ->]]; [done|]. done.
Qed.

Lemma length_app (a b : string) :
  String.length (a +:+ b) = (String.length a + String.length b)%nat.
Proof. induction a as [|c a IH]; [done|]. rewrite app_cons. cbn. by rewrite IH. Qed.

(** Whether [sep] starts a text is decided by the first characters. *)
Lemma prefix_long (sep a b : string) :
  (String.length sep ≤ String.length a)%nat →
  String.prefix sep (a +:+ b) = String.prefix sep a.
Proof.
  revert a. induction sep as [|c sep IH]; intros a Hlen; [by destruct a, b|].
  destruct a as [|d a]; [cbn in Hlen; lia|].
  rewrite app_cons. cbn [String.prefix]. destruct (ascii_dec c d); [|done].
  apply IH. cbn in Hlen. lia.
Qed.

(** The first match of [sep0 +:+ c] is where no earlier one starts. *)
Lemma split_at_first (sep0 : string) (c : ascii) (pre post : string) :
  PyStr.contains (sep0 +:+ String c "") (pre +:+ sep0) = false →
  split_from (sep0 +:+ String c "") 0 (pre +:+ (sep0 +:+ String c "") +:+ post)
  = pre :: split_from (sep0 +:+ String c "") 0 post.
Proof.
  set (sep := sep0 +:+ String c "").
  assert (Hlen : String.length sep = S (String.length sep0)).
  { unfold sep. rewrite length_app. cbn. lia. }
  induction pre as [|d pre IH]; intros Hnone.
  - change ("" +:+ ?x) with x.
    destruct sep as [|a sep'] eqn:Hsep; [done|].
    rewrite app_cons. cbn [split_from].
    assert (Hp : String.prefix (String a sep') (String a (sep' +:+ post)) = true).
    { apply prefix_true. by exists post. }
    rewrite Hp. f_equal. cbn [String.length Nat.pred]. apply split_from_jump.
  - rewrite app_cons. cbn [split_from].
    cbn [PyStr.contains] in Hnone. rewrite app_cons in Hnone.
    apply orb_false_iff in Hnone as [Hhere Hrest].
    assert (Hp : String.prefix sep (String d (pre +:+ sep +:+ post)) = false).
    { assert (Heq : String d (pre +:+ sep +:+ post)
                    = String d (pre +:+ sep0) +:+ String c post).
      { unfold sep. rewrite app_cons. f_equal. by rewrite !app_assoc. }
      rewrite Heq, prefix_long; [done|].
      rewrite Hlen. cbn [String.length]. rewrite length_app. lia. }
    rewrite Hp. by rewrite (IH Hrest).
Qed.

Lemma second_piece_at_first (sep0 : string) (c : ascii) (pre post : string) :
  PyStr.contains (sep0 +:+ String c "") (pre +:+ sep0) = false →
  PyStr.contains (sep0 +:+ String c "") post = false →
  second_piece (sep0 +:+ String c "") (pre +:+ (sep0 +:+ String c "") +:+ post)
  = Ret post.
Proof.
  intros Hpre Hpost. unfold second_piece, split.
  by rewrite (split_at_first sep0 c pre post Hpre), (split_single _ _ Hpost).
Qed.

Lemma second_piece_total (sep line : string) :
  sep ≠ "" → PyStr.contains sep line = true → ∃ piece, second_piece sep line = Ret piece.
Proof.
  intros Hsep Hin. unfold second_piece, split.
  destruct (split_two sep line Hsep Hin) as (a & b & rest & ->). by exists b.
Qed.

(** *** Stripping quotes *)

Lemma lstrip_any_suffix (chars : list ascii) (s : string) :
  ∃ p, s = p +:+ lstrip_any chars s.
Proof.
  induction s as [|c s IH]; [by exists ""|]. cbn [lstrip_any].
  destruct (existsb (Ascii.eqb c) chars); [|by exists ""].
  destruct IH as [p Hp]. exists (String c p). by rewrite app_cons, <- Hp.
Qed.

Lemma lstrip_any_idem (chars : list ascii) (s : string) :
  lstrip_any chars (lstrip_any chars s) = lstrip_any chars s.
Proof.
  induction s as [|c s IH]; [done|]. cbn [lstrip_any].
  destruct (existsb (Ascii.eqb c) chars) eqn:Hc; [done|].
  cbn [lstrip_any]. by rewrite Hc.
Qed.

Lemma lstrip_any_start (chars : list ascii) (a t : string) :
  a ≠ "" → lstrip_any chars (a +:+ t) = a +:+ t → lstrip_any chars a = a.
Proof.
  destruct a as [|c a]; [done|]. intros _. rewrite app_cons. cbn [lstrip_any].
  destruct (existsb (Ascii.eqb c) chars); [|done].
  intros Heq. exfalso.
  destruct (lstrip_any_suffix chars (a +:+ t)) as [p Hp].
  rewrite Heq in Hp.
  assert (Hlen : String.length (a +:+ t)
                 = (String.length p + S (String.length (a +:+ t)))%nat).
  { rewrite Hp at 1. by rewrite length_app. }
  lia.
Qed.

Lemma strip_any_idem (chars : list ascii) (s : string) :
  strip_any chars (strip_any chars s) = strip_any chars s.
Proof.
  unfold strip_any. set (x := lstrip_any chars s).
  set (y := lstrip_any chars (String.rev x)).
  assert (Hhead : lstrip_any chars (String.rev y) = String.rev y).
  { destruct (lstrip_any_suffix chars (String.rev x)) as [p Hp]. fold y in Hp.
    destruct (String.rev y) as [|h r] eqn:Hy; [done|].
    apply (lstrip_any_start chars (String h r) (String.rev p)); [done|].
    rewrite <- Hy, <- rev_app_distr, <- Hp, rev_involutive.
    apply lstrip_any_idem. }
  rewrite Hhead, rev_involutive. unfold y. by rewrite lstrip_any_idem.
Qed.

(** *** The loop *)

Lemma defaults_well_formed : well_formed defaults.
Proof. exists "Unknown", "0.0.0", "unknown". by vm_compute. Qed.

Lemma read_line_total (m : gmap string string) (line : string) :
  well_formed m → ∃ m', read_line m line = Ret m' ∧ well_formed m'.
Proof.
  intros (title & version & id & Ht & Hv & Hi & Ht1 & Ht2 & Hv1 & Hv2 & Hid).
  unfold read_line.
  destruct (PyStr.contains "title:" line) eqn:H1.
  { destruct (second_piece_total "title:" line) as [piece ->]; [done | done |].
    eexists. split; [done|].
    destruct (strip_clean piece) as [? ?].
    exists (PyStr.strip piece), version, id.
    by rewrite lookup_insert_eq, !lookup_insert_ne. }
  destruct (PyStr.contains "version:" line) eqn:H2.
  { destruct (second_piece_total "version:" line) as [piece ->]; [done | done |].
    eexists. split; [done|].
    destruct (strip_clean piece) as [? ?].
    exists title, (PyStr.strip piece), id.
    by rewrite lookup_insert_eq, !lookup_insert_ne. }
  destruct (PyStr.contains "FUNCTION_NAME" line && PyStr.contains "=" line) eqn:H3.
  { apply andb_true_iff in H3 as [_ H3].
    destruct (second_piece_total "=" line) as [piece ->]; [done | done |].
    eexists. split; [done|].
    exists title, version, (strip_any quotes (PyStr.strip piece)).
    rewrite lookup_insert_eq, !lookup_insert_ne by done.
    by rewrite strip_any_idem. }
  exists m. split; [done|]. by exists title, version, id.
Qed.

Lemma read_lines_total (lines : list string) (m : gmap string string) :
  well_formed m → ∃ m', read_lines m lines = Ret m' ∧ well_formed m'.
Proof.
  revert m. induction lines as [|line lines IH]; intros m Hm; [by exists m|].
  cbn [read_lines]. destruct (read_line_total m line Hm) as (m1 & -> & Hm1).
  by apply IH.
Qed.

Lemma read_lines_app (l1 l2 : list string) (m : gmap string string) :
  read_lines m (l1 ++ l2)
  = match read_lines m l1 with
    | Ret m1 => read_lines m1 l2
    | Raise msg => Raise msg
    end.
Proof.
  revert m. induction l1 as [|line l1 IH]; intros m; [done|].
  cbn [read_lines app]. by destruct (read_line m line).
Qed.

(** [_extract_metadata] never raises: the index 1 it takes of a split is
    there whenever the test before it passed.  What it returns has the
    three keys [title], [version] and [id], a title and a version with no
    whitespace at either end, and an id with no quote at either end. *)
Theorem extract_metadata_total (code : string) :
  ∃ metadata, _extract_metadata code = Ret metadata ∧ well_formed metadata.
Proof. apply read_lines_total, defaults_well_formed. Qed.

(** A key that a line does not set is as it was. *)
Lemma read_line_keeps (m m' : gmap string string) (line : string) :
  read_line m line = Ret m' →
  (PyStr.contains "title:" line = false → m' !! "title" = m !! "title")
  ∧ (PyStr.contains "version:" line = false → m' !! "version" = m !! "version")
  ∧ (PyStr.contains "FUNCTION_NAME" line && PyStr.contains "=" line = false →
     m' !! "id" = m !! "id").
Proof.
  unfold read_line.
  destruct (PyStr.contains "title:" line).
  { destruct (second_piece "title:" line); [|done]. intros [= <-].
    split; [done|]. by rewrite !lookup_insert_ne. }
  destruct (PyStr.contains "version:" line).
  { destruct (second_piece "version:" line); [|done]. intros [= <-].
    split; [by rewrite lookup_insert_ne|]. split; [done|]. by rewrite lookup_insert_ne. }
  destruct (PyStr.contains "FUNCTION_NAME" line && PyStr.contains "=" line).
  { destruct (second_piece "=" line); [|done]. intros [= <-].
    split; [by rewrite lookup_insert_ne|]. split; [by rewrite lookup_insert_ne | done]. }
  by intros [= <-].
Qed.

Lemma read_lines_keeps (key : string) (test : string → bool) (lines : list string) :
  (∀ m m' line, read_line m line = Ret m' → test line = false → m' !! key = m !! key) →
  Forall (fun line => test line = false) lines →
  ∀ m m', read_lines m lines = Ret m' → m' !! key = m !! key.
Proof.
  intros Hstep. induction 1 as [|line lines Hline Hlines IH]; intros m m'.
  - by intros [= <-].
  - cbn [read_lines]. destruct (read_line m line) as [m1|] eqn:H1; [|done].
    intros Hrest. rewrite (IH m1 m' Hrest). by apply (Hstep m m1 line).
Qed.

Lemma lines_without (p code : string) :
  PyStr.contains p code = false →
  Forall (fun line => PyStr.contains p line = false) (split PyStr.nl code).
Proof.
  intros Hnone. apply Forall_forall. intros line Hin.
  destruct (PyStr.contains p line) eqn:Hp; [|done].
  by rewrite (piece_contains PyStr.nl p 0 code line Hin Hp) in Hnone.
Qed.

(** What the file does not say is deployed under the default: without
    [title:] anywhere in the code the title is [Unknown], without
    [version:] the version is [0.0.0], and without [FUNCTION_NAME] or
    without an equals sign the id is [unknown]. *)
Theorem missing_metadata_defaults (code : string) (metadata : gmap string string) :
  _extract_metadata code = Ret metadata →
  (PyStr.contains "title:" code = false → metadata !! "title" = Some "Unknown")
  ∧ (PyStr.contains "version:" code = false → metadata !! "version" = Some "0.0.0")
  ∧ (PyStr.contains "FUNCTION_NAME" code = false ∨ PyStr.contains "=" code = false →
     metadata !! "id" = Some "unknown").
Proof.
  unfold _extract_metadata. intros Hrun. split; [|split].
  - intros Hnone.
    rewrite (read_lines_keeps "title" (PyStr.contains "title:") _
               (fun m m' line H => proj1 (read_line_keeps m m' line H))
               (lines_without _ _ Hnone) _ _ Hrun).
    done.
  - intros Hnone.
    rewrite (read_lines_keeps "version" (PyStr.contains "version:") _
               (fun m m' line H => proj1 (proj2 (read_line_keeps m m' line H)))
               (lines_without _ _ Hnone) _ _ Hrun).
    done.
  - intros Hnone.
    rewrite (read_lines_keeps "id"
               (fun line => PyStr.contains "FUNCTION_NAME" line && PyStr.contains "=" line) _
               (fun m m' line H => proj2 (proj2 (read_line_keeps m m' line H)))
               ltac:(destruct Hnone as [Hnone|Hnone];
                     eapply Forall_impl; [apply (lines_without _ _ Hnone) | | apply (lines_without _ _ Hnone) | ];
                     cbv beta; intros line ->; [done | apply andb_false_r]) _ _ Hrun).
    done.
Qed.

Lemma missing_metadata_defaults_witness :
  _extract_metadata ("import os" +:+ PyStr.nl +:+ "version: 2.1.0")
  = Ret (<["version" := "2.1.0"]> defaults)
  ∧ (<["version" := "2.1.0"]> defaults) !! "title" = Some "Unknown".
Proof.
  assert (Hrun : _extract_metadata ("import os" +:+ PyStr.nl +:+ "version: 2.1.0")
                 = Ret (<["version" := "2.1.0"]> defaults)) by by vm_compute.
  split; [exact Hrun|].
  by apply (missing_metadata_defaults _ _ Hrun).
Defined.

(** The last word on the version.  A line that has [version:] anywhere in
    it and no [title:] sets the version, whatever stands before
    [version:] on the line; added to the end of a file it replaces the
    version the file gave before.  So the line
    [required_open_webui_version: 0.3.0] that follows [version: 1.0.0] in
    the header of [client_notes.py] makes 0.3.0 the version deployed. *)
Theorem later_version_line_wins (code pre post : string)
    (metadata : gmap string string) :
  _extract_metadata code = Ret metadata →
  PyStr.contains PyStr.nl (pre +:+ "version:" +:+ post) = false →
  PyStr.contains "title:" (pre +:+ "version:" +:+ post) = false →
  PyStr.contains "version:" (pre +:+ "version") = false →
  PyStr.contains "version:" post = false →
  _extract_metadata (code +:+ PyStr.nl +:+ pre +:+ "version:" +:+ post)
  = Ret (<["version" := PyStr.strip post]> metadata).
Proof.
  unfold _extract_metadata, split. intros Hrun Hline Htitle Hpre Hpost.
  change PyStr.nl with (String (PyStr.chr 10) "") at 2.
  rewrite app_cons. change ("" +:+ ?x) with x.
  change PyStr.nl with (String (PyStr.chr 10) "").
  rewrite split_char_app, read_lines_app.
  change (String (PyStr.chr 10) "") with PyStr.nl. rewrite Hrun.
  rewrite (split_single _ _ Hline). cbn [read_lines]. unfold read_line.
  rewrite Htitle.
  rewrite (contains_at "version:" pre post).
  pose proof (second_piece_at_first "version" ":"%char pre post Hpre Hpost) as Hpiece.
  change ("version" +:+ ":") with "version:" in Hpiece. by rewrite Hpiece.
Qed.

(** The header of [client_notes.py]. *)
Lemma later_version_line_wins_witness :
  _extract_metadata
    ("title: Client Notes" +:+ PyStr.nl +:+ "author: fucci" +:+ PyStr.nl
     +:+ "version: 1.0.0" +:+ PyStr.nl
     +:+ "required_open_webui_" +:+ "version:" +:+ " 0.3.0")
  = Ret (<["version" := "0.3.0"]>
           (<["version" := "1.0.0"]> (<["title" := "Client Notes"]> defaults))).
Proof.
  rewrite <- (later_version_line_wins
                ("title: Client Notes" +:+ PyStr.nl +:+ "author: fucci" +:+ PyStr.nl
                 +:+ "version: 1.0.0")
                "required_open_webui_" " 0.3.0"
                (<["version" := "1.0.0"]> (<["title" := "Client Notes"]> defaults)));
    [|by vm_compute ..].
  by rewrite !app_assoc.
Defined.

End DeployFacts.
